(** * Sleep_score: the statistics and cross-validation helpers of [functions.py]

    A shallow embedding of the regression metrics, the Cramer's V routines,
    the cross-validation score normaliser, the comparison-table filler and the
    fold-splitter selection, followed by the properties the specification
    states about them.

    Conventions of the embedding.
    - A float is an exact rational ([Qc]) or one of the IEEE special values;
      rounding error of binary64 arithmetic and signed zeros are not
      represented.  The square root, which leaves the rationals, and the
      [.4f] formatter are parameters of the development.
    - Python objects that are mutated in place (the score dictionary, the
      comparison table) live in a heap and are passed by reference.
    - A Python function is a computation in the [Py] monad: it threads the
      heap and the standard output, and either returns or raises. *)

From Stdlib Require Import ZArith QArith Qcanon Qround String List Bool Lia.
From stdpp Require Import base option list numbers strings gmap sorting.

#[local] Set Warnings "-clear-no-such-hyp".

Local Open Scope Qc_scope.
Local Open Scope string_scope.
Local Open Scope list_scope.

(** ** Numbers *)

Module Num.

(** A numpy float64 value. *)
Inductive np_float : Type :=
| Fin (q : Qc)
| PInf
| NInf
| NaN.

#[global] Instance np_float_eq_dec : EqDecision np_float.
Proof. solve_decision. Defined.

Definition of_Z (z : Z) : Qc := Qc_of_Z z.
Definition of_nat (n : nat) : Qc := Qc_of_Z (Z.of_nat n).

(** [a < b]; every comparison with NaN is false. *)
Definition ltb (a b : np_float) : bool :=
  match a, b with
  | NaN, _ | _, NaN => false
  | Fin x, Fin y => bool_decide (x < y)
  | NInf, NInf => false
  | NInf, _ => true
  | _, NInf => false
  | PInf, _ => false
  | Fin _, PInf => true
  end.

(** [a == b] as the float comparison: NaN equals nothing, itself included. *)
Definition eqb (a b : np_float) : bool :=
  match a, b with
  | Fin x, Fin y => bool_decide (x = y)
  | PInf, PInf | NInf, NInf => true
  | _, _ => false
  end.

Definition opp (a : np_float) : np_float :=
  match a with
  | Fin x => Fin (- x)
  | PInf => NInf
  | NInf => PInf
  | NaN => NaN
  end.

Definition add (a b : np_float) : np_float :=
  match a, b with
  | NaN, _ | _, NaN => NaN
  | Fin x, Fin y => Fin (x + y)
  | PInf, NInf | NInf, PInf => NaN
  | PInf, _ | _, PInf => PInf
  | NInf, _ | _, NInf => NInf
  end.

Definition sub (a b : np_float) : np_float := add a (opp b).

(** numpy division: a zero divisor gives NaN or an infinity (with a
    warning), never an exception. *)
Definition div (a b : np_float) : np_float :=
  match a, b with
  | NaN, _ | _, NaN => NaN
  | Fin x, Fin y =>
      if decide (y = 0) then
        if decide (x = 0) then NaN
        else if decide (0 < x) then PInf else NInf
      else Fin (x / y)
  | Fin _, _ => Fin 0
  | _, PInf | _, NInf => NaN
  | PInf, Fin y => if decide (y < 0) then NInf else PInf
  | NInf, Fin y => if decide (y < 0) then PInf else NInf
  end.

Definition abs (x : Qc) : Qc := if decide (x < 0) then - x else x.

Definition fabs (a : np_float) : np_float :=
  match a with
  | Fin x => Fin (abs x)
  | PInf | NInf => PInf
  | NaN => NaN
  end.

Definition sum (l : list Qc) : Qc := foldr Qcplus 0 l.

(** Nearest integer, ties to even. *)
Definition rint (q : Qc) : Z :=
  let f := Qfloor q in
  let r := q - of_Z f in
  if decide (r < 1 / 2) then f
  else if decide (1 / 2 < r) then (f + 1)%Z
  else if Z.even f then f else (f + 1)%Z.

(** [round(v, ndigits)]. *)
Definition py_round (v : np_float) (ndigits : nat) : np_float :=
  match v with
  | Fin q =>
      let s := of_Z (10 ^ Z.of_nat ndigits) in
      Fin (of_Z (rint (q * s)) / s)
  | _ => v
  end.

Section Sqrt.

(** The square root on non-negative finite values. *)
Variable sqrt : Qc → Qc.

Definition np_sqrt (v : np_float) : np_float :=
  match v with
  | Fin q => if decide (q < 0) then NaN else Fin (sqrt q)
  | PInf => PInf
  | NInf | NaN => NaN
  end.

(** [a.mean()]: the mean of an empty array is NaN. *)
Definition np_mean (a : list Qc) : np_float :=
  div (Fin (sum a)) (Fin (of_nat (length a))).

(** [a.var()] and [a.std()] with numpy's default [ddof=0]. *)
Definition np_var (a : list Qc) : np_float :=
  match np_mean a with
  | Fin m => np_mean (map (λ x, abs (x - m) * abs (x - m)) a)
  | v => v
  end.

Definition np_std (a : list Qc) : np_float := np_sqrt (np_var a).

End Sqrt.

(** A square root on the rationals to twelve decimals, exact at 0; it
    instantiates the parameter wherever a concrete run is wanted. *)
Definition sqrt12 (q : Qc) : Qc :=
  of_Z (Z.sqrt (Qfloor (q * of_Z (10 ^ 24)))) / of_Z (10 ^ 12).

End Num.

Import Num.

(** Closed equations between rationals, decided by evaluation. *)
Ltac by_eval := apply (bool_decide_unpack _); vm_compute; reflexivity.

(** ** The Python runtime *)

Inductive exn : Type :=
| KeyError (key : string)
| ValueError
| TypeError
| ZeroDivisionError.

Inductive result (A : Type) : Type :=
| Ok (a : A)
| Raise (e : exn).

Arguments Ok {A} a.
Arguments Raise {A} e.

#[global] Instance exn_eq_dec : EqDecision exn.
Proof. solve_decision. Defined.

#[global] Instance result_eq_dec `{EqDecision A} : EqDecision (result A).
Proof. solve_decision. Defined.

(** What a metric helper returns: the float, or its [.4f] rendering. *)
Inductive py_num : Type :=
| PyFloat (v : np_float)
| PyStr (s : string).

(** A value stored in a score dictionary: an array of per-fold scores or a
    single float. *)
Inductive value : Type :=
| Arr (a : list Qc)
| Scalar (x : np_float).

#[global] Instance value_eq_dec : EqDecision value.
Proof. solve_decision. Defined.

(** A DataFrame as the ordered list of its named columns. *)
Definition frame (C : Type) : Type := list (string * C).

Definition shape1 {C} (df : frame C) : nat := length df.

(** [df[name]]: the column carrying that label. *)
Fixpoint frame_get {C} (df : frame C) (name : string) : option C :=
  match df with
  | [] => None
  | (n, c) :: df' => if decide (n = name) then Some c else frame_get df' name
  end.

(** The column [c] put under [name]: an existing column of that name is
    replaced where it stands, a new one is appended.  What pandas makes of
    the assigned object before this is in [frame_setitem]. *)
Fixpoint frame_set {C} (df : frame C) (name : string) (c : C) : frame C :=
  match df with
  | [] => [(name, c)]
  | (n, c') :: df' =>
      if decide (n = name) then (n, c) :: df'
      else (n, c') :: frame_set df' name c
  end.

(** Heap objects: the two kinds of object the helpers mutate in place.  A
    comparison table has a row index and named columns; a column holds one
    cell per row label, in index order. *)
Inductive object : Type :=
| ODict (d : gmap string value)
| OFrame (index : list string) (f : frame (list (string * value))).

Definition loc : Type := positive.

Record world : Type := World {
  heap : gmap loc object;
  stdout : list string
}.

Definition Py (A : Type) : Type := world → world * result A.

Definition ret {A} (a : A) : Py A := λ w, (w, Ok a).

Definition bind {A B} (m : Py A) (k : A → Py B) : Py B :=
  λ w, match m w with
       | (w', Ok a) => k a w'
       | (w', Raise e) => (w', Raise e)
       end.

Notation "x <- m ;; k" := (bind m (λ x, k))
  (at level 100, m at next level, right associativity).
Notation "m ;;; k" := (bind m (λ _, k))
  (at level 100, right associativity).

Definition raise {A} (e : exn) : Py A := λ w, (w, Raise e).

Definition lift {A} (r : result A) : Py A := λ w, (w, r).

Definition print (s : string) : Py unit :=
  λ w, (World (heap w) (stdout w ++ [s]), Ok ()).

(** [d[key]] on the dictionary at [l]. *)
Definition dict_getitem (l : loc) (key : string) : Py value :=
  λ w, match heap w !! l with
       | Some (ODict d) =>
           match d !! key with
           | Some v => (w, Ok v)
           | None => (w, Raise (KeyError key))
           end
       | _ => (w, Raise TypeError)
       end.

(** [d[key] = v] on the dictionary at [l]. *)
Definition dict_setitem (l : loc) (key : string) (v : value) : Py unit :=
  λ w, match heap w !! l with
       | Some (ODict d) =>
           (World (<[l := ODict (<[key := v]> d)]> (heap w)) (stdout w), Ok ())
       | _ => (w, Raise TypeError)
       end.

(** [pd.Series(record).reindex(index)]: for each row label the value the
    record has under it, NaN when it has none.  The keys of a record
    literal are distinct. *)
Definition reindex (record : list (string * value)) (index : list string)
  : list (string * value) :=
  map (λ label, (label, default (Scalar NaN) (frame_get record label))) index.

(** [df[name] = record] on the table at [l], for a dict [record].  pandas
    turns the dict into a Series and aligns it on the rows of the table:
    a table without rows first takes the keys of the record as its row
    index (its columns, empty until then, are filled with NaN); the column
    then holds, for each row label, the record's value under that label,
    or NaN. *)
Definition frame_setitem (l : loc) (name : string)
    (record : list (string * value)) : Py unit :=
  λ w, match heap w !! l with
       | Some (OFrame index f) =>
           let index' := if decide (index = []) then record.*1 else index in
           let f' :=
             if decide (index = []) then
               map (λ col : string * list (string * value),
                      (col.1, reindex col.2 index')) f
             else f in
           (World (<[l := OFrame index'
                            (frame_set f' name (reindex record index'))]>
                     (heap w)) (stdout w),
            Ok ())
       | _ => (w, Raise TypeError)
       end.

(** [for x in xs: body(x)]. *)
Fixpoint for_each {A} (xs : list A) (body : A → Py unit) : Py unit :=
  match xs with
  | [] => ret ()
  | x :: xs' => body x ;;; for_each xs' body
  end.


(** ** Python numbers

    A number as the interpreter has it: an [int], a [float], or a numpy
    float64 scalar.  An operation with a numpy scalar on either side is
    numpy's: it yields a numpy scalar, and a zero divisor gives NaN or an
    infinity.  Between [int] and [float] it is Python's: [/] yields a
    [float] and raises [ZeroDivisionError] on a zero divisor.  The floats
    met here are finite; rationals stand for them exactly. *)
Module Python.

Inductive number : Type :=
| Int (z : Z)
| Float (q : Qc)
| Float64 (v : np_float).

(** The value of an [int] or a [float]. *)
Definition builtin (a : number) : option Qc :=
  match a with
  | Int z => Some (of_Z z)
  | Float q => Some q
  | Float64 _ => None
  end.

Definition as_float64 (a : number) : np_float :=
  match a with
  | Int z => Fin (of_Z z)
  | Float q => Fin q
  | Float64 v => v
  end.

(** [a - b]. *)
Definition sub (a b : number) : number :=
  match a, b with
  | Int x, Int y => Int (x - y)
  | _, _ =>
      match builtin a, builtin b with
      | Some p, Some q => Float (p - q)
      | _, _ => Float64 (Num.sub (as_float64 a) (as_float64 b))
      end
  end.

(** [a / b]. *)
Definition truediv (a b : number) : result number :=
  match builtin a, builtin b with
  | Some p, Some q =>
      if decide (q = 0) then Raise ZeroDivisionError else Ok (Float (p / q))
  | _, _ => Ok (Float64 (Num.div (as_float64 a) (as_float64 b)))
  end.

(** [a < b]. *)
Definition lt (a b : number) : bool := ltb (as_float64 a) (as_float64 b).

(** The builtins [max(a, b)] and [min(a, b)]: the first argument is
    returned, as the object it is, unless the second is strictly better. *)
Definition max (a b : number) : number := if lt a b then b else a.
Definition min (a b : number) : number := if lt b a then b else a.

End Python.

(** ** scikit-learn's regression metrics

    Models of the three library functions the metric helpers delegate to,
    after the library's documentation: inputs of unequal length or without a
    sample are rejected with a [ValueError]; [r2_score] is not defined on
    fewer than two samples and returns NaN there; on constant data it
    returns 1 for a perfect prediction and 0 otherwise. *)

Module Sklearn.

Definition check_targets (y_true y_pred : list Qc) : result unit :=
  if decide (length y_true ≠ length y_pred) then Raise ValueError
  else if decide (length y_true = 0%nat) then Raise ValueError
  else Ok ().

Definition sq (x : Qc) : Qc := x * x.

Definition mean_squared_error (y_true y_pred : list Qc) : result np_float :=
  match check_targets y_true y_pred with
  | Raise e => Raise e
  | Ok _ => Ok (np_mean (zip_with (λ a b, sq (a - b)) y_true y_pred))
  end.

Definition mean_absolute_error (y_true y_pred : list Qc) : result np_float :=
  match check_targets y_true y_pred with
  | Raise e => Raise e
  | Ok _ => Ok (np_mean (zip_with (λ a b, abs (b - a)) y_true y_pred))
  end.

Definition r2_score (y_true y_pred : list Qc) : result np_float :=
  match check_targets y_true y_pred with
  | Raise e => Raise e
  | Ok _ =>
      if decide (length y_pred < 2)%nat then Ok NaN
      else
        let numerator := sum (zip_with (λ a b, sq (a - b)) y_true y_pred) in
        let y_bar := sum y_true / of_nat (length y_true) in
        let denominator := sum (map (λ a, sq (a - y_bar)) y_true) in
        if decide (numerator = 0) then Ok (Fin 1)
        else if decide (denominator = 0) then Ok (Fin 0)
        else Ok (Fin (1 - numerator / denominator))
  end.

End Sklearn.

(** ** Statistical functions *)

Section Metrics.

Variable sqrt : Qc → Qc.
(** The rendering [f"{x:.4f}"]. *)
Variable format4 : np_float → string.

Definition rmse_score (y_true y_pred : list Qc) (as_int : bool) (form : string)
  : result py_num :=
  match Sklearn.mean_squared_error y_true y_pred with
  | Raise e => Raise e
  | Ok mse =>
      let rmse := np_sqrt sqrt mse in
      if as_int then Ok (PyFloat rmse) else Ok (PyStr (format4 rmse))
  end.

Definition mae_score (y_true y_pred : list Qc) (as_int : bool)
  : result py_num :=
  match Sklearn.mean_absolute_error y_true y_pred with
  | Raise e => Raise e
  | Ok mae => if as_int then Ok (PyFloat mae) else Ok (PyStr (format4 mae))
  end.

Definition r2 (y_true y_pred : list Qc) (as_float : bool) : result py_num :=
  match Sklearn.r2_score y_true y_pred with
  | Raise e => Raise e
  | Ok score_r2 =>
      if as_float then Ok (PyFloat score_r2)
      else Ok (PyStr (format4 score_r2))
  end.

(** [r2] is a Python float here, so the division by [n - p - 1 = 0] raises;
    a numpy scalar would give an infinity or NaN with a warning instead.
    Either way no number is defined.  The expression is the source's, over
    the rationals: the value the binary64 operations round it to is not
    represented, so equations between the result and another number hold of
    the expression, not of the float. *)
Definition adjusted_r2 {C} (y_true : list Qc) (X_df : frame C) (r2 : Qc)
    (as_float : bool) : result py_num :=
  let n := Z.of_nat (length y_true) in
  let p := Z.of_nat (shape1 X_df) in
  let numerator := (1 - r2) * of_Z (n - 1) in
  if decide (n - p - 1 = 0)%Z then Raise ZeroDivisionError
  else
    let adjusted_r2 := 1 - numerator / of_Z (n - p - 1) in
    if as_float then Ok (PyFloat (Fin adjusted_r2))
    else Ok (PyStr (format4 (Fin adjusted_r2))).

End Metrics.

(** ** pandas: value counts and the contingency table

    A categorical column is the list of its labels (no missing value).
    [crosstab] pairs two columns row by row, as pandas does for two series
    over one index, and lists the labels of each axis sorted. *)

Module Pandas.

Definition label_le (a b : string) : Prop := String.leb a b = true.

#[global] Instance label_le_dec : RelDecision label_le.
Proof. intros a b. unfold label_le. apply _. Defined.

Definition count `{EqDecision A} (v : A) (l : list A) : nat :=
  length (filter (λ a, a = v) l).

(** [x.value_counts()]: one entry per distinct label; only the number of
    entries is consulted, so they are left in order of first occurrence. *)
Definition value_counts (x : list string) : list (string * nat) :=
  map (λ v, (v, count v x)) (remove_dups x).

Definition levels (x : list string) : list string :=
  merge_sort label_le (remove_dups x).

(** [f] tabulated over row labels [rs] and column labels [cs]. *)
Definition tabulate {A B C} (f : A → B → C) (rs : list A) (cs : list B)
  : list (list C) :=
  map (λ r, map (f r) cs) rs.

Record table : Type := Table {
  index : list string;
  header : list string;
  cells : list (list nat)
}.

Definition crosstab (x y : list string) : table :=
  let obs := zip x y in
  let rs := levels obs.*1 in
  let cs := levels obs.*2 in
  Table rs cs (tabulate (λ r c, count (r, c) obs) rs cs).

(** [t.shape]. *)
Definition shape (t : table) : nat * nat := (length (index t), length (header t)).

Definition sum_nat (l : list nat) : nat := foldr Nat.add 0%nat l.

(** [t.sum()]: the sum of each column. *)
Definition col_sums (t : table) : list nat :=
  foldr (zip_with Nat.add) (replicate (length (header t)) 0%nat) (cells t).

(** [t.sum(axis=1)]: the sum of each row. *)
Definition row_sums (t : table) : list nat := map sum_nat (cells t).

End Pandas.

(** ** scipy: the chi-squared statistic of a contingency table

    After the documentation of [scipy.stats.chi2_contingency]: an empty
    table and a zero expected frequency are rejected with a [ValueError];
    Yates' continuity correction is applied when [correction] is set and the
    table has one degree of freedom, and moves each observed count towards
    its expected value by at most one half. *)

Module Scipy.
Import Pandas.

Definition size (t : table) : nat := (length (index t) * length (header t))%nat.

(** Degrees of freedom of a two-way table. *)
Definition dof (t : table) : Z :=
  (Z.of_nat (size t)
   - (Z.of_nat (length (index t)) + Z.of_nat (length (header t))) + 2 - 1)%Z.

Definition expected_freq (t : table) : list (list Qc) :=
  let total := of_nat (sum_nat (row_sums t)) in
  map (λ R, map (λ C, of_nat R * of_nat C / total) (col_sums t)) (row_sums t).

(** Whether the continuity correction is carried out. *)
Definition yates_applied (t : table) (correction : bool) : bool :=
  bool_decide (dof t = 1%Z) && correction.

Definition sign (d : Qc) : Qc :=
  if decide (d < 0) then - 1 else if decide (0 < d) then 1 else 0.

Definition yates (o e : Qc) : Qc :=
  let diff := e - o in
  let magnitude := if decide (abs diff < 1 / 2) then abs diff else 1 / 2 in
  o + magnitude * sign diff.

(** One term of Pearson's statistic. *)
Definition pearson (o e : Qc) : Qc := (o - e) * (o - e) / e.

Definition chi2_contingency (observed : table) (correction : bool)
  : result Qc :=
  if decide (size observed = 0%nat) then Raise ValueError
  else
    let expected := expected_freq observed in
    if decide (Exists (Exists (λ e, e = 0)) expected) then Raise ValueError
    else if decide (dof observed = 0%Z) then Ok 0
    else
      let adjust := if yates_applied observed correction then yates
                    else λ o _, o in
      let terms :=
        zip_with (zip_with (λ o e, pearson (adjust (of_nat o) e) e))
                 (cells observed) expected in
      Ok (sum (map sum terms)).

End Scipy.

(** ** Cramer's V *)




Section Cramers.
Import Pandas.

Variable sqrt : Qc → Qc.

(** The [correction] flag handed to [chi2_contingency]. *)
Definition cramers_correct (conf_matrix : table) : bool :=
  if decide ((shape conf_matrix).1 = 2%nat) then false else true.

(** [n] is a Python [int] (the builtin [sum] over the column totals), [r]
    and [k] are [int]s, [chi2] is a numpy scalar.  So [max(0, ...)] is
    the [int] 0 unless the corrected [phi2] is positive, the divisor
    [min(...)] is a [float], and a zero divisor raises for the [int] 0 and
    gives an infinity for a positive numpy numerator.  Where the exact
    numerator is 0, which side of 0 the binary64 value falls on is a matter
    of rounding, which the rationals do not show. *)
Definition cramers_corrected_stat (x y : list string) : Py np_float :=
  let result := Fin (- 1) in
  if decide (length (value_counts x) = 1%nat) then
    print "First variable is constant" ;;;
    ret (py_round result 6)
  else if decide (length (value_counts y) = 1%nat) then
    print "Second variable is constant" ;;;
    ret (py_round result 6)
  else
    let conf_matrix := crosstab x y in
    let correct := cramers_correct conf_matrix in
    chi2 <- lift (Scipy.chi2_contingency conf_matrix correct) ;;
    let n := Z.of_nat (sum_nat (col_sums conf_matrix)) in
    phi2 <- lift (Python.truediv (Python.Float64 (Fin chi2)) (Python.Int n)) ;;
    let '(r, k) := shape conf_matrix in
    let r := Z.of_nat r in
    let k := Z.of_nat k in
    t <- lift (Python.truediv (Python.Int ((k - 1) * (r - 1)))
                              (Python.Int (n - 1))) ;;
    let phi2corr := Python.max (Python.Int 0) (Python.sub phi2 t) in
    t <- lift (Python.truediv (Python.Int ((r - 1) ^ 2)) (Python.Int (n - 1))) ;;
    let rcorr := Python.sub (Python.Int r) t in
    t <- lift (Python.truediv (Python.Int ((k - 1) ^ 2)) (Python.Int (n - 1))) ;;
    let kcorr := Python.sub (Python.Int k) t in
    quotient <- lift (Python.truediv phi2corr
                        (Python.min (Python.sub kcorr (Python.Int 1))
                                    (Python.sub rcorr (Python.Int 1)))) ;;
    let result := np_sqrt sqrt (Python.as_float64 quotient) in
    ret (py_round result 6).



End Cramers.

(** ** Utility functions *)

(** [np.abs(v)], [v.mean()] and [v.std()] on a dictionary value; a float is
    a zero-dimensional array. *)
Definition np_abs (v : value) : value :=
  match v with
  | Arr a => Arr (map abs a)
  | Scalar x => Scalar (fabs x)
  end.

Definition mean (v : value) : np_float :=
  match v with
  | Arr a => np_mean a
  | Scalar x => x
  end.

Definition std (sqrt : Qc → Qc) (v : value) : np_float :=
  match v with
  | Arr a => np_std sqrt a
  | Scalar (Fin q) => np_std sqrt [q]
  | Scalar _ => NaN
  end.

(** The translation table from scorer identifiers to short metric names. *)
Definition mapping : gmap string string :=
  <["neg_root_mean_squared_error" := "rmse"]>
    (<["neg_mean_absolute_error" := "mae"]>
       (<["r2" := "r2"]> ∅)).

(** [mapping[score]]. *)
Definition mapping_getitem (score : string) : Py string :=
  match mapping !! score with
  | Some m => ret m
  | None => raise (KeyError score)
  end.

Section Utility.

Variable sqrt : Qc → Qc.

(** In each assignment the right-hand side is evaluated before the key of
    its target. *)
Definition transform_cross_val_scores (perf_dict : loc) (scoring : list string)
  : Py loc :=
  for_each scoring (λ score,
    v <- dict_getitem perf_dict ("train_" ++ score) ;;
    m <- mapping_getitem score ;;
    dict_setitem perf_dict ("train_" ++ m ++ "_mean")
                 (Scalar (mean (np_abs v))) ;;;
    v <- dict_getitem perf_dict ("test_" ++ score) ;;
    m <- mapping_getitem score ;;
    dict_setitem perf_dict ("test_" ++ m ++ "_mean")
                 (Scalar (mean (np_abs v))) ;;;
    v <- dict_getitem perf_dict ("train_" ++ score) ;;
    m <- mapping_getitem score ;;
    dict_setitem perf_dict ("train_" ++ m ++ "_std")
                 (Scalar (std sqrt (np_abs v))) ;;;
    v <- dict_getitem perf_dict ("test_" ++ score) ;;
    m <- mapping_getitem score ;;
    dict_setitem perf_dict ("test_" ++ m ++ "_std")
                 (Scalar (std sqrt (np_abs v)))) ;;;
  ret perf_dict.

End Utility.

(** The four entries of the record literal are evaluated in order, each key
    before its value; the function has no [return]. *)
Definition fill_comparison_df (comparison_df : loc) (metrics model_name : string)
    (model_metrics : loc) : Py unit :=
  train_mean <- dict_getitem model_metrics ("train_" ++ metrics ++ "_mean") ;;
  test_mean <- dict_getitem model_metrics ("test_" ++ metrics ++ "_mean") ;;
  train_std <- dict_getitem model_metrics ("train_" ++ metrics ++ "_std") ;;
  test_std <- dict_getitem model_metrics ("test_" ++ metrics ++ "_std") ;;
  frame_setitem comparison_df model_name
    [(("train_" ++ metrics ++ "_mean")%string, train_mean);
     (("test_" ++ metrics ++ "_mean")%string, test_mean);
     (("train_" ++ metrics ++ "_std")%string, train_std);
     (("test_" ++ metrics ++ "_std")%string, test_std)].

(** ** Model selection *)

(** The [cv] argument of [cross_validate]: a number of folds or one of the
    two splitter objects. *)
Inductive splitter : Type :=
| Folds (n_splits : Z)
| StratifiedKFold (n_splits : Z) (shuffle : bool) (random_state : Z)
| KFold (n_splits : Z) (shuffle : bool) (random_state : Z).

Section ModelSelection.

(** scikit-learn's side: estimators, data, the scorer registry and
    [cross_validate], which returns a new score dictionary. *)
Variables estimator features target : Type.
Variable get_scorer_names : list string.
Variable cross_validate :
  estimator → features → target → splitter → list string → bool → Py loc.

Definition k_fold_cross_val (X : features) (y : target)
    (k_fold stratified : bool) (n_splits random_state : Z)
    (model : estimator) (scoring : list string) (return_train_score : bool)
  : Py loc :=
  let score_check :=
    map (λ score, negb (bool_decide (score ∈ get_scorer_names))) scoring in
  if existsb id score_check then raise ValueError
  else
    let cv := Folds n_splits in
    let cv :=
      if stratified then StratifiedKFold n_splits true random_state else cv in
    let cv := if k_fold then KFold n_splits true random_state else cv in
    cross_validate model X y cv scoring return_train_score.

End ModelSelection.

Arguments k_fold_cross_val {estimator features target}.

(** ** Vocabulary of the statements about the score normaliser *)

#[global] Instance object_eq_dec : EqDecision object.
Proof. solve_decision. Defined.

#[global] Instance world_eq_dec : EqDecision world.
Proof. solve_decision. Defined.

(** A requested identifier the normaliser can process on record [d]: it is
    in the translation table and both its raw-score keys are in [d]. *)
Definition processable (d : gmap string value) (score : string) : Prop :=
  is_Some (mapping !! score)
  ∧ is_Some (d !! ("train_" ++ score)%string)
  ∧ is_Some (d !! ("test_" ++ score)%string).

#[global] Instance processable_dec d score : Decision (processable d score).
Proof. unfold processable. apply _. Defined.

(** The four normalized keys of a metric, in the order they are written. *)
Definition normalized_keys (m : string) : list string :=
  ["train_" ++ m ++ "_mean"; "test_" ++ m ++ "_mean";
   "train_" ++ m ++ "_std"; "test_" ++ m ++ "_std"]%string.

(** The normalized keys of a list of requested identifiers. *)
Definition requested_keys (scoring : list string) : list string :=
  scoring ≫= λ score,
    match mapping !! score with
    | Some m => normalized_keys m
    | None => []
    end.

(** The four statistics of a metric with raw scores [train] and [test]. *)
Definition statistics (sqrt : Qc → Qc) (train test : value) : list value :=
  [Scalar (mean (np_abs train)); Scalar (mean (np_abs test));
   Scalar (std sqrt (np_abs train)); Scalar (std sqrt (np_abs test))].

(** The entries the normaliser derives from record [d] for one identifier. *)
Definition score_entries (sqrt : Qc → Qc) (d : gmap string value)
    (score : string) : list (string * value) :=
  match mapping !! score, d !! ("train_" ++ score)%string, d !! ("test_" ++ score)%string with
  | Some m, Some train, Some test =>
      zip (normalized_keys m) (statistics sqrt train test)
  | _, _, _ => []
  end.

(** What an identifier that cannot be processed leaves behind: the train
    mean, when only its test scores are missing. *)
Definition partial_entries (d : gmap string value) (score : string)
  : list (string * value) :=
  match mapping !! score, d !! ("train_" ++ score)%string, d !! ("test_" ++ score)%string with
  | Some m, Some train, None =>
      [("train_" ++ m ++ "_mean", Scalar (mean (np_abs train)))]%string
  | _, _, _ => []
  end.

(** Successive item assignments. *)
Definition insert_all (es : list (string * value)) (d : gmap string value)
  : gmap string value :=
  foldl (λ acc e, <[e.1 := e.2]> acc) d es.

(** Every key the normaliser can write. *)
Definition all_normalized_keys : list string :=
  requested_keys ["neg_root_mean_squared_error"; "neg_mean_absolute_error"; "r2"].

(** Record [acc] still holds the raw scores record [d] holds for the
    identifiers of the translation table. *)
Definition raw_agree (d acc : gmap string value) : Prop :=
  ∀ score, is_Some (mapping !! score) →
    acc !! ("train_" ++ score)%string = d !! ("train_" ++ score)%string
    ∧ acc !! ("test_" ++ score)%string = d !! ("test_" ++ score)%string.

(** ** Instances for concrete runs *)

(** A formatter for runs that return the float itself. *)
Definition no_format : np_float → string := λ _, "".

(** The world before anything is allocated or printed. *)
Definition empty_world : world := World ∅ [].

(** The dictionary at [l], for reading a final world. *)
Definition dict_at (w : world) (l : loc) : gmap string value :=
  match heap w !! l with
  | Some (ODict d) => d
  | _ => ∅
  end.

(** The raw fold scores of the specification's example, under the scorer
    identifier that translates to [rmse]. *)
Definition example_scores : gmap string value :=
  <["train_neg_root_mean_squared_error" := Arr [of_Z (-1); of_Z (-2); of_Z (-3)]]>
    (<["test_neg_root_mean_squared_error" := Arr [of_Z (-4); of_Z (-5)]]> ∅).

(** A world whose only object is the dictionary [d], at location 1. *)
Definition world_of (d : gmap string value) : world :=
  World (<[1%positive := ODict d]> ∅) [].

(** A world with a comparison table at location 1 that has a column for
    [linear_regression], and a model's normalized metrics at location 2. *)
Definition table_world : world :=
  World
    (<[1%positive :=
         OFrame ["train_rmse_mean"; "test_rmse_mean";
                 "train_rmse_std"; "test_rmse_std"]
                [("linear_regression",
                  [("train_rmse_mean", Scalar (Fin 1));
                   ("test_rmse_mean", Scalar (Fin 2));
                   ("train_rmse_std", Scalar (Fin 0));
                   ("test_rmse_std", Scalar (Fin 0))])]]>
       (<[2%positive :=
            ODict (<["train_rmse_mean" := Scalar (Fin 2)]>
                     (<["test_rmse_mean" := Scalar (Fin (of_Z 3))]>
                        (<["train_rmse_std" := Scalar (Fin 1)]>
                           (<["test_rmse_std" := Scalar (Fin 1)]> ∅))))]> ∅))
    [].

(** ** Vocabulary of the statements about Cramer's V *)

(** What [cramers_corrected_stat] returns or raises, and what it prints:
    neither depends on the world it runs in. *)
Definition cramers_value (sqrt : Qc → Qc) (x y : list string)
  : result np_float :=
  (cramers_corrected_stat sqrt x y empty_world).2.

Definition cramers_messages (sqrt : Qc → Qc) (x y : list string)
  : list string :=
  stdout (cramers_corrected_stat sqrt x y empty_world).1.

(** A computation that touches neither heap nor output, as its result. *)
Definition pure {A} (m : Py A) : result A := (m empty_world).2.

(** The statistic from the chi-squared value [chi2] of an [r]×[k] table of
    [n] observations, before the final rounding. *)
Definition cramers_formula (sqrt : Qc → Qc) (chi2 : Qc) (n r k : Z)
  : result np_float :=
  pure (
    phi2 <- lift (Python.truediv (Python.Float64 (Fin chi2)) (Python.Int n)) ;;
    t <- lift (Python.truediv (Python.Int ((k - 1) * (r - 1)))
                              (Python.Int (n - 1))) ;;
    let phi2corr := Python.max (Python.Int 0) (Python.sub phi2 t) in
    t <- lift (Python.truediv (Python.Int ((r - 1) ^ 2)) (Python.Int (n - 1))) ;;
    let rcorr := Python.sub (Python.Int r) t in
    t <- lift (Python.truediv (Python.Int ((k - 1) ^ 2)) (Python.Int (n - 1))) ;;
    let kcorr := Python.sub (Python.Int k) t in
    quotient <- lift (Python.truediv phi2corr
                        (Python.min (Python.sub kcorr (Python.Int 1))
                                    (Python.sub rcorr (Python.Int 1)))) ;;
    ret (np_sqrt sqrt (Python.as_float64 quotient))).

(** The same in closed form, for [n] other than 0 and 1: the corrected
    [phi2] and the two divisor candidates as rationals. *)
Definition phi2_corrected (chi2 : Qc) (n r k : Z) : Qc :=
  chi2 / of_Z n - of_Z ((k - 1) * (r - 1)) / of_Z (n - 1).

Definition corrected_levels (n k : Z) : Qc :=
  of_Z k - of_Z ((k - 1) ^ 2) / of_Z (n - 1) - of_Z 1.

(** A column of [n] rows that is constant, or in which some value occurs
    on more than one row. *)
Definition repeats (n : nat) (x : list string) : Prop :=
  length (remove_dups x) = 1%nat ∨ (length (remove_dups x) < n)%nat.

#[global] Instance repeats_dec n x : Decision (repeats n x).
Proof. unfold repeats. apply _. Defined.



(** * More of [functions.py] *)

(** ** The metrics bundle *)

(** Float multiplication, with [inf * 0 = nan]. *)
Definition np_mul (a b : np_float) : np_float :=
  match a, b with
  | NaN, _ | _, NaN => NaN
  | Fin x, Fin y => Fin (x * y)
  | Fin x, PInf | PInf, Fin x =>
      if decide (x = 0) then NaN else if decide (0 < x) then PInf else NInf
  | Fin x, NInf | NInf, Fin x =>
      if decide (x = 0) then NaN else if decide (0 < x) then NInf else PInf
  | PInf, PInf | NInf, NInf => PInf
  | PInf, NInf | NInf, PInf => NaN
  end.

(** [adjusted_r2] on the value [regression_metrics] hands it, which is NaN
    when [r2_score] is undefined: the same expression on floats.  On a
    finite [r2] it is [adjusted_r2]. *)
Definition adjusted_r2_float {C} (format4 : np_float → string)
    (y_true : list Qc) (X_df : frame C) (r2 : np_float) (as_float : bool)
  : result py_num :=
  let n := Z.of_nat (length y_true) in
  let p := Z.of_nat (shape1 X_df) in
  let numerator := np_mul (sub (Fin 1) r2) (Fin (of_Z (n - 1))) in
  if decide (n - p - 1 = 0)%Z then Raise ZeroDivisionError
  else
    let adjusted_r2 := sub (Fin 1) (div numerator (Fin (of_Z (n - p - 1)))) in
    if as_float then Ok (PyFloat adjusted_r2)
    else Ok (PyStr (format4 adjusted_r2)).

Section MetricsBundle.

Variable sqrt : Qc → Qc.
Variable format4 : np_float → string.

(** The four metrics are computed in order with the default flags, so each
    is a float. *)
Definition regression_metrics {C} (y_true y_pred : list Qc) (X_df : frame C)
  : result (py_num * py_num * py_num * py_num) :=
  match rmse_score sqrt format4 y_true y_pred true ":.4f" with
  | Raise e => Raise e
  | Ok rmse =>
      match mae_score format4 y_true y_pred true with
      | Raise e => Raise e
      | Ok mae =>
          match r2 format4 y_true y_pred true with
          | Raise e => Raise e
          | Ok (PyStr _) => Raise TypeError
          | Ok (PyFloat r2_score) =>
              match adjusted_r2_float format4 y_true X_df r2_score true with
              | Raise e => Raise e
              | Ok adjusted_r2_score =>
                  Ok (rmse, mae, PyFloat r2_score, adjusted_r2_score)
              end
          end
      end
  end.

End MetricsBundle.

(** ** Cross-validation scores *)

Section CrossValScores.

Variables estimator features target : Type.
Variable get_scorer_names : list string.
(** [cross_validate] with its [return_estimator] flag as last argument. *)
Variable cross_validate :
  estimator → features → target → splitter → list string → bool → bool →
  Py loc.

(** [k_fold_cross_val] does not pass [return_estimator], which defaults to
    [False]. *)
Definition compute_k_fold_cross_val_scores (X : features) (y : target)
    (model : estimator) (random_state : Z) (k_fold stratified_k_fold : bool)
    (n_splits : Z) (scoring : list string)
    (return_train_score return_estimator : bool) : Py loc :=
  let k_fold_cross_val :=
    k_fold_cross_val get_scorer_names
      (λ model X y cv scoring return_train_score,
         cross_validate model X y cv scoring return_train_score false) in
  perf_dict <- cross_validate model X y (Folds n_splits) scoring
                              return_train_score return_estimator ;;
  perf_dict <- (if k_fold then
                  k_fold_cross_val X y true false n_splits random_state
                                   model scoring return_train_score
                else ret perf_dict) ;;
  perf_dict <- (if stratified_k_fold then
                  k_fold_cross_val X y true true n_splits random_state
                                   model scoring return_train_score
                else ret perf_dict) ;;
  ret perf_dict.

End CrossValScores.

Arguments compute_k_fold_cross_val_scores {estimator features target}.
(** A [cross_validate] that records the splitter it is given on the
    standard output and returns location 1. *)
Definition tracing_cross_validate (model : unit) (X y : unit) (cv : splitter)
    (scoring : list string) (return_train_score return_estimator : bool)
  : Py loc :=
  print (match cv with
         | Folds _ => "cv=int"
         | StratifiedKFold _ _ _ => "cv=StratifiedKFold"
         | KFold _ _ _ => "cv=KFold"
         end) ;;;
  ret 1%positive.

(** The normalized [rmse] metrics of the model stored at location 2 of
    [table_world]. *)
Definition rmse_metrics : gmap string value :=
  <["train_rmse_mean" := Scalar (Fin 2)]>
    (<["test_rmse_mean" := Scalar (Fin (of_Z 3))]>
       (<["train_rmse_std" := Scalar (Fin 1)]>
          (<["test_rmse_std" := Scalar (Fin 1)]> ∅))).




(** ** Training with tracking *)

(** Exceptions of the training functions: those of the helpers, the one
    Python raises when a local name is read before it was ever assigned, and
    the one for a method looked up on [None]. *)
Inductive error : Type :=
| Builtin (e : exn)
| UnboundLocalError (name : string)
| AttributeError.

Inductive outcome (A : Type) : Type :=
| Return (a : A)
| Throw (e : error).

Arguments Return {A} a.
Arguments Throw {A} e.

(** mlflow, as the trace of the tracking calls made.  Every call is taken
    to be accepted; a run opened by [with mlflow.start_run(...)] is closed
    as [FINISHED] when the block completes and as [FAILED] when an
    exception leaves it. *)
Module Mlflow.

Inductive run_status : Type := FINISHED | FAILED.

Inductive event : Type :=
| start_run (run_name : option string)
| log_input (context : string)
| log_metric (key : string) (v : value)
| log_model (artifact_path : string)
| end_run (status : run_status).

End Mlflow.

Record session : Type := Session {
  python : world;
  tracking : list Mlflow.event
}.

Definition Run (A : Type) : Type := session → session * outcome A.

Definition run_ret {A} (a : A) : Run A := λ s, (s, Return a).

Definition run_bind {A B} (m : Run A) (k : A → Run B) : Run B :=
  λ s, match m s with
       | (s', Return a) => k a s'
       | (s', Throw e) => (s', Throw e)
       end.

Notation "x <~ m ;; k" := (run_bind m (λ x, k))
  (at level 100, m at next level, right associativity).
Notation "m ;;~ k" := (run_bind m (λ _, k))
  (at level 100, right associativity).

Definition throw {A} (e : error) : Run A := λ s, (s, Throw e).

(** A computation of the helpers, run inside a session. *)
Definition py {A} (m : Py A) : Run A :=
  λ s, match m (python s) with
       | (w, Ok a) => (Session w (tracking s), Return a)
       | (w, Raise e) => (Session w (tracking s), Throw (Builtin e))
       end.

Definition of_result {A} (r : result A) : Run A :=
  match r with
  | Ok a => run_ret a
  | Raise e => throw (Builtin e)
  end.

Definition emit (e : Mlflow.event) : Run unit :=
  λ s, (Session (python s) (tracking s ++ [e]), Return ()).

(** [with mlflow.start_run(run_name=run_name): body]. *)
Definition with_run (run_name : option string) (body : Run unit) : Run unit :=
  emit (Mlflow.start_run run_name) ;;~
  λ s, match body s with
       | (s', Return _) => emit (Mlflow.end_run Mlflow.FINISHED) s'
       | (s', Throw e) =>
           (Session (python s') (tracking s' ++ [Mlflow.end_run Mlflow.FAILED]),
            Throw e)
       end.

(** [perf_dict = {}]: a new dictionary, at a location not in use. *)
Definition dict_new : Py loc :=
  λ w, let l := fresh (dom (heap w)) in
       (World (<[l := ODict ∅]> (heap w)) (stdout w), Ok l).

Section Tracking.

Variables estimator dataset : Type.

(** [register_dataset] stands for its truth value, [dataset] is [None] or
    a dataset object, which is true. *)
Definition mlflow_linreg (lr_model : estimator) (perf_dict : loc)
    (run_name : option string) (register_dataset : bool)
    (dataset : option dataset) : Run unit :=
  if register_dataset && negb (bool_decide (is_Some dataset)) then
    throw (Builtin ValueError)
  else
    with_run run_name (
      (if register_dataset then emit (Mlflow.log_input "training")
       else run_ret ()) ;;~
      v <~ py (dict_getitem perf_dict "train_rmse_mean") ;;
      emit (Mlflow.log_metric "train_rmse" v) ;;~
      v <~ py (dict_getitem perf_dict "test_rmse_mean") ;;
      emit (Mlflow.log_metric "test_rmse" v) ;;~
      v <~ py (dict_getitem perf_dict "train_mae_mean") ;;
      emit (Mlflow.log_metric "train_mae" v) ;;~
      v <~ py (dict_getitem perf_dict "test_mae_mean") ;;
      emit (Mlflow.log_metric "test_mae" v) ;;~
      v <~ py (dict_getitem perf_dict "train_r2_mean") ;;
      emit (Mlflow.log_metric "train_R2" v) ;;~
      v <~ py (dict_getitem perf_dict "test_r2_mean") ;;
      emit (Mlflow.log_metric "test_R2" v) ;;~
      emit (Mlflow.log_model "Linear_regression")).

End Tracking.

Arguments mlflow_linreg {estimator dataset}.

Section LinRegCrossVal.

Variable sqrt : Qc → Qc.

(** The libraries' side: scikit-learn as in [ModelSelection], the estimator
    [LinearRegression()] builds, [pd.concat([X, y], axis=1)] and
    [mlflow.data.from_pandas]. *)
Variables estimator features target table dataset : Type.
Variable get_scorer_names : list string.
Variable cross_validate :
  estimator → features → target → splitter → list string → bool → bool →
  Py loc.
Variable LinearRegression : estimator.
Variable concat : features → target → result table.
Variable from_pandas : table → string → string → result dataset.

Definition transform_dataset (whole_df : table) (name target : string)
  : result dataset :=
  from_pandas whole_df name target.

(** The local [compatible_df] is bound only when [register_dataset] is
    set; it is read when the arguments of [mlflow_linreg] are evaluated. *)
Definition lin_reg_cross_val (X : features) (y : target) (random_state : Z)
    (k_fold stratified_k_fold : bool) (n_splits : Z) (scoring : list string)
    (return_train_score return_estimator : bool)
    (mlflow_register register_dataset : bool) (run_name : string)
  : Run loc :=
  let linear_regression := LinearRegression in
  perf_dict <~ py (compute_k_fold_cross_val_scores get_scorer_names
                     cross_validate X y linear_regression random_state
                     k_fold stratified_k_fold n_splits scoring
                     return_train_score return_estimator) ;;
  perf_dict <~ py (transform_cross_val_scores sqrt perf_dict scoring) ;;
  compatible_df <~
    (if register_dataset then
       full_df <~ of_result (concat X y) ;;
       compatible_df <~
         of_result (transform_dataset full_df "Sleeping score" "Score") ;;
       run_ret (Some compatible_df)
     else run_ret None) ;;
  (if mlflow_register then
     if decide (run_name = "") then throw (Builtin ValueError)
     else
       dataset <~ match compatible_df with
                  | Some d => run_ret d
                  | None => throw (UnboundLocalError "compatible_df")
                  end ;;
       mlflow_linreg linear_regression perf_dict (Some run_name)
                     register_dataset (Some dataset)
   else run_ret ()) ;;~
  run_ret perf_dict.

End LinRegCrossVal.

Arguments transform_dataset {table dataset}.
Arguments lin_reg_cross_val sqrt {estimator features target table dataset}.

Section LinRegTrainTest.

Variable sqrt : Qc → Qc.
Variable format4 : np_float → string.

(** The libraries' side: [train_test_split], [pd.concat],
    [mlflow.data.from_pandas], and a linear regression reduced to what
    [fit] builds and what [predict] answers. *)
Variables estimator table dataset : Type.
Variable train_test_split :
  frame (list Qc) → list Qc → Qc → Z →
  result (frame (list Qc) * frame (list Qc) * list Qc * list Qc).
Variable concat : frame (list Qc) → list Qc → result table.
Variable from_pandas : table → string → string → result dataset.
Variable fit : frame (list Qc) → list Qc → result estimator.
Variable predict : estimator → frame (list Qc) → result (list Qc).

(** A metric as a dictionary value.  With the default flags every metric
    of [regression_metrics] is a float, so the other case does not occur. *)
Definition metric (m : py_num) : Run value :=
  match m with
  | PyFloat v => run_ret (Scalar v)
  | PyStr _ => throw (Builtin TypeError)
  end.

(** [test_size], [X] and [y], and the four splits are [None] when not
    given; [not test_size] holds for [None] and for 0. *)
Definition lin_reg_train_test (X : option (frame (list Qc)))
    (y : option (list Qc)) (test_size : option Qc)
    (X_train X_test : option (frame (list Qc)))
    (y_train y_test : option (list Qc)) (random_state : Z)
    (mlflow_register : bool) (run_name : string) (register_dataset : bool)
  : Run (estimator * loc) :=
  splits <~
    match X, y with
    | Some X, Some y =>
        match test_size with
        | Some size =>
            if decide (size = 0) then throw (Builtin ValueError)
            else of_result (train_test_split X y size random_state)
        | None => throw (Builtin ValueError)
        end
    | _, _ =>
        match X_train, X_test, y_train, y_test with
        | Some X_train, Some X_test, Some y_train, Some y_test =>
            run_ret (X_train, X_test, y_train, y_test)
        | _, _, _, _ => throw (Builtin ValueError)
        end
    end ;;
  let '(X_train, X_test, y_train, y_test) := splits in
  compatible_df <~
    (if register_dataset then
       full_df <~ of_result (concat X_train y_train) ;;
       compatible_df <~
         of_result (transform_dataset from_pandas full_df
                      "Sleeping score" "Score") ;;
       run_ret (Some compatible_df)
     else run_ret None) ;;
  perf_dict <~ py dict_new ;;
  lr <~ of_result (fit X_train y_train) ;;
  lr_y_hat_train <~ of_result (predict lr X_train) ;;
  metrics <~ of_result (regression_metrics sqrt format4 y_train
                          lr_y_hat_train X_train) ;;
  let '(rmse, mae, r2_score, adjusted_r2_score) := metrics in
  v <~ metric rmse ;; py (dict_setitem perf_dict "train_rmse" v) ;;~
  v <~ metric mae ;; py (dict_setitem perf_dict "train_mae" v) ;;~
  v <~ metric r2_score ;; py (dict_setitem perf_dict "train_R2" v) ;;~
  v <~ metric adjusted_r2_score ;;
  py (dict_setitem perf_dict "train_R2_adjusted" v) ;;~
  lr_y_hat_test <~ of_result (predict lr X_test) ;;
  metrics <~ of_result (regression_metrics sqrt format4 y_test
                          lr_y_hat_test X_test) ;;
  let '(rmse, mae, r2_score, adjusted_r2_score) := metrics in
  v <~ metric rmse ;; py (dict_setitem perf_dict "test_rmse" v) ;;~
  v <~ metric mae ;; py (dict_setitem perf_dict "test_mae" v) ;;~
  v <~ metric r2_score ;; py (dict_setitem perf_dict "test_R2" v) ;;~
  v <~ metric adjusted_r2_score ;;
  py (dict_setitem perf_dict "test_R2_adjusted" v) ;;~
  (if mlflow_register then
     if decide (run_name = "") then throw (Builtin ValueError)
     else
       dataset <~ match compatible_df with
                  | Some d => run_ret d
                  | None => throw (UnboundLocalError "compatible_df")
                  end ;;
       mlflow_linreg lr perf_dict (Some run_name) register_dataset
                     (Some dataset)
   else run_ret ()) ;;~
  run_ret (lr, perf_dict).

End LinRegTrainTest.

Arguments lin_reg_train_test sqrt format4 {estimator table dataset}.

(** What a run leads to from session [s]: [Φ] holds of the value returned
    and the final session, or [Ψ] of the exception and the final session. *)
Definition run_wp {A} (m : Run A) (s : session)
    (Φ : A → session → Prop) (Ψ : error → session → Prop) : Prop :=
  match m s with
  | (s', Return a) => Φ a s'
  | (s', Throw e) => Ψ e s'
  end.

(** The six keys [mlflow_linreg] reads, in the order it reads them. *)
Definition logged_keys : list string :=
  ["train_rmse_mean"; "test_rmse_mean"; "train_mae_mean"; "test_mae_mean";
   "train_r2_mean"; "test_r2_mean"].

(** The names they are logged under, in the same order. *)
Definition logged_names : list string :=
  ["train_rmse"; "test_rmse"; "train_mae"; "test_mae"; "train_R2"; "test_R2"].

(** The events that log the values record [d] has under the first keys
    [keys], each under its name. *)
Definition metric_events (d : gmap string value) (keys : list string)
  : list Mlflow.event :=
  omap (λ p : string * string,
          match d !! p.1 with
          | Some v => Some (Mlflow.log_metric p.2 v)
          | None => None
          end)
       (zip keys logged_names).

(** No model has been logged in session [s'] that was not in [s]. *)
Definition no_model_logged (s s' : session) : Prop :=
  ∀ artifact_path,
    Mlflow.log_model artifact_path ∈ tracking s' →
    Mlflow.log_model artifact_path ∈ tracking s.

(** A [cross_validate] that returns the per-fold scores of [r2] at location
    1: the test scores, and the train scores when they are asked for. *)
Definition r2_cross_validate (model X y : unit) (cv : splitter)
    (scoring : list string) (return_train_score return_estimator : bool)
  : Py loc :=
  λ w,
    let scores : gmap string value :=
      if return_train_score then
        <["train_r2" := Arr [1 / 2; 1]]> (<["test_r2" := Arr [1 / 2]]> ∅)
      else <["test_r2" := Arr [1 / 2]]> ∅ in
    (World (<[1%positive := ODict scores]> (heap w)) (stdout w), Ok 1%positive).

(** A session in which nothing has happened. *)
Definition empty_session : session := Session empty_world [].

(** A [cross_validate] that returns, at location 1, two folds of train and
    test scores for each of the three scorers of the translation table. *)
Definition three_scorers : list string :=
  ["neg_root_mean_squared_error"; "neg_mean_absolute_error"; "r2"].

Definition fold_scores : gmap string value :=
  <["train_neg_root_mean_squared_error" := Arr [of_Z (-1); of_Z (-3)]]>
    (<["test_neg_root_mean_squared_error" := Arr [of_Z (-2); of_Z (-4)]]>
       (<["train_neg_mean_absolute_error" := Arr [of_Z (-1); of_Z (-1)]]>
          (<["test_neg_mean_absolute_error" := Arr [of_Z (-2); of_Z (-2)]]>
             (<["train_r2" := Arr [1; 1 / 2]]>
                (<["test_r2" := Arr [1 / 2; 1 / 2]]> ∅))))).

Definition three_cross_validate (model X y : unit) (cv : splitter)
    (scoring : list string) (return_train_score return_estimator : bool)
  : Py loc :=
  λ w, (World (<[1%positive := ODict fold_scores]> (heap w)) (stdout w),
        Ok 1%positive).

(** ** Plot helpers *)

(** [key in s] on strings: [key] occurs in [s]. *)
Fixpoint str_in (key s : string) : bool :=
  String.prefix key s
  || match s with
     | EmptyString => false
     | String _ s' => str_in key s'
     end.

(** The table of [plot_models_metrics]: category and colour by substring
    of the model name. *)
Definition model_mapping : gmap string (string * string) :=
  <["baseline" := ("Linear Regression", "blue")]>
    (<["lin_reg" := ("Linear Regression", "blue")]>
       (<["rf" := ("Random Forest", "green")]>
          (<["gboost" := ("Gradient Boosting", "orange")]> ∅))).

(** The closure [get_model_info] of [plot_models_metrics], with the
    [models_list] it captures. *)
Fixpoint get_model_info (models_list : list string) (model_name : string)
  : result (string * string) :=
  match models_list with
  | [] => Ok ("Other", "gray")
  | key :: models_list' =>
      if str_in key model_name then
        match model_mapping !! key with
        | Some info => Ok info
        | None => Raise (KeyError key)
        end
      else get_model_info models_list' model_name
  end.

(** ** The tracking table

    [fill_tracking_df] checks before it writes, so the table is passed
    through; a table is its rows in index order, each an integer label
    with its cells that are not NaN, by column.  After pandas:
    [index.max()] of an empty index is NaN, which [.loc] does not find;
    [.loc[label]] is one row when the label is unique and a table
    otherwise, whose [isna().all()] has no truth value; and
    [.loc[label, column] = v] writes the cell where the label exists and
    appends a row otherwise. *)
Section TrackingTable.

Context {V : Type} `{EqDecision V}.

Definition tracking_table : Type := list (Z * gmap string V).

Definition index_max (index : list Z) : option Z :=
  match index with
  | [] => None
  | label :: index' => Some (foldr Z.max label index')
  end.

(** A cell assignment: NaN clears the cell. *)
Definition set_cell (row : gmap string V) (column : string) (v : option V)
  : gmap string V :=
  match v with
  | Some x => <[column := x]> row
  | None => delete column row
  end.

Definition loc_get (df : tracking_table) (label : Z) : list (gmap string V) :=
  (filter (λ r, r.1 = label) df).*2.

Definition loc_set (df : tracking_table) (label : Z) (column : string)
    (v : option V) : tracking_table :=
  if decide (label ∈ df.*1) then
    map (λ r, if decide (r.1 = label) then (r.1, set_cell r.2 column v) else r) df
  else df ++ [(label, set_cell ∅ column v)].

Definition fill_tracking_df (tracking_df : tracking_table)
    (sleep_classes sampling_strategy smote_k_neighbors
     random_forest_train_score random_forest_test_score
     gboost_train_score gboost_test_score : option V)
  : result tracking_table :=
  match index_max tracking_df.*1 with
  | None => Raise (KeyError "nan")
  | Some max_idx =>
      match loc_get tracking_df max_idx with
      | [row] =>
          let max_idx :=
            if decide (row = ∅) then max_idx else (max_idx + 1)%Z in
          let append_idx := max_idx in
          let df := loc_set tracking_df append_idx
                      "sleep_classes" sleep_classes in
          let df := loc_set df append_idx
                      "sampling_strategy" sampling_strategy in
          let df := loc_set df append_idx
                      "smote_k_neighbors" smote_k_neighbors in
          let df := loc_set df append_idx
                      "random_forest_train_score" random_forest_train_score in
          let df := loc_set df append_idx
                      "random_forest_test_score" random_forest_test_score in
          let df := loc_set df append_idx
                      "gboost_train_score" gboost_train_score in
          let df := loc_set df append_idx
                      "gboost_test_score" gboost_test_score in
          Ok df
      | _ => Raise ValueError
      end
  end.

End TrackingTable.

(** The row the seven assignments of [fill_tracking_df] make of [row]. *)
Definition written_row {V} (row : gmap string V)
    (sleep_classes sampling_strategy smote_k_neighbors
     random_forest_train_score random_forest_test_score
     gboost_train_score gboost_test_score : option V) : gmap string V :=
  set_cell
    (set_cell
       (set_cell
          (set_cell
             (set_cell
                (set_cell
                   (set_cell row "sleep_classes" sleep_classes)
                   "sampling_strategy" sampling_strategy)
                "smote_k_neighbors" smote_k_neighbors)
             "random_forest_train_score" random_forest_train_score)
          "random_forest_test_score" random_forest_test_score)
       "gboost_train_score" gboost_train_score)
    "gboost_test_score" gboost_test_score.

(** A tracking table with one recorded row and one row still empty, and
    the table a call makes of it. *)
Definition tracking_example : @tracking_table Z :=
  [(0%Z, {["sleep_classes" := 3%Z]}); (1%Z, ∅)].

Definition tracking_filled : @tracking_table Z :=
  [(0%Z, {["sleep_classes" := 3%Z]});
   (1%Z, written_row ∅ (Some 4%Z) None (Some 5%Z) None None None None)].

(** ** The random forest *)

(** A hyperparameter value. *)
Inductive param : Type :=
| PNone
| PBool (b : bool)
| PInt (z : Z)
| PFloat (q : Qc)
| PStr (s : string).

(** The keys [random_forest_train_test] reads from [rf_params] with
    [rf_params.get(key, default)], each with its default. *)
Definition rf_defaults : list (string * param) :=
  [("n_estimators", PInt 100); ("criterion", PStr "squared_error");
   ("max_depth", PNone); ("min_samples_split", PInt 2);
   ("min_samples_leaf", PInt 1); ("min_weight_fraction_leaf", PFloat 0);
   ("max_features", PFloat 1); ("max_leaf_nodes", PNone);
   ("min_impurity_decrease", PFloat 0); ("bootstrap", PBool true);
   ("oob_score", PBool false); ("n_jobs", PNone); ("verbose", PInt 0);
   ("warm_start", PBool false); ("ccp_alpha", PFloat 0);
   ("max_samples", PNone)].

(** The keyword arguments handed to [RandomForestRegressor], apart from
    [random_state]. *)
Definition rf_arguments (rf_params : gmap string param)
  : list (string * param) :=
  map (λ kd, (kd.1, default kd.2 (rf_params !! kd.1))) rf_defaults.

Section RandomForestTrainTest.

Variable sqrt : Qc → Qc.
Variable format4 : np_float → string.

(** The libraries' side: [train_test_split], and a random forest reduced
    to what [RandomForestRegressor(...).fit] builds from its keyword
    arguments and [random_state], and what [predict] answers. *)
Variable estimator : Type.
Variable train_test_split :
  frame (list Qc) → list Qc → Qc → Z →
  result (frame (list Qc) * frame (list Qc) * list Qc * list Qc).
Variable fit :
  list (string * param) → Z → frame (list Qc) → list Qc → result estimator.
Variable predict : estimator → frame (list Qc) → result (list Qc).

(** [rf_params] is [None] when not given, and [None] has no [get].  The
    call of [mlflow_rforest] passes the keyword [max_depth], which that
    function does not have: once the arguments are evaluated, binding them
    raises [TypeError] and its body never runs. *)
Definition random_forest_train_test (X : option (frame (list Qc)))
    (y : option (list Qc)) (test_size : option Qc)
    (X_train X_test : option (frame (list Qc)))
    (y_train y_test : option (list Qc))
    (rf_params : option (gmap string param)) (random_state : Z)
    (mlflow_register : bool) (run_name : string)
  : Run (estimator * loc) :=
  splits <~
    match X, y with
    | Some X, Some y =>
        match test_size with
        | Some size =>
            if decide (size = 0) then throw (Builtin ValueError)
            else of_result (train_test_split X y size random_state)
        | None => throw (Builtin ValueError)
        end
    | _, _ =>
        match X_train, X_test, y_train, y_test with
        | Some X_train, Some X_test, Some y_train, Some y_test =>
            run_ret (X_train, X_test, y_train, y_test)
        | _, _, _, _ => throw (Builtin ValueError)
        end
    end ;;
  let '(X_train, X_test, y_train, y_test) := splits in
  perf_dict <~ py dict_new ;;
  rf_params <~ match rf_params with
               | Some d => run_ret d
               | None => throw AttributeError
               end ;;
  rf <~ of_result (fit (rf_arguments rf_params) random_state X_train y_train) ;;
  rf_y_hat_train <~ of_result (predict rf X_train) ;;
  metrics <~ of_result (regression_metrics sqrt format4 y_train
                          rf_y_hat_train X_train) ;;
  let '(rmse, mae, r2_score, adjusted_r2_score) := metrics in
  v <~ metric rmse ;; py (dict_setitem perf_dict "train_rmse" v) ;;~
  v <~ metric mae ;; py (dict_setitem perf_dict "train_mae" v) ;;~
  v <~ metric r2_score ;; py (dict_setitem perf_dict "train_R2" v) ;;~
  v <~ metric adjusted_r2_score ;;
  py (dict_setitem perf_dict "rf_train_r2_adjusted" v) ;;~
  rf_y_hat_test <~ of_result (predict rf X_test) ;;
  metrics <~ of_result (regression_metrics sqrt format4 y_test
                          rf_y_hat_test X_test) ;;
  let '(rmse, mae, r2_score, adjusted_r2_score) := metrics in
  v <~ metric rmse ;; py (dict_setitem perf_dict "test_rmse" v) ;;~
  v <~ metric mae ;; py (dict_setitem perf_dict "test_mae" v) ;;~
  v <~ metric r2_score ;; py (dict_setitem perf_dict "test_R2" v) ;;~
  v <~ metric adjusted_r2_score ;;
  py (dict_setitem perf_dict "rf_test_r2_adjusted" v) ;;~
  (if mlflow_register then
     if decide (run_name = "") then throw (Builtin ValueError)
     else
       max_depth <~ match rf_params !! "max_depth" with
                    | Some v => run_ret v
                    | None => throw (Builtin (KeyError "max_depth"))
                    end ;;
       throw (Builtin TypeError)
   else run_ret ()) ;;~
  run_ret (rf, perf_dict).

End RandomForestTrainTest.

Arguments random_forest_train_test sqrt format4 {estimator}.

(** * Properties *)

(** ** Arithmetic of the number model *)

Lemma of_nat_eq_0 (n : nat) : of_nat n = 0 ↔ n = 0%nat.
Proof.
  unfold of_nat. rewrite <- Z2Qc_inj_0, Z2Qc_inj_iff. lia.
Qed.

Lemma of_Z_eq_0 (z : Z) : of_Z z = 0 ↔ z = 0%Z.
Proof. unfold of_Z. by rewrite <- Z2Qc_inj_0, Z2Qc_inj_iff. Qed.

Lemma Qcdiv_0_l (x : Qc) : 0 / x = 0.
Proof. unfold Qcdiv. apply Qcmult_0_l. Qed.

Lemma np_mean_zeros (a : list Qc) :
  a ≠ [] → Forall (λ x, x = 0) a → np_mean a = Fin 0.
Proof.
  intros Hne Hz. unfold np_mean.
  assert (sum a = 0) as ->.
  { induction Hz as [|x l -> _ IH]; [done|]. simpl.
    destruct l; [apply Qcplus_0_l|]. rewrite IH by done. apply Qcplus_0_l. }
  simpl. destruct (decide (of_nat (length a) = 0)) as [E|_].
  - apply of_nat_eq_0 in E. by destruct a.
  - by rewrite Qcdiv_0_l.
Qed.

Lemma abs_0 : abs 0 = 0.
Proof. by_eval. Qed.

Lemma py_round_sentinel (d : nat) :
  d = 6%nat ∨ d = 2%nat → py_round (Fin (- 1)) d = Fin (- 1).
Proof. intros [-> | ->]; by_eval. Qed.

(** ** The metric functions *)

Lemma check_targets_same (v : list Qc) :
  v ≠ [] → Sklearn.check_targets v v = Ok ().
Proof.
  intros Hv. unfold Sklearn.check_targets.
  destruct (decide (length v ≠ length v)); [done|].
  destruct (decide (length v = 0%nat)) as [E|_]; [by destruct v|done].
Qed.

Lemma residuals_same (v : list Qc) :
  Forall (λ x, x = 0) (zip_with (λ a b, Sklearn.sq (a - b)) v v).
Proof.
  rewrite zip_with_diag. apply Forall_fmap, Forall_forall. intros x _. simpl.
  unfold Sklearn.sq. ring.
Qed.

Lemma abs_residuals_same (v : list Qc) :
  Forall (λ x, x = 0) (zip_with (λ a b, abs (b - a)) v v).
Proof.
  rewrite zip_with_diag. apply Forall_fmap, Forall_forall. intros x _. simpl.
  replace (x - x) with 0 by ring. apply abs_0.
Qed.

Lemma sum_zeros (a : list Qc) : Forall (λ x, x = 0) a → sum a = 0.
Proof.
  induction 1 as [|x l -> _ IH]; [done|]. simpl. rewrite IH. apply Qcplus_0_l.
Qed.

(** C5: with [n = len(y_true)] observations and a feature matrix of width
    [p], [adjusted_r2] returns [1 - (1 - r2) * (n - 1) / (n - p - 1)] when
    [n > p + 1], and is a division by zero when [n - p - 1 = 0]. *)
Theorem adjusted_r2_formula {C} (format4 : np_float → string)
    (y_true : list Qc) (X_df : frame C) (r2 : Qc) :
  let n := length y_true in
  let p := shape1 X_df in
  ((n > p + 1)%nat →
   adjusted_r2 format4 y_true X_df r2 true
   = Ok (PyFloat (Fin (1 - (1 - r2) * (of_nat n - 1)
                           / (of_nat n - of_nat p - 1)))))
  ∧ ((Z.of_nat n - Z.of_nat p - 1 = 0)%Z →
     adjusted_r2 format4 y_true X_df r2 true = Raise ZeroDivisionError).
Proof.
  intros n p. unfold adjusted_r2. fold n p. split; intros H.
  - destruct (decide _) as [E|_]; [lia|].
    unfold of_Z, of_nat. by rewrite !Z2Qc_inj_sub, Z2Qc_inj_1.
  - by destruct (decide _).
Qed.

Lemma adjusted_r2_formula_witness :
  adjusted_r2 no_format [of_Z 1; of_Z 2; of_Z 3; of_Z 4]
              [("age", [of_Z 30; of_Z 41; of_Z 52; of_Z 63])] (1 / 2) true
  = Ok (PyFloat (Fin (1 - (1 - 1 / 2) * (of_nat 4 - 1)
                          / (of_nat 4 - of_nat 1 - 1))))
  ∧ adjusted_r2 no_format [of_Z 1; of_Z 2]
                [("age", [of_Z 30; of_Z 41])] (1 / 2) true
    = Raise ZeroDivisionError.
Proof.
  split.
  - apply (adjusted_r2_formula no_format [of_Z 1; of_Z 2; of_Z 3; of_Z 4]
             [("age", [of_Z 30; of_Z 41; of_Z 52; of_Z 63])]).
    simpl. lia.
  - apply (adjusted_r2_formula no_format [of_Z 1; of_Z 2]
             [("age", [of_Z 30; of_Z 41])]).
    simpl. lia.
Defined.

Lemma rmse_score_same sqrt format4 (v : list Qc) form :
  sqrt 0 = 0 → v ≠ [] →
  rmse_score sqrt format4 v v true form = Ok (PyFloat (Fin 0)).
Proof.
  intros Hs Hv. unfold rmse_score, Sklearn.mean_squared_error.
  rewrite check_targets_same by done.
  rewrite np_mean_zeros; [|by destruct v|apply residuals_same].
  simpl. destruct (decide (0 < 0)) as [E|_]; [by apply Qclt_not_eq in E|].
  by rewrite Hs.
Qed.

Lemma mae_score_same format4 (v : list Qc) :
  v ≠ [] → mae_score format4 v v true = Ok (PyFloat (Fin 0)).
Proof.
  intros Hv. unfold mae_score, Sklearn.mean_absolute_error.
  rewrite check_targets_same by done.
  rewrite np_mean_zeros; [done|by destruct v|apply abs_residuals_same].
Qed.

Lemma r2_same format4 (v : list Qc) :
  (2 ≤ length v)%nat → r2 format4 v v true = Ok (PyFloat (Fin 1)).
Proof.
  intros Hv. unfold r2, Sklearn.r2_score.
  rewrite check_targets_same by (destruct v; simpl in *; [lia|done]).
  destruct (decide (length v < 2)%nat); [lia|].
  rewrite (sum_zeros _ (residuals_same v)).
  by destruct (decide (0 = 0)).
Qed.

(** C9, as the code has it: for every vector [v] of finite values compared
    with itself, [rmse] and [mae] are 0 as soon as [v] has one observation,
    and [r2] is 1 as soon as it has two. *)
Theorem perfect_fit sqrt format4 (v : list Qc) form :
  sqrt 0 = 0 →
  (v ≠ [] →
   rmse_score sqrt format4 v v true form = Ok (PyFloat (Fin 0))
   ∧ mae_score format4 v v true = Ok (PyFloat (Fin 0)))
  ∧ ((2 ≤ length v)%nat → r2 format4 v v true = Ok (PyFloat (Fin 1))).
Proof.
  intros Hs. split.
  - intros Hv. split; [by apply rmse_score_same|by apply mae_score_same].
  - apply r2_same.
Qed.

Lemma perfect_fit_witness :
  (rmse_score sqrt12 no_format [of_Z 3; 1 / 2] [of_Z 3; 1 / 2] true ":.4f"
   = Ok (PyFloat (Fin 0))
   ∧ mae_score no_format [of_Z 3; 1 / 2] [of_Z 3; 1 / 2] true
     = Ok (PyFloat (Fin 0)))
  ∧ r2 no_format [of_Z 3; 1 / 2] [of_Z 3; 1 / 2] true = Ok (PyFloat (Fin 1)).
Proof.
  assert (sqrt12 0 = 0) as Hs by by_eval.
  split.
  - apply (proj1 (perfect_fit sqrt12 no_format [of_Z 3; 1 / 2] ":.4f" Hs)).
    discriminate.
  - apply (proj2 (perfect_fit sqrt12 no_format [of_Z 3; 1 / 2] ":.4f" Hs)).
    simpl. lia.
Defined.

(** C9, as stated, fails on vectors too short for the library: on the empty
    vector the three functions raise, and on a single observation [r2] is
    NaN, not 1. *)
Lemma perfect_fit_short_vectors :
  rmse_score sqrt12 no_format [] [] true ":.4f" = Raise ValueError
  ∧ mae_score no_format [] [] true = Raise ValueError
  ∧ r2 no_format [] [] true = Raise ValueError
  ∧ r2 no_format [of_Z 3] [of_Z 3] true = Ok (PyFloat NaN)
  ∧ r2 no_format [of_Z 3] [of_Z 3] true ≠ Ok (PyFloat (Fin 1)).
Proof. repeat split; try reflexivity. discriminate. Qed.

(** ** Fold-splitter selection *)

Lemma existsb_score_check (names scoring : list string) :
  existsb id (map (λ score, negb (bool_decide (score ∈ names))) scoring)
  = negb (bool_decide (Forall (λ score, score ∈ names) scoring)).
Proof.
  induction scoring as [|s l IH]; [done|]. simpl. rewrite IH. unfold id.
  destruct (decide (s ∈ names)) as [Hs|Hs].
  - rewrite (bool_decide_eq_true_2 _ Hs). simpl. f_equal.
    apply bool_decide_ext. rewrite Forall_cons. tauto.
  - rewrite (bool_decide_eq_false_2 _ Hs). simpl. symmetry.
    apply negb_true_iff, bool_decide_eq_false_2. rewrite Forall_cons. tauto.
Qed.

(** C10: called with [stratified = True] and [k_fold = True], the function
    hands the plain [KFold] splitter to [cross_validate]: the [k_fold] branch
    runs last and replaces the stratified splitter.  (With an unknown scorer
    name no call is made at all: the [ValueError] comes first.) *)
Theorem k_fold_overrides_stratified {estimator features target : Type}
    (get_scorer_names : list string)
    (cross_validate :
       estimator → features → target → splitter → list string → bool → Py loc)
    (X : features) (y : target) (n_splits random_state : Z)
    (model : estimator) (scoring : list string) (return_train_score : bool) :
  k_fold_cross_val get_scorer_names cross_validate X y true true
                   n_splits random_state model scoring return_train_score
  = if decide (Forall (λ score, score ∈ get_scorer_names) scoring)
    then cross_validate model X y (KFold n_splits true random_state)
                        scoring return_train_score
    else raise ValueError.
Proof.
  unfold k_fold_cross_val. rewrite existsb_score_check.
  destruct (decide _) as [H|H].
  - by rewrite (bool_decide_eq_true_2 _ H).
  - by rewrite (bool_decide_eq_false_2 _ H).
Qed.

(** ** Cramer's V: the degenerate branch *)

Lemma length_value_counts (x : list string) :
  length (Pandas.value_counts x) = length (remove_dups x).
Proof. unfold Pandas.value_counts. apply length_map. Qed.



(** ** Cramer's V: the continuity correction *)

Lemma length_levels (x : list string) :
  length (Pandas.levels x) = length (remove_dups x).
Proof.
  unfold Pandas.levels. apply Permutation_length, merge_sort_Permutation.
Qed.






(** ** The score normaliser *)

Lemma bind_ok {A B} (m : Py A) (k : A → Py B) w w' a :
  m w = (w', Ok a) → bind m k w = k a w'.
Proof. intros H. unfold bind. by rewrite H. Qed.

Lemma bind_raise {A B} (m : Py A) (k : A → Py B) w w' e :
  m w = (w', Raise e) → bind m k w = (w', Raise e).
Proof. intros H. unfold bind. by rewrite H. Qed.

Lemma world_at (w : world) (l : loc) (o : object) :
  heap w !! l = Some o → w = World (<[l := o]> (heap w)) (stdout w).
Proof. intros H. destruct w as [h out]. simpl in *. by rewrite insert_id. Qed.

Lemma dict_getitem_ok l key d h out v :
  d !! key = Some v →
  dict_getitem l key (World (<[l := ODict d]> h) out)
  = (World (<[l := ODict d]> h) out, Ok v).
Proof.
  intros H. unfold dict_getitem. simpl. by rewrite lookup_insert_eq, H.
Qed.

Lemma dict_getitem_missing l key d h out :
  d !! key = None →
  dict_getitem l key (World (<[l := ODict d]> h) out)
  = (World (<[l := ODict d]> h) out, Raise (KeyError key)).
Proof.
  intros H. unfold dict_getitem. simpl. by rewrite lookup_insert_eq, H.
Qed.

Lemma dict_setitem_ok l key v d h out :
  dict_setitem l key v (World (<[l := ODict d]> h) out)
  = (World (<[l := ODict (<[key := v]> d)]> h) out, Ok ()).
Proof.
  unfold dict_setitem. simpl. by rewrite lookup_insert_eq, insert_insert_eq.
Qed.

Lemma mapping_lookup (score m : string) :
  mapping !! score = Some m ↔
    (score = "neg_root_mean_squared_error" ∧ m = "rmse")
    ∨ (score = "neg_mean_absolute_error" ∧ m = "mae")
    ∨ (score = "r2" ∧ m = "r2").
Proof.
  unfold mapping. rewrite !lookup_insert_Some, lookup_empty.
  split.
  - intros [[<- <-]|[_ [[<- <-]|[_ [[<- <-]|[_ ?]]]]]]; [tauto..|done].
  - intros [[-> ->]|[[-> ->]|[-> ->]]]; [by left|right; split; [done|]..].
    + by left.
    + right. split; [done|]. by left.
Qed.

Lemma mapping_getitem_ok score m w :
  mapping !! score = Some m → mapping_getitem score w = (w, Ok m).
Proof. intros H. unfold mapping_getitem. by rewrite H. Qed.

Lemma mapping_getitem_missing score w :
  mapping !! score = None → mapping_getitem score w = (w, Raise (KeyError score)).
Proof. intros H. unfold mapping_getitem. by rewrite H. Qed.

Lemma insert_all_app es es' d :
  insert_all (es ++ es') d = insert_all es' (insert_all es d).
Proof. apply foldl_app. Qed.

Lemma raw_agree_insert d acc key v :
  key ∈ all_normalized_keys → raw_agree d acc → raw_agree d (<[key := v]> acc).
Proof.
  intros Hkey Hagree score [m Hs].
  destruct (Hagree score (ex_intro _ m Hs)) as [Htr Hte].
  apply mapping_lookup in Hs. vm_compute in Hkey.
  rewrite !lookup_insert_ne; [done|intros ->..];
    destruct Hs as [[-> _]|[[-> _]|[-> _]]];
    repeat (apply elem_of_cons in Hkey as [Hkey|Hkey]; [discriminate|]);
    by apply not_elem_of_nil in Hkey.
Qed.

Lemma raw_agree_insert_all d acc es :
  es.*1 ⊆ all_normalized_keys → raw_agree d acc → raw_agree d (insert_all es acc).
Proof.
  revert acc. induction es as [|[k v] es IH]; intros acc Hsub Hagree; [done|].
  simpl. apply IH.
  - intros x Hx. apply Hsub. simpl. by right.
  - apply raw_agree_insert; [|done]. apply Hsub. simpl. by left.
Qed.

Lemma normalized_keys_known score m :
  mapping !! score = Some m → normalized_keys m ⊆ all_normalized_keys.
Proof.
  intros [[_ ->]|[[_ ->]|[_ ->]]]%mapping_lookup;
    by apply (bool_decide_unpack _).
Qed.

Lemma seq_app {A B} (xs ys : list A) (body : A → Py unit) (k : unit → Py B) (b : B) w :
  bind (for_each (xs ++ ys) body) k w
  = bind (bind (for_each xs body) (λ _, ret b)) (λ _, bind (for_each ys body) k) w.
Proof.
  revert w. induction xs as [|x xs IH]; intros w; [reflexivity|].
  specialize (IH). cbn [for_each app]. unfold bind in *. unfold ret in *.
  destruct (body x w) as [w1 [[]|e]]; [|done]. apply IH.
Qed.

Lemma transform_app sqrt l xs ys w :
  transform_cross_val_scores sqrt l (xs ++ ys) w
  = bind (transform_cross_val_scores sqrt l xs)
         (λ _, transform_cross_val_scores sqrt l ys) w.
Proof. apply seq_app. Qed.

Ltac run_step :=
  first
    [ erewrite dict_getitem_ok
        by (rewrite ?lookup_insert_ne by done; eassumption)
    | rewrite dict_setitem_ok
    | erewrite mapping_getitem_ok by (by apply mapping_lookup; tauto) ];
  cbn beta iota.

Lemma transform_one_ok sqrt l d acc h out score :
  processable d score → raw_agree d acc →
  transform_cross_val_scores sqrt l [score] (World (<[l := ODict acc]> h) out)
  = (World (<[l := ODict (insert_all (score_entries sqrt d score) acc)]> h) out,
     Ok l).
Proof.
  intros ([m Hm] & [vtr Htr] & [vte Hte]) Hagree.
  destruct (Hagree score (ex_intro _ m Hm)) as [Htr' Hte'].
  rewrite Htr in Htr'. rewrite Hte in Hte'.
  unfold score_entries. rewrite Hm, Htr, Hte.
  unfold transform_cross_val_scores, for_each, bind.
  apply mapping_lookup in Hm as Hcase.
  destruct Hcase as [[-> ->]|[[-> ->]|[-> ->]]]; cbn [String.append] in *.
  all: repeat run_step; reflexivity.
Qed.

Lemma transform_one_bad sqrt l d acc h out score :
  ¬ processable d score → raw_agree d acc →
  ∃ key,
    transform_cross_val_scores sqrt l [score] (World (<[l := ODict acc]> h) out)
    = (World (<[l := ODict (insert_all (partial_entries d score) acc)]> h) out,
       Raise (KeyError key)).
Proof.
  intros Hbad Hagree. unfold partial_entries.
  unfold transform_cross_val_scores, for_each, bind.
  destruct (mapping !! score) as [m|] eqn:Hm.
  - destruct (Hagree score (ex_intro _ m Hm)) as [Htr' Hte'].
    destruct (d !! ("train_" ++ score)%string) as [vtr|] eqn:Htr.
    + destruct (d !! ("test_" ++ score)%string) as [vte|] eqn:Hte.
      { destruct Hbad. unfold processable. rewrite Hm, Htr, Hte. eauto. }
      exists ("test_" ++ score)%string.
      apply mapping_lookup in Hm as Hcase.
      destruct Hcase as [[-> ->]|[[-> ->]|[-> ->]]];
        repeat run_step;
        (rewrite dict_getitem_missing
           by (rewrite ?lookup_insert_ne by done; eassumption));
        reflexivity.
    + exists ("train_" ++ score)%string. by rewrite dict_getitem_missing.
  - destruct (acc !! ("train_" ++ score)%string) as [v|] eqn:Htr.
    + exists score. run_step. by rewrite mapping_getitem_missing.
    + exists ("train_" ++ score)%string. by rewrite dict_getitem_missing.
Qed.

Lemma score_entries_keys sqrt d score :
  (score_entries sqrt d score).*1 ⊆ all_normalized_keys.
Proof.
  unfold score_entries. destruct (mapping !! score) as [m|] eqn:Hm; [|set_solver].
  destruct (d !! _); [|set_solver]. destruct (d !! _); [|set_solver].
  rewrite fst_zip by done. by eapply normalized_keys_known.
Qed.

Lemma transform_from sqrt l d h out scoring :
  ∀ acc, raw_agree d acc → Forall (processable d) scoring →
  transform_cross_val_scores sqrt l scoring (World (<[l := ODict acc]> h) out)
  = (World (<[l := ODict (insert_all (scoring ≫= score_entries sqrt d) acc)]> h)
           out, Ok l).
Proof.
  induction scoring as [|score rest IH]; intros acc Hagree Hall; [done|].
  apply Forall_cons in Hall as [Hs Hrest].
  change (score :: rest) with ([score] ++ rest) at 1. rewrite transform_app.
  erewrite bind_ok by by apply transform_one_ok.
  rewrite IH;
    [|apply raw_agree_insert_all; [apply score_entries_keys|done]|done].
  by rewrite bind_cons, insert_all_app.
Qed.

Lemma raw_agree_refl d : raw_agree d d.
Proof. by intros score _. Qed.

Lemma transform_run sqrt w l d scoring :
  heap w !! l = Some (ODict d) → Forall (processable d) scoring →
  transform_cross_val_scores sqrt l scoring w
  = (World (<[l := ODict (insert_all (scoring ≫= score_entries sqrt d) d)]>
              (heap w)) (stdout w), Ok l).
Proof.
  intros Hl Hall. rewrite (world_at w l _ Hl) at 1.
  rewrite (transform_from sqrt l d); [|apply raw_agree_refl|done].
  done.
Qed.

Lemma transform_run_error sqrt w l d pre bad post :
  heap w !! l = Some (ODict d) → Forall (processable d) pre →
  ¬ processable d bad →
  ∃ key,
    transform_cross_val_scores sqrt l (pre ++ bad :: post) w
    = (World (<[l := ODict (insert_all (partial_entries d bad)
                              (insert_all (pre ≫= score_entries sqrt d) d))]>
                (heap w)) (stdout w), Raise (KeyError key)).
Proof.
  intros Hl Hpre Hbad.
  destruct (transform_one_bad sqrt l d
              (insert_all (pre ≫= score_entries sqrt d) d)
              (heap w) (stdout w) bad Hbad) as [key Hrun].
  { apply raw_agree_insert_all; [|apply raw_agree_refl].
    intros k (s & Hk & Hs)%list_elem_of_fmap.
    apply list_elem_of_bind in Hs as (score & Hs & _).
    apply (score_entries_keys sqrt d score), list_elem_of_fmap. eauto. }
  exists key. rewrite (world_at w l _ Hl) at 1. rewrite transform_app.
  erewrite bind_ok
    by (apply (transform_from sqrt l d); [apply raw_agree_refl|done]).
  change (bad :: post) with ([bad] ++ post). rewrite transform_app.
  by erewrite bind_raise by exact Hrun.
Qed.

Lemma insert_all_snoc es e d :
  insert_all (es ++ [e]) d = <[e.1 := e.2]> (insert_all es d).
Proof. unfold insert_all. by rewrite foldl_app. Qed.

Lemma insert_all_lookup_notin es d k :
  k ∉ es.*1 → insert_all es d !! k = d !! k.
Proof.
  induction es as [|e es IH] using rev_ind; intros Hk; [done|].
  rewrite fmap_app, not_elem_of_app in Hk. destruct Hk as [Hes He].
  rewrite insert_all_snoc, lookup_insert_ne; [by apply IH|].
  intros E. apply He. rewrite <- E. simpl. by left.
Qed.

Lemma insert_all_lookup_in es d k v :
  (∀ v', (k, v') ∈ es → v' = v) → (k, v) ∈ es →
  insert_all es d !! k = Some v.
Proof.
  induction es as [|[k' v'] es IH] using rev_ind; intros Hfun Hin.
  { by apply elem_of_nil in Hin. }
  rewrite insert_all_snoc. simpl. destruct (decide (k' = k)) as [->|Hne].
  - rewrite lookup_insert_eq. f_equal. apply Hfun, elem_of_app. right. by left.
  - rewrite lookup_insert_ne by done. apply IH.
    + intros v'' Hv''. apply Hfun, elem_of_app. by left.
    + apply elem_of_app in Hin as [Hin|Hin]; [done|].
      apply list_elem_of_singleton in Hin. congruence.
Qed.

Lemma dom_insert_all es d :
  dom (insert_all es d) = dom d ∪ list_to_set es.*1.
Proof.
  induction es as [|e es IH] using rev_ind; [set_solver|].
  rewrite insert_all_snoc, dom_insert_L, IH, fmap_app, list_to_set_app_L.
  set_solver.
Qed.

Lemma score_entries_processable sqrt d score m train test :
  mapping !! score = Some m →
  d !! ("train_" ++ score)%string = Some train →
  d !! ("test_" ++ score)%string = Some test →
  score_entries sqrt d score
  = zip (normalized_keys m) (statistics sqrt train test).
Proof. intros Hm Htr Hte. unfold score_entries. by rewrite Hm, Htr, Hte. Qed.

Lemma score_entries_elem sqrt d score k v :
  (k, v) ∈ score_entries sqrt d score →
  ∃ m train test,
    mapping !! score = Some m
    ∧ d !! ("train_" ++ score)%string = Some train
    ∧ d !! ("test_" ++ score)%string = Some test
    ∧ (k, v) ∈ zip (normalized_keys m) (statistics sqrt train test).
Proof.
  unfold score_entries.
  destruct (mapping !! score) as [m|]; [|by intros ?%elem_of_nil].
  destruct (d !! ("train_" ++ score)%string) as [train|]; [|by intros ?%elem_of_nil].
  destruct (d !! ("test_" ++ score)%string) as [test|]; [|by intros ?%elem_of_nil].
  eauto 10.
Qed.

Ltac split_entries H :=
  cbn [zip_with normalized_keys statistics] in H;
  repeat (apply elem_of_cons in H as [H|H]; [injection H as -> ->|]);
  [..|by apply elem_of_nil in H].

Ltac match_entries H :=
  cbn [zip_with normalized_keys statistics] in H;
  repeat (apply elem_of_cons in H as [H|H];
          [let Hk := fresh "Hk" in
           apply pair_equal_spec in H as [Hk ->];
           first [by vm_compute in Hk | congruence]|]);
  by apply elem_of_nil in H.

Lemma entries_functional sqrt d scoring k v v' :
  (k, v) ∈ scoring ≫= score_entries sqrt d →
  (k, v') ∈ scoring ≫= score_entries sqrt d →
  v' = v.
Proof.
  intros (s & Hv & _)%list_elem_of_bind (s' & Hv' & _)%list_elem_of_bind.
  apply score_entries_elem in Hv as (m & tr & te & Hm & Htr & Hte & Hv).
  apply score_entries_elem in Hv' as (m' & tr' & te' & Hm' & Htr' & Hte' & Hv').
  apply mapping_lookup in Hm as [[-> ->]|[[-> ->]|[-> ->]]];
    apply mapping_lookup in Hm' as [[-> ->]|[[-> ->]|[-> ->]]];
    split_entries Hv'; match_entries Hv.
Qed.

Lemma entries_keys sqrt d scoring :
  Forall (processable d) scoring →
  (scoring ≫= score_entries sqrt d).*1 = requested_keys scoring.
Proof.
  induction 1 as [|score rest ([m Hm] & [tr Htr] & [te Hte]) _ IH]; [done|].
  unfold requested_keys in *. rewrite !bind_cons, fmap_app, IH. f_equal.
  rewrite (score_entries_processable sqrt d score m tr te), Hm by done.
  by rewrite fst_zip.
Qed.

Lemma transform_lookup sqrt d scoring score m train test :
  Forall (processable d) scoring → score ∈ scoring →
  mapping !! score = Some m →
  d !! ("train_" ++ score)%string = Some train →
  d !! ("test_" ++ score)%string = Some test →
  let d' := insert_all (scoring ≫= score_entries sqrt d) d in
  d' !! ("train_" ++ m ++ "_mean")%string = Some (Scalar (mean (np_abs train)))
  ∧ d' !! ("test_" ++ m ++ "_mean")%string = Some (Scalar (mean (np_abs test)))
  ∧ d' !! ("train_" ++ m ++ "_std")%string = Some (Scalar (std sqrt (np_abs train)))
  ∧ d' !! ("test_" ++ m ++ "_std")%string = Some (Scalar (std sqrt (np_abs test))).
Proof.
  intros Hall Hin Hm Htr Hte d'.
  assert (∀ k v, (k, v) ∈ zip (normalized_keys m) (statistics sqrt train test)
                 → d' !! k = Some v) as Hlook.
  { intros k v Hkv. apply insert_all_lookup_in.
    - intros v' Hv'. eapply entries_functional; [|exact Hv'].
      apply list_elem_of_bind. exists score. split; [|done].
      by rewrite (score_entries_processable sqrt d score m train test).
    - apply list_elem_of_bind. exists score. split; [|done].
      by rewrite (score_entries_processable sqrt d score m train test). }
  cbn [zip_with normalized_keys statistics] in Hlook.
  repeat split; apply Hlook; set_solver.
Qed.

Lemma first_failure {A} (P : A → Prop) `{∀ x, Decision (P x)} (l : list A) :
  ¬ Forall P l →
  ∃ pre bad post, l = pre ++ bad :: post ∧ Forall P pre ∧ ¬ P bad.
Proof.
  induction l as [|x l IH]; intros Hl.
  - destruct Hl. constructor.
  - destruct (decide (P x)) as [Hx|Hx].
    + destruct IH as (pre & bad & post & -> & Hpre & Hbad).
      { intros Hl'. apply Hl. by constructor. }
      exists (x :: pre), bad, post. split; [done|]. split; [by constructor|done].
    + exists [], x, l. split; [done|]. split; [constructor|done].
Qed.

Lemma np_std_of_var sqrt (a : list Qc) (q : Qc) :
  np_var a = Fin q → ¬ q < 0 → np_std sqrt a = Fin (sqrt q).
Proof.
  intros Hv Hq. unfold np_std, np_sqrt. rewrite Hv.
  by destruct (decide (q < 0)).
Qed.

(** C3: for every requested identifier of the translation table and each
    partition, the normaliser stores under [{partition}_{metric}_mean] the
    mean and under [{partition}_{metric}_std] the standard deviation of the
    absolute values of the raw per-fold scores; on the specification's
    example the means are 2 and 4.5 and the deviations are those of
    [1, 2, 3] and [4, 5]. *)
Theorem transform_stores_statistics (sqrt : Qc → Qc) :
  (∀ (w : world) (l : loc) (d : gmap string value) (scoring : list string),
     heap w !! l = Some (ODict d) →
     Forall (processable d) scoring →
     ∃ d',
       transform_cross_val_scores sqrt l scoring w
       = (World (<[l := ODict d']> (heap w)) (stdout w), Ok l)
       ∧ ∀ score m train test,
           score ∈ scoring →
           mapping !! score = Some m →
           d !! ("train_" ++ score)%string = Some train →
           d !! ("test_" ++ score)%string = Some test →
           d' !! ("train_" ++ m ++ "_mean")%string
           = Some (Scalar (mean (np_abs train)))
           ∧ d' !! ("test_" ++ m ++ "_mean")%string
             = Some (Scalar (mean (np_abs test)))
           ∧ d' !! ("train_" ++ m ++ "_std")%string
             = Some (Scalar (std sqrt (np_abs train)))
           ∧ d' !! ("test_" ++ m ++ "_std")%string
             = Some (Scalar (std sqrt (np_abs test))))
  ∧ (let w := world_of example_scores in
     ∃ d',
       transform_cross_val_scores sqrt 1%positive
         ["neg_root_mean_squared_error"] w
       = (World (<[1%positive := ODict d']> (heap w)) (stdout w),
          Ok 1%positive)
       ∧ d' !! "train_rmse_mean" = Some (Scalar (Fin 2))
       ∧ d' !! "test_rmse_mean" = Some (Scalar (Fin (of_Z 9 / 2)))
       ∧ d' !! "train_rmse_std" = Some (Scalar (Fin (sqrt (2 / of_Z 3))))
       ∧ d' !! "test_rmse_std" = Some (Scalar (Fin (sqrt (1 / of_Z 4))))).
Proof.
  assert (∀ (w : world) (l : loc) (d : gmap string value) scoring,
     heap w !! l = Some (ODict d) →
     Forall (processable d) scoring →
     ∃ d',
       transform_cross_val_scores sqrt l scoring w
       = (World (<[l := ODict d']> (heap w)) (stdout w), Ok l)
       ∧ ∀ score m train test,
           score ∈ scoring →
           mapping !! score = Some m →
           d !! ("train_" ++ score)%string = Some train →
           d !! ("test_" ++ score)%string = Some test →
           d' !! ("train_" ++ m ++ "_mean")%string
           = Some (Scalar (mean (np_abs train)))
           ∧ d' !! ("test_" ++ m ++ "_mean")%string
             = Some (Scalar (mean (np_abs test)))
           ∧ d' !! ("train_" ++ m ++ "_std")%string
             = Some (Scalar (std sqrt (np_abs train)))
           ∧ d' !! ("test_" ++ m ++ "_std")%string
             = Some (Scalar (std sqrt (np_abs test)))) as General.
  { intros w l d scoring Hl Hall.
    exists (insert_all (scoring ≫= score_entries sqrt d) d).
    split; [by apply transform_run|].
    intros score m train test Hin Hm Htr Hte.
    exact (transform_lookup sqrt d scoring score m train test
             Hall Hin Hm Htr Hte). }
  split; [exact General|].
  intros w.
  destruct (General w 1%positive example_scores
              ["neg_root_mean_squared_error"]) as (d' & Hrun & Hd').
  { reflexivity. }
  { repeat constructor; vm_compute; eauto. }
  exists d'. split; [exact Hrun|].
  destruct (Hd' "neg_root_mean_squared_error" "rmse"
              (Arr [of_Z (-1); of_Z (-2); of_Z (-3)])
              (Arr [of_Z (-4); of_Z (-5)]))
    as (Htrm & Htem & Htrs & Htes); [by left|reflexivity..|].
  split; [etrans; [exact Htrm|]|split; [etrans; [exact Htem|]|split;
    [etrans; [exact Htrs|]|etrans; [exact Htes|]]]].
  - by_eval.
  - by_eval.
  - unfold std, np_abs.
    rewrite (np_std_of_var sqrt _ (2 / of_Z 3)); [done|by_eval|by vm_compute].
  - unfold std, np_abs.
    rewrite (np_std_of_var sqrt _ (1 / of_Z 4)); [done|by_eval|by vm_compute].
Qed.

Lemma transform_stores_statistics_witness :
  let w := world_of example_scores in
  ∃ d',
    transform_cross_val_scores sqrt12 1%positive
      ["neg_root_mean_squared_error"] w
    = (World (<[1%positive := ODict d']> (heap w)) (stdout w), Ok 1%positive)
    ∧ ∀ score m train test,
        score ∈ ["neg_root_mean_squared_error"] →
        mapping !! score = Some m →
        example_scores !! ("train_" ++ score)%string = Some train →
        example_scores !! ("test_" ++ score)%string = Some test →
        d' !! ("train_" ++ m ++ "_mean")%string
        = Some (Scalar (mean (np_abs train)))
        ∧ d' !! ("test_" ++ m ++ "_mean")%string
          = Some (Scalar (mean (np_abs test)))
        ∧ d' !! ("train_" ++ m ++ "_std")%string
          = Some (Scalar (std sqrt12 (np_abs train)))
        ∧ d' !! ("test_" ++ m ++ "_std")%string
          = Some (Scalar (std sqrt12 (np_abs test))).
Proof.
  apply (proj1 (transform_stores_statistics sqrt12)
           (world_of example_scores) 1%positive example_scores
           ["neg_root_mean_squared_error"]).
  - reflexivity.
  - repeat constructor; vm_compute; eauto.
Defined.

(** C2, as the code has it: when some requested identifier cannot be
    processed (it is not in the translation table, or one of its raw-score
    keys is missing from the record), the normaliser raises a [KeyError]; by
    then it has written into the record the statistics of every identifier
    listed before the first such one, and the train mean of that one when
    only its test scores are missing.  Nothing else is written. *)
Theorem transform_error_partial (sqrt : Qc → Qc) (w : world) (l : loc)
    (d : gmap string value) (scoring : list string) :
  heap w !! l = Some (ODict d) →
  ¬ Forall (processable d) scoring →
  ∃ pre bad post key d',
    scoring = pre ++ bad :: post
    ∧ Forall (processable d) pre
    ∧ ¬ processable d bad
    ∧ transform_cross_val_scores sqrt l scoring w
      = (World (<[l := ODict d']> (heap w)) (stdout w), Raise (KeyError key))
    ∧ d' = insert_all (partial_entries d bad)
                      (insert_all (pre ≫= score_entries sqrt d) d)
    ∧ ∀ k, k ∉ requested_keys pre → k ∉ (partial_entries d bad).*1 →
           d' !! k = d !! k.
Proof.
  intros Hl Hbad.
  destruct (first_failure _ scoring Hbad) as (pre & bad & post & -> & Hpre & Hb).
  destruct (transform_run_error sqrt w l d pre bad post Hl Hpre Hb)
    as [key Hrun].
  exists pre, bad, post, key. eexists. split; [done|]. split; [done|].
  split; [done|]. split; [exact Hrun|]. split; [done|].
  intros k Hk Hk'.
  rewrite !insert_all_lookup_notin; [done| |done].
  by rewrite entries_keys.
Qed.

Lemma transform_error_partial_witness :
  let w := world_of example_scores in
  let scoring := ["neg_root_mean_squared_error"; "accuracy"] in
  ∃ pre bad post key d',
    scoring = pre ++ bad :: post
    ∧ Forall (processable example_scores) pre
    ∧ ¬ processable example_scores bad
    ∧ transform_cross_val_scores sqrt12 1%positive scoring w
      = (World (<[1%positive := ODict d']> (heap w)) (stdout w),
         Raise (KeyError key))
    ∧ d' = insert_all (partial_entries example_scores bad)
             (insert_all (pre ≫= score_entries sqrt12 example_scores)
                         example_scores)
    ∧ ∀ k, k ∉ requested_keys pre →
           k ∉ (partial_entries example_scores bad).*1 →
           d' !! k = example_scores !! k.
Proof.
  apply (transform_error_partial sqrt12 (world_of example_scores) 1%positive
           example_scores ["neg_root_mean_squared_error"; "accuracy"]).
  - reflexivity.
  - intros H. apply Forall_cons in H as [_ H]. apply Forall_cons in H as [H _].
    destruct H as [[m Hm] _]. vm_compute in Hm. discriminate.
Defined.

(** C2, as stated, fails: a valid identifier followed by an unknown one makes
    the call raise, yet the record, which had no normalized key, now holds
    those of the valid identifier. *)
Lemma transform_error_leaves_keys :
  let run :=
    transform_cross_val_scores sqrt12 1%positive
      ["neg_root_mean_squared_error"; "accuracy"] (world_of example_scores) in
  run.2 = Raise (KeyError "train_accuracy")
  ∧ example_scores !! "train_rmse_mean" = None
  ∧ dict_at run.1 1%positive !! "train_rmse_mean" = Some (Scalar (Fin 2))
  ∧ dom (dict_at run.1 1%positive)
    = dom example_scores
      ∪ list_to_set (normalized_keys "rmse").
Proof. repeat split; by_eval. Qed.

Lemma length_requested_keys d scoring :
  Forall (processable d) scoring →
  length (requested_keys scoring) = (4 * length scoring)%nat.
Proof.
  induction 1 as [|score rest ([m Hm] & _) _ IH]; [done|].
  unfold requested_keys in *. rewrite bind_cons, length_app, IH, Hm. simpl. lia.
Qed.

Lemma NoDup_requested_keys d scoring :
  Forall (processable d) scoring → NoDup scoring →
  NoDup (requested_keys scoring).
Proof.
  intros Hall Hnd. apply NoDup_bind; [| |done].
  - intros s s' k _ _ Hk Hk'.
    destruct (mapping !! s) as [m|] eqn:Hm; [|by apply elem_of_nil in Hk].
    destruct (mapping !! s') as [m'|] eqn:Hm'; [|by apply elem_of_nil in Hk'].
    apply mapping_lookup in Hm as [[-> ->]|[[-> ->]|[-> ->]]];
      apply mapping_lookup in Hm' as [[-> ->]|[[-> ->]|[-> ->]]];
      try done;
      exfalso; vm_compute in Hk, Hk';
      repeat (apply elem_of_cons in Hk as [->|Hk];
              [repeat (apply elem_of_cons in Hk' as [Hk'|Hk']; [discriminate|]);
               by apply elem_of_nil in Hk'|]);
      by apply elem_of_nil in Hk.
  - intros s _. destruct (mapping !! s) as [m|] eqn:Hm; [|constructor].
    apply mapping_lookup in Hm as [[-> ->]|[[-> ->]|[-> ->]]];
      by apply (bool_decide_unpack _).
Qed.

(** C4, as the code has it: the normaliser returns the very record object
    it was given, mutated in place and no other object touched: afterwards
    the record holds, besides its former keys, the four normalized keys of
    every requested metric, and every key other than those keeps its value.
    When the requested identifiers are distinct and none of their normalized
    keys was in the record, that makes exactly four new keys per metric. *)
Theorem transform_in_place (sqrt : Qc → Qc) (w : world) (l : loc)
    (d : gmap string value) (scoring : list string) :
  heap w !! l = Some (ODict d) →
  Forall (processable d) scoring →
  ∃ d',
    transform_cross_val_scores sqrt l scoring w
    = (World (<[l := ODict d']> (heap w)) (stdout w), Ok l)
    ∧ dom d' = dom d ∪ list_to_set (requested_keys scoring)
    ∧ (∀ k, k ∉ requested_keys scoring → d' !! k = d !! k)
    ∧ (NoDup scoring →
       (∀ k, k ∈ requested_keys scoring → d !! k = None) →
       size d' = (size d + 4 * length scoring)%nat).
Proof.
  intros Hl Hall.
  exists (insert_all (scoring ≫= score_entries sqrt d) d).
  split; [by apply transform_run|].
  assert (dom (insert_all (scoring ≫= score_entries sqrt d) d)
          = dom d ∪ list_to_set (requested_keys scoring)) as Hdom.
  { by rewrite dom_insert_all, entries_keys. }
  split; [done|]. split.
  - intros k Hk. apply insert_all_lookup_notin. by rewrite entries_keys.
  - intros Hnd Hfresh.
    rewrite <- !size_dom, Hdom, size_union.
    + rewrite size_list_to_set by by eapply NoDup_requested_keys.
      by erewrite length_requested_keys.
    + intros k Hk Hk'. apply elem_of_list_to_set in Hk'.
      apply elem_of_dom in Hk as [v Hv]. rewrite Hfresh in Hv; done.
Qed.

Lemma transform_in_place_witness :
  let w := world_of example_scores in
  let scoring := ["neg_root_mean_squared_error"] in
  ∃ d',
    transform_cross_val_scores sqrt12 1%positive scoring w
    = (World (<[1%positive := ODict d']> (heap w)) (stdout w), Ok 1%positive)
    ∧ dom d' = dom example_scores ∪ list_to_set (requested_keys scoring)
    ∧ (∀ k, k ∉ requested_keys scoring → d' !! k = example_scores !! k)
    ∧ (NoDup scoring →
       (∀ k, k ∈ requested_keys scoring → example_scores !! k = None) →
       size d' = (size example_scores + 4 * length scoring)%nat).
Proof.
  apply (transform_in_place sqrt12 (world_of example_scores) 1%positive
           example_scores ["neg_root_mean_squared_error"]).
  - reflexivity.
  - repeat constructor; vm_compute; eauto.
Defined.

(** C4, as stated, fails on a record that already holds a normalized key:
    the key is not new and its value does not stay. *)
Lemma transform_overwrites_existing_key :
  let d := <["train_rmse_mean" := Scalar (Fin (of_Z 7))]> example_scores in
  let run :=
    transform_cross_val_scores sqrt12 1%positive
      ["neg_root_mean_squared_error"] (world_of d) in
  run.2 = Ok 1%positive
  ∧ d !! "train_rmse_mean" = Some (Scalar (Fin (of_Z 7)))
  ∧ dict_at run.1 1%positive !! "train_rmse_mean" = Some (Scalar (Fin 2))
  ∧ size (dict_at run.1 1%positive) = (size d + 3)%nat.
Proof. repeat split; by_eval. Qed.

(** ** The comparison table *)















(** ** Cramer's V: the matrix *)

Section CramersMatrix.
Import Pandas.

(** *** Sums over tabulated tables *)

Lemma zip_with_map_same {A B C D} (g : B → C → D) (f1 : A → B) (f2 : A → C) l :
  zip_with g (map f1 l) (map f2 l) = map (λ x, g (f1 x) (f2 x)) l.
Proof. induction l as [|x l IH]; simpl; [done|by rewrite IH]. Qed.

Lemma replicate_as_map {A B} (b : B) (l : list A) :
  replicate (length l) b = map (λ _, b) l.
Proof. induction l as [|x l IH]; simpl; [done|by rewrite IH]. Qed.

Lemma row_sums_tabulate {A B} (f : A → B → nat) rs cs ri ci :
  row_sums (Table ri ci (tabulate f rs cs))
  = map (λ r, sum_nat (map (f r) cs)) rs.
Proof. unfold row_sums, tabulate. simpl. by rewrite map_map. Qed.

Lemma col_sums_tabulate {A} (f : A → string → nat) rs cs ri :
  col_sums (Table ri cs (tabulate f rs cs))
  = map (λ c, sum_nat (map (λ r, f r c) rs)) cs.
Proof.
  unfold col_sums, tabulate. simpl. induction rs as [|r rs IH]; simpl.
  - apply replicate_as_map.
  - by rewrite IH, zip_with_map_same.
Qed.

Lemma sum_nat_add {A} (f g : A → nat) l :
  sum_nat (map (λ x, f x + g x)%nat l)
  = (sum_nat (map f l) + sum_nat (map g l))%nat.
Proof. induction l as [|x l IH]; simpl; [done|]. rewrite IH. lia. Qed.

Lemma sum_nat_zero {A} (l : list A) : sum_nat (map (λ _, 0%nat) l) = 0%nat.
Proof. induction l as [|x l IH]; simpl; [done|by rewrite IH]. Qed.

Lemma sum_nat_swap {A B} (f : A → B → nat) rs cs :
  sum_nat (map (λ r, sum_nat (map (f r) cs)) rs)
  = sum_nat (map (λ c, sum_nat (map (λ r, f r c) rs)) cs).
Proof.
  induction rs as [|r rs IH]; simpl.
  - by rewrite sum_nat_zero.
  - by rewrite sum_nat_add, IH.
Qed.

Lemma sum_add {A} (f g : A → Qc) l :
  sum (map (λ x, f x + g x) l) = sum (map f l) + sum (map g l).
Proof. induction l as [|x l IH]; simpl; [ring|]. rewrite IH. ring. Qed.



Lemma zip_with_tabulate {A B C D E} (g : C → D → E)
    (f : A → B → C) (e : A → B → D) rs cs :
  zip_with (zip_with g) (tabulate f rs cs) (tabulate e rs cs)
  = tabulate (λ r c, g (f r c) (e r c)) rs cs.
Proof.
  unfold tabulate. rewrite zip_with_map_same. apply map_ext. intros r.
  apply zip_with_map_same.
Qed.

Lemma Exists_tabulate {A B C} (P : C → Prop) (e : A → B → C) rs cs :
  Exists (Exists P) (tabulate e rs cs)
  ↔ ∃ r c, r ∈ rs ∧ c ∈ cs ∧ P (e r c).
Proof.
  unfold tabulate. rewrite Exists_exists. split.
  - intros (row & Hrow & Hex). apply list_elem_of_fmap in Hrow as (r & -> & Hr).
    apply Exists_exists in Hex as (v & Hv & HP).
    apply list_elem_of_fmap in Hv as (c & -> & Hc). eauto.
  - intros (r & c & Hr & Hc & HP). exists (map (e r) cs). split.
    + apply list_elem_of_fmap. eauto.
    + apply Exists_exists. exists (e r c). split; [|done].
      apply list_elem_of_fmap. eauto.
Qed.

Lemma expected_freq_tabulate (f : string → string → nat) rs cs :
  Scipy.expected_freq (Table rs cs (tabulate f rs cs))
  = tabulate (λ r c,
      of_nat (sum_nat (map (f r) cs)) * of_nat (sum_nat (map (λ r, f r c) rs))
      / of_nat (sum_nat (map (λ r, sum_nat (map (f r) cs)) rs))) rs cs.
Proof.
  unfold Scipy.expected_freq. rewrite row_sums_tabulate, col_sums_tabulate.
  unfold tabulate. rewrite map_map. apply map_ext. intros r.
  by rewrite map_map.
Qed.

Lemma cramers_yates_off (t : table) :
  Scipy.size t ≠ 0%nat →
  Scipy.yates_applied t (cramers_correct t) = false.
Proof.
  intros Hsize. unfold Scipy.yates_applied, cramers_correct, Scipy.dof in *.
  unfold Scipy.size, shape in *. simpl.
  destruct (decide (length (index t) = 2%nat)) as [E|E];
    [apply andb_false_r|].
  rewrite bool_decide_eq_false_2; [done|].
  rewrite Nat2Z.inj_mul.
  destruct (length (index t)) as [|[|[|r]]]; [lia|lia|lia|].
  destruct (length (header t)) as [|[|k]]; [lia|lia|nia].
Qed.


(** *** Counting observations *)

Lemma unit_count `{EqDecision K} (k : K) (ks : list K) :
  NoDup ks → k ∈ ks →
  sum_nat (map (λ k', if decide (k = k') then 1 else 0)%nat ks) = 1%nat.
Proof.
  induction 1 as [|k' ks Hnotin Hnd IH]; intros Hin.
  - by apply elem_of_nil in Hin.
  - simpl. destruct (decide (k = k')) as [->|Hne].
    + assert (sum_nat (map (λ k'0, if decide (k' = k'0) then 1 else 0)%nat ks)
              = 0%nat) as ->; [|done].
      clear IH Hin Hnd. induction ks as [|k'' ks IH]; [done|]. simpl.
      destruct (decide (k' = k'')) as [->|_].
      * destruct Hnotin. by left.
      * apply IH. intros H. apply Hnotin. by right.
    + apply elem_of_cons in Hin as [->|Hin]; [done|]. by apply IH.
Qed.

Lemma partition_count {A} `{EqDecision K} (key : A → K) (ks : list K)
    (l : list A) :
  NoDup ks → (∀ a, a ∈ l → key a ∈ ks) →
  sum_nat (map (λ k, length (filter (λ a, key a = k) l)) ks) = length l.
Proof.
  intros Hnd. induction l as [|a l IH]; intros Hcov.
  - apply (sum_nat_zero ks).
  - assert (∀ k, length (filter (λ a0, key a0 = k) (a :: l))
                 = ((if decide (key a = k) then 1 else 0)
                    + length (filter (λ a0, key a0 = k) l))%nat) as Hstep.
    { intros k. rewrite filter_cons. by destruct (decide (key a = k)). }
    rewrite (map_ext _ _ Hstep), sum_nat_add, IH, unit_count; [done|done| |].
    + apply Hcov. by left.
    + intros a' Ha'. apply Hcov. by right.
Qed.

Lemma count_pair (r c : string) (obs : list (string * string)) :
  count (r, c) obs
  = length (filter (λ p, p.2 = c) (filter (λ p : string * string, p.1 = r) obs)).
Proof.
  unfold count. rewrite list_filter_filter. f_equal.
  apply list_filter_iff. intros [a b]. simpl. split.
  - by intros [= -> ->].
  - by intros [-> ->].
Qed.

Lemma count_pair' (r c : string) (obs : list (string * string)) :
  count (r, c) obs
  = length (filter (λ p, p.1 = r) (filter (λ p : string * string, p.2 = c) obs)).
Proof.
  unfold count. rewrite list_filter_filter. f_equal.
  apply list_filter_iff. intros [a b]. simpl. split.
  - by intros [= -> ->].
  - by intros [-> ->].
Qed.

Lemma NoDup_levels (l : list string) : NoDup (levels l).
Proof.
  unfold levels. rewrite merge_sort_Permutation. apply NoDup_remove_dups.
Qed.

Lemma elem_of_levels (a : string) (l : list string) : a ∈ levels l ↔ a ∈ l.
Proof.
  unfold levels. by rewrite merge_sort_Permutation, elem_of_remove_dups.
Qed.

Lemma row_total (r : string) (obs : list (string * string)) :
  sum_nat (map (λ c, count (r, c) obs) (levels obs.*2))
  = length (filter (λ p : string * string, p.1 = r) obs).
Proof.
  rewrite (map_ext _ _ (λ c, count_pair r c obs)).
  apply (partition_count snd); [apply NoDup_levels|].
  intros p [_ Hp]%list_elem_of_filter. apply elem_of_levels.
  by apply list_elem_of_fmap_2.
Qed.

Lemma col_total (c : string) (obs : list (string * string)) :
  sum_nat (map (λ r, count (r, c) obs) (levels obs.*1))
  = length (filter (λ p : string * string, p.2 = c) obs).
Proof.
  rewrite (map_ext _ _ (λ r, count_pair' r c obs)).
  apply (partition_count fst); [apply NoDup_levels|].
  intros p [_ Hp]%list_elem_of_filter. apply elem_of_levels.
  by apply list_elem_of_fmap_2.
Qed.

Lemma grand_total (obs : list (string * string)) :
  sum_nat (map (λ r, sum_nat (map (λ c, count (r, c) obs) (levels obs.*2)))
               (levels obs.*1))
  = length obs.
Proof.
  rewrite (map_ext _ _ (λ r, row_total r obs)).
  apply (partition_count fst); [apply NoDup_levels|].
  intros p Hp. apply elem_of_levels. by apply list_elem_of_fmap_2.
Qed.

Lemma row_total_pos (r : string) (obs : list (string * string)) :
  r ∈ levels obs.*1 →
  (0 < length (filter (λ p : string * string, p.1 = r) obs))%nat.
Proof.
  intros Hr. apply (proj1 (elem_of_levels _ _)) in Hr.
  apply list_elem_of_fmap in Hr as (p & -> & Hp).
  assert (p ∈ filter (λ p0 : string * string, p0.1 = p.1) obs) as Hin
    by (by apply list_elem_of_filter).
  destruct (filter _ obs); [by apply elem_of_nil in Hin|simpl; lia].
Qed.

Lemma col_total_pos (c : string) (obs : list (string * string)) :
  c ∈ levels obs.*2 →
  (0 < length (filter (λ p : string * string, p.2 = c) obs))%nat.
Proof.
  intros Hc. apply (proj1 (elem_of_levels _ _)) in Hc.
  apply list_elem_of_fmap in Hc as (p & -> & Hp).
  assert (p ∈ filter (λ p0 : string * string, p0.2 = p.2) obs) as Hin
    by (by apply list_elem_of_filter).
  destruct (filter _ obs); [by apply elem_of_nil in Hin|simpl; lia].
Qed.

(** *** The table of the swapped columns *)






Lemma crosstab_total (x y : list string) :
  sum_nat (col_sums (crosstab x y)) = length (zip x y).
Proof.
  unfold crosstab. rewrite col_sums_tabulate, <- sum_nat_swap.
  apply grand_total.
Qed.

(** *** The statistic in closed form *)

Lemma of_Z_0 : of_Z 0 = 0.
Proof. by_eval. Qed.

Lemma div_fin (a b : Qc) : b ≠ 0 → div (Fin a) (Fin b) = Fin (a / b).
Proof. intros Hb. unfold div. by destruct (decide (b = 0)). Qed.

Lemma cramers_formula_closed sqrt (chi2 : Qc) (n r k : Z) :
  n ≠ 0%Z → (n - 1 ≠ 0)%Z →
  cramers_formula sqrt chi2 n r k
  = let numerator := phi2_corrected chi2 n r k in
    let divisor :=
      if decide (corrected_levels n r < corrected_levels n k)
      then corrected_levels n r else corrected_levels n k in
    if decide (0 < numerator) then
      Ok (np_sqrt sqrt (div (Fin numerator) (Fin divisor)))
    else if decide (divisor = 0) then Raise ZeroDivisionError
    else Ok (np_sqrt sqrt (Fin (0 / divisor))).
Proof.
  intros Hn Hn1.
  assert (of_Z n ≠ 0) as Hn' by (by rewrite of_Z_eq_0).
  assert (of_Z (n - 1) ≠ 0) as Hn1' by (by rewrite of_Z_eq_0).
  unfold cramers_formula, pure, bind, lift, ret, Python.truediv.
  cbn [Python.builtin Python.as_float64].
  destruct (decide (of_Z (n - 1) = 0)) as [|_]; [done|].
  rewrite div_fin by done. cbn [snd fst].
  unfold Python.max, Python.min, Python.lt, Python.sub.
  cbn [Python.builtin Python.as_float64 Num.sub add opp ltb].
  rewrite of_Z_0. fold (phi2_corrected chi2 n r k).
  change (of_Z k - of_Z ((k - 1) ^ 2) / of_Z (n - 1) - of_Z 1)
    with (corrected_levels n k).
  change (of_Z r - of_Z ((r - 1) ^ 2) / of_Z (n - 1) - of_Z 1)
    with (corrected_levels n r).
  cbv zeta.
  destruct (decide (0 < phi2_corrected chi2 n r k)) as [Hpos|Hpos].
  - rewrite (bool_decide_eq_true_2 _ Hpos).
    destruct (decide (corrected_levels n r < corrected_levels n k)) as [H|H].
    + by rewrite (bool_decide_eq_true_2 _ H).
    + by rewrite (bool_decide_eq_false_2 _ H).
  - rewrite (bool_decide_eq_false_2 _ Hpos).
    destruct (decide (corrected_levels n r < corrected_levels n k)) as [H|H].
    + rewrite (bool_decide_eq_true_2 _ H). cbn [Python.builtin].
      rewrite of_Z_0. by destruct (decide (corrected_levels n r = 0)).
    + rewrite (bool_decide_eq_false_2 _ H). cbn [Python.builtin].
      rewrite of_Z_0. by destruct (decide (corrected_levels n k = 0)).
Qed.


Lemma Qcdiv_lt_l (a b c : Qc) : (0 < b)%Qc → (a < c * b)%Qc → (a / b < c)%Qc.
Proof.
  intros Hb H. apply (proj2 (Qcmult_lt_mono_pos_r _ _ b Hb)).
  rewrite test_field; [done|]. intros E. rewrite E in Hb.
  by apply Qclt_not_eq in Hb.
Qed.

Lemma of_Z_pos (z : Z) : (0 < z)%Z → 0 < of_Z z.
Proof.
  intros H. unfold of_Z. rewrite <- Z2Qc_inj_0.
  by apply (proj1 (Z2Qc_inj_lt _ _)).
Qed.

Lemma of_Z_sub_1 (k : Z) : of_Z k - of_Z 1 = of_Z (k - 1).
Proof. unfold of_Z. by rewrite Z2Qc_inj_sub. Qed.

(** The divisor of a variable with [k] levels on [n] rows is
    [(k - 1) (n - k) / (n - 1)]: positive for [2 ≤ k < n], and 0 when every
    row has a level of its own. *)
Lemma corrected_levels_pos (n k : Z) :
  (2 ≤ k)%Z → (k < n)%Z → 0 < corrected_levels n k.
Proof.
  intros Hk Hn. unfold corrected_levels.
  assert (0 < of_Z (n - 1))%Qc as HN1 by (apply of_Z_pos; lia).
  rewrite Z.pow_2_r.
  apply (Qcplus_lt_mono_r _ _ (of_Z ((k - 1) * (k - 1)) / of_Z (n - 1))).
  ring_simplify. rewrite of_Z_sub_1.
  apply Qcdiv_lt_l; [done|].
  unfold of_Z. rewrite <- Z2Qc_inj_mul.
  apply (proj1 (Z2Qc_inj_lt _ _)). nia.
Qed.

Lemma corrected_levels_all (n : Z) : (2 ≤ n)%Z → corrected_levels n n = 0.
Proof.
  intros Hn. unfold corrected_levels.
  assert (of_Z (n - 1) ≠ 0) as HN1 by (rewrite of_Z_eq_0; lia).
  rewrite Z.pow_2_r.
  assert (of_Z ((n - 1) * (n - 1)) / of_Z (n - 1) = of_Z n - of_Z 1) as ->.
  { rewrite of_Z_sub_1. unfold of_Z in *. rewrite Z2Qc_inj_mul. by field. }
  ring.
Qed.

(** *** Symmetry of the statistic *)


Lemma cramers_value_unfold sqrt (x y : list string) :
  cramers_value sqrt x y
  = if decide (length (remove_dups x) = 1%nat) then Ok (Fin (- 1))
    else if decide (length (remove_dups y) = 1%nat) then Ok (Fin (- 1))
    else
      let t := crosstab x y in
      match Scipy.chi2_contingency t (cramers_correct t) with
      | Raise e => Raise e
      | Ok chi2 =>
          match cramers_formula sqrt chi2
                  (Z.of_nat (sum_nat (col_sums t)))
                  (Z.of_nat (length (index t)))
                  (Z.of_nat (length (header t))) with
          | Ok v => Ok (py_round v 6)
          | Raise e => Raise e
          end
      end.
Proof.
  unfold cramers_value, cramers_corrected_stat. rewrite !length_value_counts.
  destruct (decide (length (remove_dups x) = 1%nat)).
  { unfold bind, print, ret. cbn [snd].
    by rewrite py_round_sentinel by by left. }
  destruct (decide (length (remove_dups y) = 1%nat)).
  { unfold bind, print, ret. cbn [snd].
    by rewrite py_round_sentinel by by left. }
  unfold cramers_formula, pure, bind, lift, ret. cbv zeta. cbn [shape].
  destruct (Scipy.chi2_contingency _ _) as [chi2|e]; [|done].
  repeat match goal with
         | |- context [match Python.truediv ?a ?b with _ => _ end] =>
             destruct (Python.truediv a b) as [?|?]; cbn [fst snd]
         end; done.
Qed.

Lemma cramers_run sqrt (x y : list string) (w : world) :
  cramers_corrected_stat sqrt x y w
  = (World (heap w) (stdout w ++ cramers_messages sqrt x y),
     cramers_value sqrt x y).
Proof.
  unfold cramers_messages, cramers_value, cramers_corrected_stat.
  destruct w as [h out].
  destruct (decide (length (value_counts x) = 1%nat)); [done|].
  destruct (decide (length (value_counts y) = 1%nat)); [done|].
  unfold bind, lift, ret. cbv zeta. cbn [shape].
  destruct (Scipy.chi2_contingency _ _) as [chi2|e];
    [|simpl; by rewrite app_nil_r].
  repeat match goal with
         | |- context [match Python.truediv ?a ?b with _ => _ end] =>
             destruct (Python.truediv a b) as [?|?]; cbn [fst snd]
         end; simpl; by rewrite app_nil_r.
Qed.



(** *** Where the statistic is defined *)

Lemma Qcdiv_nonzero (a b : Qc) : a ≠ 0 → b ≠ 0 → a / b ≠ 0.
Proof.
  intros Ha Hb H. unfold Qcdiv in H.
  apply Qcmult_integral in H as [H|H]; [done|].
  pose proof (Qcmult_inv_r b Hb) as Hinv. rewrite H, Qcmult_0_r in Hinv.
  discriminate.
Qed.

Lemma of_nat_pos_nonzero (n : nat) : (0 < n)%nat → of_nat n ≠ 0.
Proof. intros Hn H. apply of_nat_eq_0 in H. lia. Qed.

Lemma chi2_defined (x y : list string) (correction : bool) :
  zip x y ≠ [] →
  ∃ chi2, Scipy.chi2_contingency (crosstab x y) correction = Ok chi2.
Proof.
  intros Hobs. unfold Scipy.chi2_contingency.
  set (obs := zip x y) in *.
  assert (∃ p, p ∈ obs) as [p Hp] by (destruct obs as [|p ?]; [done|exists p; by left]).
  assert (p.1 ∈ levels obs.*1) as Hr
    by (by apply elem_of_levels, list_elem_of_fmap_2).
  assert (p.2 ∈ levels obs.*2) as Hc
    by (by apply elem_of_levels, list_elem_of_fmap_2).
  destruct (decide (Scipy.size (crosstab x y) = 0%nat)) as [Hsize|_].
  { unfold Scipy.size, crosstab in Hsize. cbn [index header] in Hsize.
    fold obs in Hsize.
    destruct (levels obs.*1); [by apply elem_of_nil in Hr|].
    destruct (levels obs.*2); [by apply elem_of_nil in Hc|]. simpl in Hsize. lia. }
  destruct (decide (Exists _ _)) as [Hex|_].
  { exfalso. unfold crosstab in Hex. fold obs in Hex.
    rewrite expected_freq_tabulate in Hex.
    apply Exists_tabulate in Hex as (r & c & Hr' & Hc' & H0).
    revert H0. rewrite row_total, col_total, grand_total.
    apply Qcdiv_nonzero; [|apply of_nat_pos_nonzero].
    - intros [H|H]%Qcmult_integral; revert H; apply of_nat_pos_nonzero.
      + by apply row_total_pos.
      + by apply col_total_pos.
    - destruct obs; [by apply elem_of_nil in Hp|simpl; lia]. }
  destruct (decide _); eauto.
Qed.



(** *** Assembling the matrix *)









End CramersMatrix.



(** * Further properties *)

(** ** The metrics bundle *)

Lemma Qcdiv_self (x : Qc) : x ≠ 0 → x / x = 1.
Proof. intros H. unfold Qcdiv. by apply Qcmult_inv_r. Qed.

Lemma adjusted_r2_value {C} format4 (y_true : list Qc) (X_df : frame C) (r2 : Qc) :
  (Z.of_nat (length y_true) - Z.of_nat (shape1 X_df) - 1 ≠ 0)%Z →
  adjusted_r2 format4 y_true X_df r2 true
  = Ok (PyFloat (Fin (1 - (1 - r2) * of_Z (Z.of_nat (length y_true) - 1)
                        / of_Z (Z.of_nat (length y_true)
                                - Z.of_nat (shape1 X_df) - 1)))).
Proof. intros H. unfold adjusted_r2. by destruct (decide _). Qed.

Lemma adjusted_r2_float_finite {C} format4 (y_true : list Qc) (X_df : frame C)
    (r2 : Qc) (as_float : bool) :
  adjusted_r2_float format4 y_true X_df (Fin r2) as_float
  = adjusted_r2 format4 y_true X_df r2 as_float.
Proof.
  unfold adjusted_r2_float, adjusted_r2.
  destruct (decide _) as [|Hd]; [done|]. simpl.
  destruct (decide (of_Z _ = 0)) as [E|_]; [by apply of_Z_eq_0 in E|].
  done.
Qed.

Lemma check_targets_ok (y_true y_pred : list Qc) :
  length y_true = length y_pred → y_true ≠ [] →
  Sklearn.check_targets y_true y_pred = Ok ().
Proof.
  intros Hlen Hne. unfold Sklearn.check_targets.
  destruct (decide (length y_true ≠ length y_pred)); [done|].
  destruct (decide (length y_true = 0%nat)) as [E|_]; [by destruct y_true|done].
Qed.

Lemma check_targets_bad (y_true y_pred : list Qc) :
  length y_true ≠ length y_pred ∨ y_true = [] →
  Sklearn.check_targets y_true y_pred = Raise ValueError.
Proof.
  intros H. unfold Sklearn.check_targets.
  destruct (decide (length y_true ≠ length y_pred)); [done|].
  destruct (decide (length y_true = 0%nat)) as [E|E]; [done|].
  destruct H as [H | ->]; done.
Qed.

(** X4: on a perfect prediction of at least two observations, with a
    feature matrix that does not make the adjustment divide by zero, the
    bundle is [(0, 0, 1, 1)]. *)
Theorem regression_metrics_perfect {C} (sqrt : Qc → Qc)
    (format4 : np_float → string) (v : list Qc) (X_df : frame C) :
  sqrt 0 = 0 →
  (2 ≤ length v)%nat →
  length v ≠ (shape1 X_df + 1)%nat →
  regression_metrics sqrt format4 v v X_df
  = Ok (PyFloat (Fin 0), PyFloat (Fin 0), PyFloat (Fin 1), PyFloat (Fin 1)).
Proof.
  intros Hs Hn Hp. unfold regression_metrics.
  assert (v ≠ []) as Hv by (intros ->; simpl in Hn; lia).
  rewrite rmse_score_same, mae_score_same, r2_same by done.
  rewrite adjusted_r2_float_finite, adjusted_r2_value by lia.
  repeat f_equal; unfold Qcdiv; ring.
Qed.

Lemma regression_metrics_perfect_witness :
  regression_metrics sqrt12 no_format [of_Z 3; of_Z 5; of_Z 4]
                     [of_Z 3; of_Z 5; of_Z 4]
                     [("age", [of_Z 30; of_Z 41; of_Z 52])]
  = Ok (PyFloat (Fin 0), PyFloat (Fin 0), PyFloat (Fin 1), PyFloat (Fin 1)).
Proof.
  apply (regression_metrics_perfect sqrt12 no_format [of_Z 3; of_Z 5; of_Z 4]
           [("age", [of_Z 30; of_Z 41; of_Z 52])]).
  - by_eval.
  - simpl. lia.
  - simpl. lia.
Defined.

(** X5: when the number of observations is the number of features plus
    one, the bundle raises [ZeroDivisionError] whatever the predictions:
    the three metrics that are defined are lost with it. *)
Theorem regression_metrics_zero_division {C} (sqrt : Qc → Qc)
    (format4 : np_float → string) (y_true y_pred : list Qc) (X_df : frame C) :
  length y_true = length y_pred →
  length y_true = (shape1 X_df + 1)%nat →
  regression_metrics sqrt format4 y_true y_pred X_df = Raise ZeroDivisionError.
Proof.
  intros Hlen Hp. unfold regression_metrics.
  assert (y_true ≠ []) as Hne by (intros ->; simpl in Hp; lia).
  unfold rmse_score, mae_score, r2, Sklearn.mean_squared_error,
    Sklearn.mean_absolute_error, Sklearn.r2_score.
  rewrite check_targets_ok by done.
  assert (∀ v, adjusted_r2_float format4 y_true X_df v true
               = Raise ZeroDivisionError) as Hadj.
  { intros v. unfold adjusted_r2_float. destruct (decide _) as [|Hd]; [done|].
    lia. }
  destruct (decide (length y_pred < 2)%nat); [by rewrite Hadj|].
  repeat (destruct (decide _)); by rewrite Hadj.
Qed.

Lemma regression_metrics_zero_division_witness :
  regression_metrics sqrt12 no_format [of_Z 3; of_Z 5] [of_Z 4; of_Z 4]
                     [("age", [of_Z 30; of_Z 41])]
  = Raise ZeroDivisionError.
Proof.
  apply (regression_metrics_zero_division sqrt12 no_format).
  - reflexivity.
  - reflexivity.
Defined.

(** X6: vectors of different lengths, or without an observation, make the
    bundle raise [ValueError] before anything else, also where the
    adjustment alone would divide by zero. *)
Theorem regression_metrics_bad_input {C} (sqrt : Qc → Qc)
    (format4 : np_float → string) (y_true y_pred : list Qc) (X_df : frame C) :
  length y_true ≠ length y_pred ∨ y_true = [] →
  regression_metrics sqrt format4 y_true y_pred X_df = Raise ValueError.
Proof.
  intros H. unfold regression_metrics, rmse_score, Sklearn.mean_squared_error.
  by rewrite check_targets_bad.
Qed.

Lemma regression_metrics_bad_input_witness :
  regression_metrics sqrt12 no_format [of_Z 3; of_Z 5] [of_Z 4]
                     [("age", [of_Z 30])]
  = Raise ValueError.
Proof.
  apply (regression_metrics_bad_input sqrt12 no_format).
  left. simpl. lia.
Defined.

(** ** Cross-validation scores *)

Lemma k_fold_cross_val_run {estimator features target : Type}
    (get_scorer_names : list string)
    (cross_validate :
       estimator → features → target → splitter → list string → bool → Py loc)
    (X : features) (y : target) (k_fold stratified : bool)
    (n_splits random_state : Z) (model : estimator) (scoring : list string)
    (return_train_score : bool) :
  k_fold_cross_val get_scorer_names cross_validate X y k_fold stratified
                   n_splits random_state model scoring return_train_score
  = if decide (Forall (λ score, score ∈ get_scorer_names) scoring)
    then cross_validate model X y
           (if k_fold then KFold n_splits true random_state
            else if stratified then StratifiedKFold n_splits true random_state
            else Folds n_splits)
           scoring return_train_score
    else raise ValueError.
Proof.
  unfold k_fold_cross_val. rewrite existsb_score_check.
  destruct (decide _) as [H|H].
  - rewrite (bool_decide_eq_true_2 _ H). by destruct k_fold, stratified.
  - by rewrite (bool_decide_eq_false_2 _ H).
Qed.

(** X7: asking for a stratified K-fold never stratifies: with
    [stratified_k_fold] set and known scorer names, the dictionary returned
    is that of a [cross_validate] call made with the plain [KFold] splitter
    and without [return_estimator]; it comes after the default call, and
    after another plain K-fold call when [k_fold] is set as well. *)
Theorem compute_scores_stratified_is_plain {estimator features target : Type}
    (get_scorer_names : list string)
    (cross_validate :
       estimator → features → target → splitter → list string → bool → bool →
       Py loc)
    (X : features) (y : target) (model : estimator) (random_state : Z)
    (k_fold : bool) (n_splits : Z) (scoring : list string)
    (return_train_score return_estimator : bool) (w : world) :
  Forall (λ score, score ∈ get_scorer_names) scoring →
  compute_k_fold_cross_val_scores get_scorer_names cross_validate X y model
    random_state k_fold true n_splits scoring return_train_score
    return_estimator w
  = (_ <- cross_validate model X y (Folds n_splits) scoring
                         return_train_score return_estimator ;;
     _ <- (if k_fold then
             cross_validate model X y (KFold n_splits true random_state)
                            scoring return_train_score false
           else ret 1%positive) ;;
     cross_validate model X y (KFold n_splits true random_state)
                    scoring return_train_score false) w.
Proof.
  intros Hvalid. unfold compute_k_fold_cross_val_scores.
  rewrite !k_fold_cross_val_run. destruct (decide _) as [_|]; [|done].
  unfold bind, ret.
  destruct (cross_validate model X y (Folds n_splits) _ _ _ w)
    as [w1 [p1|e]]; [|done].
  destruct k_fold.
  - destruct (cross_validate model X y (KFold _ _ _) _ _ _ w1)
      as [w2 [p2|e]]; [|done].
    by destruct (cross_validate model X y (KFold _ _ _) _ _ _ w2)
      as [w3 [p3|e]].
  - by destruct (cross_validate model X y (KFold _ _ _) _ _ _ w1)
      as [w3 [p3|e]].
Qed.

Lemma compute_scores_stratified_is_plain_witness :
  compute_k_fold_cross_val_scores ["r2"] tracing_cross_validate () () ()
    42 false true 5 ["r2"] true true empty_world
  = (_ <- tracing_cross_validate () () () (Folds 5) ["r2"] true true ;;
     _ <- ret 1%positive ;;
     tracing_cross_validate () () () (KFold 5 true 42) ["r2"] true false)
      empty_world.
Proof.
  apply (compute_scores_stratified_is_plain ["r2"] tracing_cross_validate
           () () () 42 false 5 ["r2"] true true empty_world).
  repeat constructor.
Defined.

(** X8: scorer names are checked late: with [k_fold] or
    [stratified_k_fold] set and an unknown scorer name, the [ValueError]
    comes only after the default [cross_validate] call has run, whose
    effects stay and whose own error, if any, wins. *)
Theorem compute_scores_late_validation {estimator features target : Type}
    (get_scorer_names : list string)
    (cross_validate :
       estimator → features → target → splitter → list string → bool → bool →
       Py loc)
    (X : features) (y : target) (model : estimator) (random_state : Z)
    (k_fold stratified_k_fold : bool) (n_splits : Z) (scoring : list string)
    (return_train_score return_estimator : bool) (w : world) :
  k_fold = true ∨ stratified_k_fold = true →
  ¬ Forall (λ score, score ∈ get_scorer_names) scoring →
  compute_k_fold_cross_val_scores get_scorer_names cross_validate X y model
    random_state k_fold stratified_k_fold n_splits scoring return_train_score
    return_estimator w
  = (cross_validate model X y (Folds n_splits) scoring
                    return_train_score return_estimator ;;;
     raise ValueError) w.
Proof.
  intros Hflag Hbad. unfold compute_k_fold_cross_val_scores.
  rewrite !k_fold_cross_val_run. destruct (decide _) as [|_]; [done|].
  unfold bind, ret, raise.
  destruct (cross_validate model X y (Folds n_splits) _ _ _ w)
    as [w1 [p1|e]]; [|done].
  destruct k_fold; [done|]. destruct stratified_k_fold; [done|].
  by destruct Hflag.
Qed.

Lemma compute_scores_late_validation_witness :
  compute_k_fold_cross_val_scores ["r2"] tracing_cross_validate () () ()
    42 true false 5 ["accuracy"] true true empty_world
  = (tracing_cross_validate () () () (Folds 5) ["accuracy"] true true ;;;
     raise ValueError) empty_world.
Proof.
  apply (compute_scores_late_validation ["r2"] tracing_cross_validate
           () () () 42 true false 5 ["accuracy"] true true empty_world).
  - by left.
  - intros H. apply Forall_cons in H as [H _].
    apply list_elem_of_singleton in H. discriminate.
Defined.

(** ** The score normaliser, again *)

Lemma insert_all_ext (es es' : list (string * value)) (d : gmap string value) :
  (∀ kv, kv ∈ es ↔ kv ∈ es') →
  (∀ k v v', (k, v) ∈ es → (k, v') ∈ es → v' = v) →
  insert_all es d = insert_all es' d.
Proof.
  intros Hsame Hfun. apply map_eq. intros k.
  destruct (decide (k ∈ es.*1)) as [Hk|Hk].
  - apply list_elem_of_fmap in Hk as ([k' v] & -> & Hkv). simpl.
    rewrite (insert_all_lookup_in es d k' v); [|by eauto|done].
    symmetry. apply insert_all_lookup_in; [|by apply Hsame].
    intros v' Hv'. apply (Hfun k'); [done|by apply Hsame].
  - rewrite insert_all_lookup_notin by done.
    rewrite insert_all_lookup_notin; [done|].
    intros ([k' v] & -> & Hkv)%list_elem_of_fmap. apply Hk.
    apply list_elem_of_fmap. exists (k', v). split; [done|by apply Hsame].
Qed.

(** X9: what the normaliser leaves in the record depends only on which
    identifiers are requested, not on their order nor on repetitions: two
    lists with the same members give the same final world. *)
Theorem transform_order_irrelevant (sqrt : Qc → Qc) (w : world) (l : loc)
    (d : gmap string value) (scoring scoring' : list string) :
  heap w !! l = Some (ODict d) →
  Forall (processable d) scoring →
  (∀ score, score ∈ scoring ↔ score ∈ scoring') →
  transform_cross_val_scores sqrt l scoring' w
  = transform_cross_val_scores sqrt l scoring w.
Proof.
  intros Hl Hall Hsame.
  assert (Forall (processable d) scoring') as Hall'.
  { rewrite Forall_forall in Hall |- *. intros s Hs. by apply Hall, Hsame. }
  rewrite !(transform_run sqrt w l d) by done. do 4 f_equal.
  apply insert_all_ext.
  - intros kv. rewrite !list_elem_of_bind. split; intros (s & Hkv & Hs);
      exists s; (split; [done|by apply Hsame]).
  - intros k v v'. apply entries_functional.
Qed.

Lemma transform_order_irrelevant_witness :
  let d := <["train_r2" := Arr [1 / 2; 1]]>
             (<["test_r2" := Arr [1 / 2]]> example_scores) in
  transform_cross_val_scores sqrt12 1%positive
    ["neg_root_mean_squared_error"; "r2"; "r2"] (world_of d)
  = transform_cross_val_scores sqrt12 1%positive
      ["r2"; "neg_root_mean_squared_error"] (world_of d).
Proof.
  apply (transform_order_irrelevant sqrt12
           (world_of (<["train_r2" := Arr [1 / 2; 1]]>
                        (<["test_r2" := Arr [1 / 2]]> example_scores)))
           1%positive
           (<["train_r2" := Arr [1 / 2; 1]]>
              (<["test_r2" := Arr [1 / 2]]> example_scores))
           ["r2"; "neg_root_mean_squared_error"]
           ["neg_root_mean_squared_error"; "r2"; "r2"]).
  - reflexivity.
  - repeat constructor; vm_compute; eauto.
  - intros score. rewrite !elem_of_cons, !elem_of_nil. tauto.
Defined.

(** X10: normalising twice is normalising once: a second call with the
    same identifiers on the record the first call returned changes
    nothing. *)
Theorem transform_idempotent (sqrt : Qc → Qc) (w : world) (l : loc)
    (d : gmap string value) (scoring : list string) :
  heap w !! l = Some (ODict d) →
  Forall (processable d) scoring →
  ∃ w1,
    transform_cross_val_scores sqrt l scoring w = (w1, Ok l)
    ∧ transform_cross_val_scores sqrt l scoring w1 = (w1, Ok l).
Proof.
  intros Hl Hall. eexists. split; [by apply transform_run|].
  rewrite (transform_from sqrt l d); [|by apply raw_agree_insert_all;
    [rewrite entries_keys by done; intros k Hk;
     apply list_elem_of_bind in Hk as (s & Hk & Hs);
     rewrite Forall_forall in Hall; destruct (Hall s Hs) as ([m Hm] & _);
     rewrite Hm in Hk; by eapply normalized_keys_known
    |apply raw_agree_refl]|done].
  do 4 f_equal. rewrite <- insert_all_app. apply insert_all_ext.
  - intros kv. rewrite elem_of_app. tauto.
  - intros k v v' [Hv|Hv]%elem_of_app [Hv'|Hv']%elem_of_app;
      by eapply entries_functional.
Qed.

Lemma transform_idempotent_witness :
  ∃ w1,
    transform_cross_val_scores sqrt12 1%positive
      ["neg_root_mean_squared_error"] (world_of example_scores) = (w1, Ok 1%positive)
    ∧ transform_cross_val_scores sqrt12 1%positive
        ["neg_root_mean_squared_error"] w1 = (w1, Ok 1%positive).
Proof.
  apply (transform_idempotent sqrt12 (world_of example_scores) 1%positive
           example_scores ["neg_root_mean_squared_error"]).
  - reflexivity.
  - repeat constructor; vm_compute; eauto.
Defined.

(** ** The comparison table, again *)

(** X11: when the model-metrics record lacks one of the four keys, the
    call raises [KeyError] for the first missing one, in the order train
    mean, test mean, train deviation, test deviation, and the table is left
    as it was: unlike the normaliser, nothing is written on error. *)
Theorem fill_comparison_df_missing_key (w : world)
    (comparison_df model_metrics : loc) (record : gmap string value)
    (metrics model_name : string) :
  heap w !! model_metrics = Some (ODict record) →
  ¬ Forall (λ key, is_Some (record !! key)) (normalized_keys metrics) →
  ∃ before key after,
    normalized_keys metrics = before ++ key :: after
    ∧ Forall (λ key, is_Some (record !! key)) before
    ∧ record !! key = None
    ∧ fill_comparison_df comparison_df metrics model_name model_metrics w
      = (w, Raise (KeyError key)).
Proof.
  intros Hmm Hbad.
  destruct (first_failure _ _ Hbad) as (before & key & after & Hsplit & Hbefore & Hkey).
  exists before, key, after. split; [done|]. split; [done|].
  assert (record !! key = None) as Hnone.
  { destruct (record !! key) eqn:E; [|done]. destruct Hkey. eauto. }
  split; [done|].
  unfold fill_comparison_df, bind, dict_getitem. unfold normalized_keys in Hsplit.
  destruct before as [|k1 [|k2 [|k3 [|k4 [|k5 before]]]]];
    simplify_list_eq.
  - by rewrite Hmm, Hnone.
  - apply Forall_cons in Hbefore as [[v1 H1] _].
    rewrite Hmm, H1. cbn beta iota. by rewrite Hmm, Hnone.
  - apply Forall_cons in Hbefore as [[v1 H1] Hbefore].
    apply Forall_cons in Hbefore as [[v2 H2] _].
    rewrite Hmm, H1. cbn beta iota. rewrite Hmm, H2. cbn beta iota.
    by rewrite Hmm, Hnone.
  - apply Forall_cons in Hbefore as [[v1 H1] Hbefore].
    apply Forall_cons in Hbefore as [[v2 H2] Hbefore].
    apply Forall_cons in Hbefore as [[v3 H3] _].
    rewrite Hmm, H1. cbn beta iota. rewrite Hmm, H2. cbn beta iota.
    rewrite Hmm, H3. cbn beta iota. by rewrite Hmm, Hnone.
Qed.

Lemma fill_comparison_df_missing_key_witness :
  ∃ before key after,
    normalized_keys "mae" = before ++ key :: after
    ∧ Forall (λ key, is_Some (rmse_metrics !! key)) before
    ∧ rmse_metrics !! key = None
    ∧ fill_comparison_df 1%positive "mae" "ridge" 2%positive table_world
      = (table_world, Raise (KeyError key)).
Proof.
  apply (fill_comparison_df_missing_key table_world 1%positive 2%positive
           rmse_metrics "mae" "ridge").
  - reflexivity.
  - intros H. apply Forall_cons in H as [[v Hv] _]. vm_compute in Hv.
    discriminate.
Defined.



(** ** Cramer's V, again *)





Lemma Qfloor_nonneg (q : Qc) : (0 ≤ q)%Qc → (0 ≤ Qfloor q)%Z.
Proof.
  intros Hq. change 0%Z with (Qfloor 0). by apply Qfloor_resp_le.
Qed.

Lemma rint_nonneg (q : Qc) : (0 ≤ q)%Qc → (0 ≤ rint q)%Z.
Proof.
  intros Hq. pose proof (Qfloor_nonneg q Hq). unfold rint.
  repeat case_decide; try lia. destruct (Z.even _); lia.
Qed.

Lemma of_Z_nonneg (z : Z) : (0 ≤ z)%Z → (0 ≤ of_Z z)%Qc.
Proof. intros Hz. by apply (proj1 (Z2Qc_inj_le 0 z)). Qed.

(** A float that is not negative: NaN, the positive infinity, or a finite
    number at least 0. *)
Lemma py_round_nonneg (q : Qc) (d : nat) :
  (0 ≤ q)%Qc → ∃ q', py_round (Fin q) d = Fin q' ∧ (0 ≤ q')%Qc.
Proof.
  intros Hq. eexists. split; [reflexivity|].
  assert (0 < of_Z (10 ^ Z.of_nat d))%Qc as Hs.
  { apply (proj1 (Z2Qc_inj_lt 0 _)). lia. }
  unfold Qcdiv. apply Qcmult_nonneg_nonneg.
  - apply of_Z_nonneg, rint_nonneg, Qcmult_nonneg_nonneg; [done|].
    by apply Qclt_le_weak.
  - by apply Qclt_le_weak, Qcinv_pos.
Qed.

(** Whatever the statistic is before rounding, it is a square root. *)
Lemma cramers_formula_sqrt (sqrt : Qc → Qc) (chi2 : Qc) (n r k : Z) (v : np_float) :
  cramers_formula sqrt chi2 n r k = Ok v → ∃ u, v = np_sqrt sqrt u.
Proof.
  unfold cramers_formula, pure, bind, lift, ret.
  repeat match goal with
         | |- context [match Python.truediv ?a ?b with _ => _ end] =>
             destruct (Python.truediv a b) as [?|?]; cbn [fst snd]
         end; try done.
  intros [= <-]. by eexists.
Qed.

(** X14: the sentinel is unambiguous.  With a square root that is never
    negative, a pair of columns neither of which is constant never gets a
    negative value: the result is NaN, the positive infinity, or a finite
    number that is at least 0; [-1] stands for a constant column only. *)
Theorem cramers_sentinel_unambiguous (sqrt : Qc → Qc) (x y : list string)
    (v : np_float) :
  (∀ q, (0 ≤ q)%Qc → (0 ≤ sqrt q)%Qc) →
  length (Pandas.value_counts x) ≠ 1%nat →
  length (Pandas.value_counts y) ≠ 1%nat →
  cramers_value sqrt x y = Ok v →
  v = NaN ∨ v = PInf ∨ ∃ q, v = Fin q ∧ (0 ≤ q)%Qc.
Proof.
  intros Hsqrt Hx Hy. rewrite !length_value_counts in *.
  rewrite cramers_value_unfold.
  destruct (decide _) as [|_]; [done|]. destruct (decide _) as [|_]; [done|].
  cbv zeta. destruct (Scipy.chi2_contingency _ _) as [chi2|e]; [|done].
  destruct (cramers_formula _ _ _ _ _) as [v'|e] eqn:Hv'; [|done].
  intros [= <-]. apply cramers_formula_sqrt in Hv' as [u ->]. unfold np_sqrt.
  destruct u as [q| | |]; [|by right; left|by left|by left].
  case_decide as Hq; [by left|]. right; right.
  apply py_round_nonneg, Hsqrt. by apply Qcnot_lt_le.
Qed.

Lemma cramers_sentinel_unambiguous_witness :
  let v := Fin (of_Z 153093 / of_Z 250000) in
  v = NaN ∨ v = PInf ∨ ∃ q, v = Fin q ∧ (0 ≤ q)%Qc.
Proof.
  apply (cramers_sentinel_unambiguous sqrt12
           ["m"; "f"; "m"; "f"; "m"; "f"] ["a"; "b"; "a"; "b"; "a"; "a"]).
  - intros q Hq. unfold sqrt12.
    unfold Qcdiv. apply Qcmult_nonneg_nonneg.
    + apply of_Z_nonneg, Z.sqrt_nonneg.
    + by vm_compute.
  - vm_compute. lia.
  - vm_compute. lia.
  - by_eval.
Defined.

(** ** Cramer's V of a variable with itself *)

Section CramersDiagonal.
Import Pandas.

Lemma zip_self_fst {A} (x : list A) : (zip x x).*1 = x.
Proof. induction x as [|a x IH]; simpl; [done|]. f_equal. exact IH. Qed.

Lemma zip_self_snd {A} (x : list A) : (zip x x).*2 = x.
Proof. induction x as [|a x IH]; simpl; [done|]. f_equal. exact IH. Qed.

Lemma count_self (r c : string) (x : list string) :
  count (r, c) (zip x x) = if decide (r = c) then count r x else 0%nat.
Proof.
  unfold count. induction x as [|a x IH]; simpl.
  - by destruct (decide (r = c)).
  - rewrite !filter_cons.
    destruct (decide ((a, a) = (r, c))) as [[= -> <-]|Hne].
    + destruct (decide (r = r)); [|done]. simpl. by rewrite IH.
    + rewrite IH. destruct (decide (r = c)) as [->|Hrc]; [|done].
      destruct (decide (a = c)) as [->|]; done.
Qed.

Lemma filter_fst_self (r : string) (x : list string) :
  length (filter (λ p : string * string, p.1 = r) (zip x x)) = count r x.
Proof.
  unfold count. induction x as [|a x IH]; simpl; [done|].
  rewrite !filter_cons. simpl. destruct (decide (a = r)); simpl; by rewrite IH.
Qed.

Lemma filter_snd_self (c : string) (x : list string) :
  length (filter (λ p : string * string, p.2 = c) (zip x x)) = count c x.
Proof.
  unfold count. induction x as [|a x IH]; simpl; [done|].
  rewrite !filter_cons. simpl. destruct (decide (a = c)); simpl; by rewrite IH.
Qed.

Lemma of_nat_add (a b : nat) : of_nat (a + b) = of_nat a + of_nat b.
Proof. unfold of_nat. by rewrite Nat2Z.inj_add, Z2Qc_inj_add. Qed.

Lemma of_nat_sum {A} (g : A → nat) (l : list A) :
  of_nat (sum_nat (map g l)) = sum (map (λ a, of_nat (g a)) l).
Proof.
  induction l as [|a l IH]; simpl; [by_eval|]. by rewrite of_nat_add, IH.
Qed.

Lemma sum_scale {A} (s : Qc) (g : A → Qc) (l : list A) :
  sum (map (λ a, s * g a) l) = s * sum (map g l).
Proof. induction l as [|a l IH]; simpl; [ring|]. rewrite IH. ring. Qed.

Lemma sum_const {A} (c : Qc) (l : list A) :
  sum (map (λ _, c) l) = of_nat (length l) * c.
Proof.
  induction l as [|a l IH]; simpl.
  - assert (of_nat 0 = 0) as -> by by_eval. ring.
  - rewrite IH. change (S (length l)) with (1 + length l)%nat.
    rewrite of_nat_add. assert (of_nat 1 = 1) as -> by by_eval. ring.
Qed.

Lemma sum_indicator (r : string) (u : Qc) (l : list string) :
  NoDup l → r ∈ l →
  sum (map (λ c, if decide (r = c) then u else 0) l) = u.
Proof.
  induction 1 as [|c l Hnotin Hnd IH]; intros Hin.
  - by apply elem_of_nil in Hin.
  - simpl. destruct (decide (r = c)) as [->|Hne].
    + assert (sum (map (λ c0, if decide (c = c0) then u else 0) l) = 0) as ->;
        [|ring].
      clear IH Hin Hnd. induction l as [|c' l IH]; [done|]. simpl.
      destruct (decide (c = c')) as [->|_].
      * destruct Hnotin. by left.
      * rewrite IH; [ring|]. intros H. apply Hnotin. by right.
    + apply elem_of_cons in Hin as [->|Hin]; [done|]. rewrite IH by done. ring.
Qed.

Lemma sum_ext_in {A} (f g : A → Qc) (l : list A) :
  (∀ a, a ∈ l → f a = g a) → sum (map f l) = sum (map g l).
Proof.
  intros H. f_equal. apply map_ext_in. intros a Ha. apply H.
  by apply list_elem_of_In.
Qed.

Lemma pearson_diagonal (a N : Qc) :
  a ≠ 0 → N ≠ 0 →
  Scipy.pearson a (a * a / N) = (N - 2 * a) + a / N * a.
Proof. intros Ha HN. unfold Scipy.pearson. field. by repeat split. Qed.

Lemma pearson_off_diagonal (a b N : Qc) :
  a ≠ 0 → b ≠ 0 → N ≠ 0 →
  Scipy.pearson 0 (a * b / N) = 0 + a / N * b.
Proof. intros Ha Hb HN. unfold Scipy.pearson. field. by repeat split. Qed.

Lemma count_total (x : list string) :
  sum_nat (map (λ c, count c x) (levels x)) = length x.
Proof.
  apply (partition_count (λ a : string, a)); [apply NoDup_levels|].
  intros a Ha. by apply elem_of_levels.
Qed.

Lemma count_pos (r : string) (x : list string) :
  r ∈ levels x → of_nat (count r x) ≠ 0.
Proof.
  intros Hr. apply of_nat_pos_nonzero. rewrite <- filter_fst_self.
  apply row_total_pos. by rewrite zip_self_fst.
Qed.

(** Pearson's statistic of the table of a variable against itself. *)
Lemma chi2_self (x : list string) :
  (2 ≤ length (remove_dups x))%nat →
  let t := crosstab x x in
  Scipy.chi2_contingency t (cramers_correct t)
  = Ok (of_nat (length (remove_dups x)) * of_nat (length x) - of_nat (length x)).
Proof.
  intros Hk t.
  assert (x ≠ []) as Hx by (intros ->; simpl in Hk; lia).
  assert (of_nat (length x) ≠ 0) as HN.
  { apply of_nat_pos_nonzero. destruct x; [done|simpl; lia]. }
  assert (zip x x ≠ []) as Hobs by (by destruct x).
  destruct (chi2_defined x x (cramers_correct t) Hobs) as [chi2 Hchi].
  fold t in Hchi. rewrite Hchi. f_equal. revert Hchi.
  unfold Scipy.chi2_contingency.
  destruct (decide (Scipy.size t = 0%nat)) as [|Hsize]; [done|].
  destruct (decide (Exists _ _)) as [|_]; [done|].
  assert (length (levels x) = length (remove_dups x)) as Hlev
    by apply length_levels.
  destruct (decide (Scipy.dof t = 0%Z)) as [Hdof|_].
  { exfalso. revert Hdof. unfold Scipy.dof, Scipy.size, t, crosstab.
    cbn [index header]. rewrite zip_self_fst, zip_self_snd, Hlev. nia. }
  rewrite cramers_yates_off by done. intros [= <-].
  unfold t, crosstab. rewrite zip_self_fst, zip_self_snd.
  rewrite expected_freq_tabulate. cbn [cells].
  rewrite zip_with_tabulate. unfold tabulate. rewrite map_map.
  pose proof (row_total) as Hrow. pose proof (col_total) as Hcol.
  pose proof (grand_total (zip x x)) as Hall.
  rewrite zip_self_fst, zip_self_snd in Hall. rewrite Hall, length_zip, Nat.min_id.
  set (N := of_nat (length x)) in *.
  rewrite (sum_ext_in _ (λ r, N - of_nat (count r x))).
  - rewrite <- Hlev.
    rewrite (sum_ext_in _ (λ r, N + (- 1) * of_nat (count r x)))
      by (intros; ring).
    rewrite sum_add, sum_const, sum_scale, <- of_nat_sum, count_total.
    fold N. ring.
  - intros r Hr.
    pose proof (Hrow r (zip x x)) as Hr1. rewrite zip_self_snd in Hr1.
    rewrite Hr1, filter_fst_self.
    rewrite (sum_ext_in _
      (λ c, (if decide (r = c) then N - 2 * of_nat (count r x) else 0)
            + of_nat (count r x) / N * of_nat (count c x))).
    + rewrite sum_add, sum_indicator, sum_scale, <- of_nat_sum, count_total;
        [|apply NoDup_levels|done].
      fold N. field. done.
    + intros c Hc.
      pose proof (Hcol c (zip x x)) as Hc1. rewrite zip_self_fst in Hc1.
      rewrite Hc1, filter_snd_self, count_self.
      destruct (decide (r = c)) as [->|Hne].
      * apply pearson_diagonal; [by apply count_pos|done].
      * apply pearson_off_diagonal; [by apply count_pos|by apply count_pos|done].
Qed.

End CramersDiagonal.

(** The statistic of a [k]×[k] table of [n] observations whose chi-squared
    value is [n (k - 1)], where some level occurs more than once. *)
Lemma cramers_formula_self (sqrt : Qc → Qc) (n k : Z) :
  sqrt 1 = 1 → (2 ≤ k)%Z → (k < n)%Z →
  cramers_formula sqrt (of_Z k * of_Z n - of_Z n) n k k = Ok (Fin 1).
Proof.
  intros Hsqrt Hk Hn. rewrite cramers_formula_closed by lia. cbv zeta.
  assert (of_Z n ≠ 0) as HN by (rewrite of_Z_eq_0; lia).
  assert (of_Z (n - 1) ≠ 0) as HN1 by (rewrite of_Z_eq_0; lia).
  pose proof (corrected_levels_pos n k Hk Hn) as HD.
  set (D := corrected_levels n k) in *.
  assert (phi2_corrected (of_Z k * of_Z n - of_Z n) n k k = D) as ->.
  { unfold D, phi2_corrected, corrected_levels. rewrite Z.pow_2_r.
    assert (of_Z 1 = 1) as -> by by_eval. by field. }
  assert (D ≠ 0) as HD' by (intros E; rewrite E in HD; by apply Qclt_not_eq in HD).
  assert ((if decide (D < D) then D else D) = D) as -> by by destruct (decide _).
  destruct (decide (0 < D)) as [_|]; [|done].
  rewrite div_fin, Qcdiv_self by done. unfold np_sqrt.
  destruct (decide (1 < 0)) as [H|_]; [by vm_compute in H|].
  by rewrite Hsqrt.
Qed.

(** The same when every observation has a level of its own, for any
    chi-squared value: the divisor is the float 0, and the outcome turns on
    the side of [n (n - 1)] the chi-squared value falls on. *)
Lemma cramers_formula_distinct (sqrt : Qc → Qc) (chi2 : Qc) (n : Z) :
  (2 ≤ n)%Z →
  cramers_formula sqrt chi2 n n n
  = if decide (of_Z n * of_Z (n - 1) < chi2) then Ok PInf
    else Raise ZeroDivisionError.
Proof.
  intros Hn. rewrite cramers_formula_closed by lia. cbv zeta.
  rewrite corrected_levels_all by done.
  assert (0 < of_Z n)%Qc as HN by (apply of_Z_pos; lia).
  assert (of_Z n ≠ 0) as HN' by (rewrite of_Z_eq_0; lia).
  assert (of_Z (n - 1) ≠ 0) as HN1 by (rewrite of_Z_eq_0; lia).
  assert ((if decide (0 < 0) then 0 else 0) = 0) as -> by by destruct (decide _).
  assert (phi2_corrected chi2 n n n = (chi2 - of_Z n * of_Z (n - 1)) / of_Z n)
    as ->.
  { unfold phi2_corrected. unfold of_Z in *. rewrite Z2Qc_inj_mul. by field. }
  assert (0 < (chi2 - of_Z n * of_Z (n - 1)) / of_Z n
          ↔ of_Z n * of_Z (n - 1) < chi2) as Hiff.
  { split.
    - intros H. apply (Qcmult_lt_compat_r _ _ (of_Z n)) in H; [|done].
      rewrite Qcmult_0_l in H.
      assert ((chi2 - of_Z n * of_Z (n - 1)) / of_Z n * of_Z n
              = chi2 - of_Z n * of_Z (n - 1)) as E by (by field).
      rewrite E in H.
      apply (Qcplus_lt_mono_r _ _ (- (of_Z n * of_Z (n - 1)))).
      by rewrite Qcplus_opp_r.
    - intros H. unfold Qcdiv. apply Qcmult_pos_pos; [|by apply Qcinv_pos].
      apply (Qcplus_lt_mono_r _ _ (of_Z n * of_Z (n - 1))).
      by ring_simplify. }
  destruct (decide (0 < _)) as [Hpos|Hneg];
    destruct (decide (of_Z n * of_Z (n - 1) < chi2)) as [Hc|Hc];
    try tauto.
  unfold div. destruct (decide (0 = 0)) as [_|]; [|done].
  destruct (decide (_ = 0)) as [E|_].
  { rewrite E in Hpos. by apply Qclt_not_eq in Hpos. }
  by destruct (decide (0 < _)).
Qed.

Section SelfAssociation.
Import Pandas.

Lemma cramers_value_self (sqrt : Qc → Qc) (x : list string) :
  (2 ≤ length (remove_dups x))%nat →
  cramers_value sqrt x x
  = match cramers_formula sqrt
            (of_nat (length (remove_dups x)) * of_nat (length x)
             - of_nat (length x))
            (Z.of_nat (length x))
            (Z.of_nat (length (remove_dups x)))
            (Z.of_nat (length (remove_dups x))) with
    | Ok v => Ok (py_round v 6)
    | Raise e => Raise e
    end.
Proof.
  intros Hk. rewrite cramers_value_unfold.
  destruct (decide (length (remove_dups x) = 1%nat)) as [E|_]; [lia|].
  cbv zeta. rewrite chi2_self by done.
  rewrite crosstab_total, length_zip, Nat.min_id.
  unfold crosstab. cbn [index header].
  by rewrite zip_self_fst, zip_self_snd, length_levels.
Qed.

Lemma cramers_messages_varying (sqrt : Qc → Qc) (x y : list string) :
  length (remove_dups x) ≠ 1%nat → length (remove_dups y) ≠ 1%nat →
  cramers_messages sqrt x y = [].
Proof.
  intros Hx Hy. unfold cramers_messages, cramers_corrected_stat.
  rewrite !length_value_counts.
  destruct (decide (length (remove_dups x) = 1%nat)) as [|_]; [done|].
  destruct (decide (length (remove_dups y) = 1%nat)) as [|_]; [done|].
  unfold bind, lift, ret. cbv zeta. cbn [shape].
  destruct (Scipy.chi2_contingency _ _); [|done].
  repeat match goal with
         | |- context [match Python.truediv ?a ?b with _ => _ end] =>
             destruct (Python.truediv a b) as [?|?]; cbn [fst snd]
         end; done.
Qed.

End SelfAssociation.

(** X15: a variable that takes at least two values, one of them more than
    once, is perfectly associated with itself: with a square root that
    maps 1 to 1 the statistic of the pair [(x, x)] is exactly 1, and
    nothing is printed. *)
Theorem cramers_self_association (sqrt : Qc → Qc) (x : list string) (w : world) :
  sqrt 1 = 1 →
  (2 ≤ length (remove_dups x))%nat →
  (length (remove_dups x) < length x)%nat →
  cramers_corrected_stat sqrt x x w = (w, Ok (Fin 1)).
Proof.
  intros Hsqrt Hk Hn. rewrite cramers_run, cramers_value_self by done.
  rewrite cramers_messages_varying by lia. rewrite app_nil_r.
  unfold of_nat. fold (of_Z (Z.of_nat (length (remove_dups x)))).
  fold (of_Z (Z.of_nat (length x))).
  rewrite cramers_formula_self by (done || lia).
  assert (py_round (Fin 1) 6 = Fin 1) as -> by by_eval. by destruct w.
Qed.

Lemma cramers_self_association_witness :
  cramers_corrected_stat sqrt12 ["m"; "f"; "m"; "f"; "f"]
    ["m"; "f"; "m"; "f"; "f"] empty_world
  = (empty_world, Ok (Fin 1)).
Proof.
  apply (cramers_self_association sqrt12 ["m"; "f"; "m"; "f"; "f"] empty_world).
  - by_eval.
  - vm_compute. lia.
  - vm_compute. lia.
Defined.

(** X16: a variable with a different value on every row (an identifier)
    has no association with itself that is a number: on at least two rows
    the divisor is the float 0, and the call on the pair [(x, x)] raises
    [ZeroDivisionError] where the corrected numerator is the integer 0, and
    returns the positive infinity where it is above 0; nothing is printed.
    Which of the two happens turns on whether the chi-squared value is above
    [n (n - 1)]; its exact value is [n (n - 1)], so only rounding puts it
    above. *)
Theorem cramers_identifier_column (sqrt : Qc → Qc) (x : list string) (w : world) :
  NoDup x →
  (2 ≤ length x)%nat →
  let n := Z.of_nat (length x) in
  (∃ r, cramers_corrected_stat sqrt x x w = (w, r)
        ∧ (r = Raise ZeroDivisionError ∨ r = Ok PInf))
  ∧ ∀ chi2 : Qc,
      cramers_formula sqrt chi2 n n n
      = if decide (of_Z n * of_Z (n - 1) < chi2) then Ok PInf
        else Raise ZeroDivisionError.
Proof.
  intros Hnd Hn n.
  assert (length (remove_dups x) = length x) as Hk.
  { apply Permutation_length, NoDup_Permutation;
      [apply NoDup_remove_dups|done|apply elem_of_remove_dups]. }
  split; [|intros chi2; apply cramers_formula_distinct; lia].
  rewrite cramers_run, cramers_value_self by lia.
  rewrite cramers_messages_varying by lia. rewrite app_nil_r, Hk.
  rewrite cramers_formula_distinct by lia.
  assert (World (heap w) (stdout w) = w) as -> by by destruct w.
  destruct (decide _); eexists; (split; [reflexivity|]); [by right|by left].
Qed.

Lemma cramers_identifier_column_witness :
  (∃ r, cramers_corrected_stat sqrt12 ["a"; "b"; "c"; "d"]
          ["a"; "b"; "c"; "d"] empty_world = (empty_world, r)
        ∧ (r = Raise ZeroDivisionError ∨ r = Ok PInf))
  ∧ ∀ chi2 : Qc,
      cramers_formula sqrt12 chi2 4 4 4
      = if decide (of_Z 4 * of_Z (4 - 1) < chi2) then Ok PInf
        else Raise ZeroDivisionError.
Proof.
  apply (cramers_identifier_column sqrt12 ["a"; "b"; "c"; "d"] empty_world).
  - apply (bool_decide_unpack _). vm_compute. reflexivity.
  - simpl. lia.
Defined.



(** ** Training with tracking *)

Lemma wp_bind {A B} (m : Run A) (k : A → Run B) s Φ Ψ :
  run_wp m s (λ a s', run_wp (k a) s' Φ Ψ) Ψ → run_wp (run_bind m k) s Φ Ψ.
Proof. unfold run_wp, run_bind. by destruct (m s) as [s' [a|e]]. Qed.

Lemma wp_ret {A} (a : A) s (Φ : A → session → Prop) Ψ :
  Φ a s → run_wp (run_ret a) s Φ Ψ.
Proof. done. Qed.

Lemma wp_throw {A} (e : error) s (Φ : A → session → Prop) Ψ :
  Ψ e s → run_wp (throw e) s Φ Ψ.
Proof. done. Qed.

Lemma wp_of_result {A} (r : result A) s (Φ : A → session → Prop) Ψ :
  (∀ a, r = Ok a → Φ a s) → (∀ e, r = Raise e → Ψ (Builtin e) s) →
  run_wp (of_result r) s Φ Ψ.
Proof. intros HΦ HΨ. destruct r as [a|e]; [by apply HΦ|by apply HΨ]. Qed.

Lemma wp_py {A} (m : Py A) s (Φ : A → session → Prop) Ψ :
  (∀ w a, m (python s) = (w, Ok a) → Φ a (Session w (tracking s))) →
  (∀ w e, m (python s) = (w, Raise e) →
          Ψ (Builtin e) (Session w (tracking s))) →
  run_wp (py m) s Φ Ψ.
Proof.
  intros HΦ HΨ. unfold run_wp, py.
  destruct (m (python s)) as [w [a|e]]; [by apply HΦ|by apply HΨ].
Qed.

Lemma wp_emit (e : Mlflow.event) s (Φ : unit → session → Prop) Ψ :
  Φ () (Session (python s) (tracking s ++ [e])) → run_wp (emit e) s Φ Ψ.
Proof. done. Qed.

(** X18: a tracked cross-validation needs the dataset.  With
    [mlflow_register] set and [register_dataset] not set,
    [lin_reg_cross_val] never returns and never reaches mlflow: once the
    scores are computed and normalised it raises [ValueError] for an empty
    [run_name], and otherwise [UnboundLocalError], because [compatible_df]
    is assigned only under [register_dataset]. *)
Theorem lin_reg_cross_val_unbound_dataset (sqrt : Qc → Qc)
    {estimator features target table dataset : Type}
    (get_scorer_names : list string)
    (cross_validate :
       estimator → features → target → splitter → list string → bool → bool →
       Py loc)
    (LinearRegression : estimator)
    (concat : features → target → result table)
    (from_pandas : table → string → string → result dataset)
    (X : features) (y : target) (random_state : Z)
    (k_fold stratified_k_fold : bool) (n_splits : Z) (scoring : list string)
    (return_train_score return_estimator : bool) (run_name : string)
    (s : session) :
  ∃ s' e,
    lin_reg_cross_val sqrt get_scorer_names cross_validate LinearRegression
      concat from_pandas X y random_state k_fold stratified_k_fold n_splits
      scoring return_train_score return_estimator true false run_name s
    = (s', Throw e)
    ∧ tracking s' = tracking s
    ∧ ∀ w perf_dict,
        (perf_dict <- compute_k_fold_cross_val_scores get_scorer_names
                        cross_validate X y LinearRegression random_state
                        k_fold stratified_k_fold n_splits scoring
                        return_train_score return_estimator ;;
         transform_cross_val_scores sqrt perf_dict scoring) (python s)
        = (w, Ok perf_dict) →
        python s' = w
        ∧ e = if decide (run_name = "") then Builtin ValueError
              else UnboundLocalError "compatible_df".
Proof.
  unfold lin_reg_cross_val, run_bind, py, bind.
  destruct (compute_k_fold_cross_val_scores _ _ _ _ _ _ _ _ _ _ _ _ _)
    as [w1 [l1|e1]].
  - cbn [python tracking].
    destruct (transform_cross_val_scores sqrt l1 scoring w1) as [w2 [l2|e2]].
    + cbn. destruct (decide (run_name = "")) as [->|Hne].
      * eexists _, _. split; [done|]. split; [done|].
        by intros w perf_dict [= <- <-].
      * eexists _, _. split; [done|]. split; [done|].
        by intros w perf_dict [= <- <-].
    + eexists _, _. split; [done|]. split; [done|]. by intros w perf_dict [=].
  - eexists _, _. split; [done|]. split; [done|]. by intros w perf_dict [=].
Qed.

Lemma compute_scores_result {estimator features target : Type}
    (get_scorer_names : list string)
    (cross_validate :
       estimator → features → target → splitter → list string → bool → bool →
       Py loc)
    (X : features) (y : target) (model : estimator) (random_state : Z)
    (k_fold stratified_k_fold : bool) (n_splits : Z) (scoring : list string)
    (return_train_score return_estimator : bool) (w w' : world) (l : loc) :
  compute_k_fold_cross_val_scores get_scorer_names cross_validate X y model
    random_state k_fold stratified_k_fold n_splits scoring
    return_train_score return_estimator w = (w', Ok l) →
  ∃ w0 cv return_estimator',
    cross_validate model X y cv scoring return_train_score return_estimator' w0
    = (w', Ok l).
Proof.
  unfold compute_k_fold_cross_val_scores, k_fold_cross_val, bind, ret, raise.
  destruct (cross_validate model X y (Folds n_splits) scoring
              return_train_score return_estimator w) as [w1 [l1|e1]] eqn:E1;
    [|done].
  destruct k_fold, stratified_k_fold;
    repeat match goal with
    | |- context [existsb ?f ?l] => destruct (existsb f l)
    | |- context [cross_validate ?m ?a ?b ?c ?d ?e ?f ?w] =>
        lazymatch goal with
        | H : cross_validate m a b c d e f w = _ |- _ => fail
        | _ => let E := fresh "E" in
               destruct (cross_validate m a b c d e f w) as [? [?|?]] eqn:E
        end
    end; cbn; intros [= <- <-] || done; eauto.
Qed.

(** X19: the default [return_train_score=False] cannot work.  With a
    [cross_validate] that, as scikit-learn's does, returns no [train_] key
    unless asked, [lin_reg_cross_val] with [return_train_score] unset and at
    least one scorer never returns and never reaches mlflow; once the
    scores are computed the error is the [KeyError] for the train scores of
    the first scorer. *)
Theorem lin_reg_cross_val_needs_train_scores (sqrt : Qc → Qc)
    {estimator features target table dataset : Type}
    (get_scorer_names : list string)
    (cross_validate :
       estimator → features → target → splitter → list string → bool → bool →
       Py loc)
    (LinearRegression : estimator)
    (concat : features → target → result table)
    (from_pandas : table → string → string → result dataset)
    (X : features) (y : target) (random_state : Z)
    (k_fold stratified_k_fold : bool) (n_splits : Z)
    (score : string) (scoring : list string)
    (return_estimator mlflow_register register_dataset : bool)
    (run_name : string) (s : session) :
  (∀ model X y cv scoring return_estimator w w' l,
     cross_validate model X y cv scoring false return_estimator w = (w', Ok l) →
     ∃ d, heap w' !! l = Some (ODict d)
          ∧ ∀ name, d !! ("train_" ++ name)%string = None) →
  ∃ s' e,
    lin_reg_cross_val sqrt get_scorer_names cross_validate LinearRegression
      concat from_pandas X y random_state k_fold stratified_k_fold n_splits
      (score :: scoring) false return_estimator mlflow_register
      register_dataset run_name s
    = (s', Throw (Builtin e))
    ∧ tracking s' = tracking s
    ∧ ∀ w perf_dict,
        compute_k_fold_cross_val_scores get_scorer_names cross_validate X y
          LinearRegression random_state k_fold stratified_k_fold n_splits
          (score :: scoring) false return_estimator (python s)
        = (w, Ok perf_dict) →
        python s' = w ∧ e = KeyError ("train_" ++ score).
Proof.
  intros Hcv. unfold lin_reg_cross_val, run_bind, py.
  destruct (compute_k_fold_cross_val_scores _ _ _ _ _ _ _ _ _ _ _ _ _)
    as [w1 [l1|e1]] eqn:Hcompute.
  - destruct (compute_scores_result _ _ _ _ _ _ _ _ _ _ _ _ _ _ _ Hcompute)
      as (w0 & cv & re & Hcall).
    destruct (Hcv _ _ _ _ _ _ _ _ _ Hcall) as (d & Hd & Hnone).
    cbn [python tracking].
    assert (transform_cross_val_scores sqrt l1 (score :: scoring) w1
            = (w1, Raise (KeyError ("train_" ++ score)))) as ->.
    { unfold transform_cross_val_scores. cbn [for_each].
      unfold bind at 1. unfold bind at 1. unfold bind at 1.
      unfold dict_getitem at 1. by rewrite Hd, Hnone. }
    eexists _, _. split; [done|]. split; [done|].
    by intros w perf_dict [= <- <-].
  - eexists _, _. split; [done|]. split; [done|]. by intros w perf_dict [=].
Qed.

Lemma lin_reg_cross_val_needs_train_scores_witness :
  ∃ s' e,
    lin_reg_cross_val sqrt12 ["r2"] r2_cross_validate ()
      (λ _ _, Ok ()) (λ _ _ _, Ok ()) () () 42 false false 5
      ["r2"] false false false false "" empty_session
    = (s', Throw (Builtin e))
    ∧ tracking s' = tracking empty_session
    ∧ ∀ w perf_dict,
        compute_k_fold_cross_val_scores ["r2"] r2_cross_validate () () ()
          42 false false 5 ["r2"] false false (python empty_session)
        = (w, Ok perf_dict) →
        python s' = w ∧ e = KeyError ("train_" ++ "r2").
Proof.
  apply (lin_reg_cross_val_needs_train_scores sqrt12 ["r2"] r2_cross_validate
           () (λ _ _, Ok ()) (λ _ _ _, Ok ()) () () 42 false false 5
           "r2" [] false false false "" empty_session).
  intros model X y cv scoring return_estimator w w' l [= <- <-].
  eexists. split; [apply lookup_insert_eq|].
  intros name. apply lookup_insert_None. split; [done|].
  simpl. intros [=].
Defined.

Lemma no_model_in (s : session) (events : list Mlflow.event) :
  Forall (λ ev, ∀ p, ev ≠ Mlflow.log_model p) events →
  no_model_logged s (Session (python s) (tracking s ++ events)).
Proof.
  intros Hev p [Hin|Hin]%elem_of_app; [done|].
  rewrite Forall_forall in Hev. by destruct (Hev _ Hin p).
Qed.

(** X20: a record short of one of the six metrics is not logged.  When
    [perf_dict] lacks one of the keys [mlflow_linreg] reads, the call raises
    [KeyError] for the first missing key in reading order and leaves the
    record untouched.  What it adds to the tracking store is exactly: the
    start of the run, the dataset when it is registered, one [log_metric]
    for each key read before the missing one, with the value of that key
    under its logged name and in reading order, and the end of the run as
    failed.  So the run is closed as failed, without the model and with only
    the metrics read before. *)
Theorem mlflow_linreg_missing_metric {estimator dataset : Type}
    (lr_model : estimator) (perf_dict : loc) (d : gmap string value)
    (run_name : option string) (register_dataset : bool)
    (ds : option dataset) (s : session) :
  heap (python s) !! perf_dict = Some (ODict d) →
  (register_dataset = true → is_Some ds) →
  ¬ Forall (λ key, is_Some (d !! key)) logged_keys →
  ∃ before key after s',
    logged_keys = before ++ key :: after
    ∧ Forall (λ key, is_Some (d !! key)) before
    ∧ d !! key = None
    ∧ mlflow_linreg lr_model perf_dict run_name register_dataset ds s
      = (s', Throw (Builtin (KeyError key)))
    ∧ python s' = python s
    ∧ tracking s'
      = tracking s
        ++ Mlflow.start_run run_name
           :: (if register_dataset then [Mlflow.log_input "training"] else [])
           ++ metric_events d before
           ++ [Mlflow.end_run Mlflow.FAILED]
    ∧ tracking s' !! length (tracking s) = Some (Mlflow.start_run run_name)
    ∧ last (tracking s') = Some (Mlflow.end_run Mlflow.FAILED)
    ∧ no_model_logged s s'.
Proof.
  intros Hd Hds Hbad.
  destruct (first_failure _ _ Hbad)
    as (before & key & after & Hsplit & Hbefore & Hkey).
  exists before, key, after.
  assert (d !! key = None) as Hnone.
  { destruct (d !! key) eqn:E; [|done]. destruct Hkey. eauto. }
  assert (register_dataset && negb (bool_decide (is_Some ds)) = false) as Hreg.
  { destruct register_dataset; [|done]. simpl.
    by rewrite bool_decide_eq_true_2 by by apply Hds. }
  destruct s as [w tr]. cbn [python tracking] in *.
  assert (∀ events,
    (Session w (tr ++ Mlflow.start_run run_name :: events)).(tracking)
      !! length tr = Some (Mlflow.start_run run_name)) as Hstart.
  { intros events. cbn [tracking].
    by rewrite lookup_app_r, Nat.sub_diag by lia. }
  unfold mlflow_linreg. rewrite Hreg.
  unfold logged_keys in Hsplit.
  destruct before as [|k1 [|k2 [|k3 [|k4 [|k5 [|k6 [|k7 before]]]]]]];
    simplify_list_eq;
    repeat match goal with
    | H : Forall _ (_ :: _) |- _ => apply Forall_cons in H as [[? ?] H]
    end;
    unfold with_run, run_bind, emit, py, dict_getitem, run_ret;
    destruct register_dataset; cbn [python tracking]; rewrite ?Hd;
    repeat match goal with
    | H : d !! ?k = Some _ |- context [d !! ?k] =>
        rewrite H; cbn [python tracking]; rewrite ?Hd
    end;
    rewrite Hnone; cbn [python tracking];
    (eexists; split; [done|];
     split; [repeat (apply Forall_cons; split; [by eexists|]); by apply Forall_nil|];
     split; [done|]; split; [reflexivity|]; split; [reflexivity|];
     cbn [tracking]; rewrite <- ?(assoc_L (++)); cbn [app];
     split;
     [unfold metric_events, logged_names, omap; cbn [zip_with list_omap fst snd];
      repeat match goal with
      | H : d !! ?k = Some _ |- context [d !! ?k] => rewrite H
      end; reflexivity|];
     split; [apply Hstart|]; split;
     [rewrite last_app; reflexivity
     |apply (no_model_in (Session w tr));
      repeat (apply Forall_cons; split; [by intros p|]); by apply Forall_nil]).
Qed.

Lemma mlflow_linreg_missing_metric_witness :
  ∃ before key after s',
    logged_keys = before ++ key :: after
    ∧ Forall (λ key, is_Some (rmse_metrics !! key)) before
    ∧ rmse_metrics !! key = None
    ∧ mlflow_linreg () 2%positive (Some "ridge") false (None : option unit)
        (Session table_world [])
      = (s', Throw (Builtin (KeyError key)))
    ∧ python s' = python (Session table_world [])
    ∧ tracking s'
      = tracking (Session table_world [])
        ++ Mlflow.start_run (Some "ridge")
           :: (if false then [Mlflow.log_input "training"] else [])
           ++ metric_events rmse_metrics before
           ++ [Mlflow.end_run Mlflow.FAILED]
    ∧ tracking s' !! length (tracking (Session table_world []))
      = Some (Mlflow.start_run (Some "ridge"))
    ∧ last (tracking s') = Some (Mlflow.end_run Mlflow.FAILED)
    ∧ no_model_logged (Session table_world []) s'.
Proof.
  apply (mlflow_linreg_missing_metric () 2%positive rmse_metrics
           (Some "ridge") false None (Session table_world [])).
  - reflexivity.
  - discriminate.
  - intros H. apply Forall_cons in H as [_ H]. apply Forall_cons in H as [_ H].
    apply Forall_cons in H as [[v Hv] _]. vm_compute in Hv. discriminate.
Defined.

Lemma wp_inv {A B} (I : A → session → Prop) (m : Run A) (k : A → Run B) s
    (Φ : B → session → Prop) Ψ :
  run_wp m s I Ψ →
  (∀ a s', I a s' → run_wp (k a) s' Φ Ψ) →
  run_wp (run_bind m k) s Φ Ψ.
Proof.
  intros Hm Hk. apply wp_bind. unfold run_wp in *.
  destruct (m s) as [s' [a|e]]; [by apply Hk|done].
Qed.

Lemma wp_throws {A} (m : Run A) s Ψ :
  run_wp m s (λ _ _, False) Ψ → ∃ s' e, m s = (s', Throw e) ∧ Ψ e s'.
Proof. unfold run_wp. destruct (m s) as [s' [a|e]]; [done|eauto]. Qed.

Lemma mlflow_linreg_first_key {estimator dataset : Type}
    (lr_model : estimator) (perf_dict : loc) (d : gmap string value)
    (run_name : option string) (register_dataset : bool) (ds : dataset)
    (s : session) :
  heap (python s) !! perf_dict = Some (ODict d) →
  d !! "train_rmse_mean" = None →
  ∃ events,
    mlflow_linreg lr_model perf_dict run_name register_dataset (Some ds) s
    = (Session (python s) (tracking s ++ events),
       Throw (Builtin (KeyError "train_rmse_mean")))
    ∧ Forall (λ ev, ∀ p, ev ≠ Mlflow.log_model p) events.
Proof.
  intros Hd Hnone. unfold mlflow_linreg.
  rewrite bool_decide_eq_true_2, andb_false_r by eauto.
  unfold with_run, run_bind, emit, py, dict_getitem, run_ret.
  destruct register_dataset; cbn [python tracking]; rewrite Hd, Hnone;
    cbn [python tracking]; rewrite <- ?(assoc_L (++)); cbn [app];
    (eexists; split; [reflexivity|]);
    repeat (apply Forall_cons; split; [by intros p|]); by apply Forall_nil.
Qed.

(** X21: a train/test run cannot be registered.  [lin_reg_train_test]
    stores its metrics under [train_rmse], [train_mae], ... while
    [mlflow_linreg] reads [train_rmse_mean], ...: with [mlflow_register]
    set the call never returns and never logs a model, whatever the data,
    the run name and [register_dataset]. *)
Theorem lin_reg_train_test_never_registers (sqrt : Qc → Qc)
    (format4 : np_float → string) {estimator table dataset : Type}
    (train_test_split :
       frame (list Qc) → list Qc → Qc → Z →
       result (frame (list Qc) * frame (list Qc) * list Qc * list Qc))
    (concat : frame (list Qc) → list Qc → result table)
    (from_pandas : table → string → string → result dataset)
    (fit : frame (list Qc) → list Qc → result estimator)
    (predict : estimator → frame (list Qc) → result (list Qc))
    (X : option (frame (list Qc))) (y : option (list Qc))
    (test_size : option Qc) (X_train X_test : option (frame (list Qc)))
    (y_train y_test : option (list Qc)) (random_state : Z)
    (run_name : string) (register_dataset : bool) (s : session) :
  ∃ s' e,
    lin_reg_train_test sqrt format4 train_test_split concat from_pandas fit
      predict X y test_size X_train X_test y_train y_test random_state
      true run_name register_dataset s
    = (s', Throw e)
    ∧ no_model_logged s s'.
Proof.
  apply wp_throws. unfold lin_reg_train_test.
  set (quiet := λ s' : session, tracking s' = tracking s).
  set (holds := λ (l : loc) (s' : session),
         quiet s' ∧ ∃ d, heap (python s') !! l = Some (ODict d)
                         ∧ d !! "train_rmse_mean" = None).
  assert (∀ s', quiet s' → no_model_logged s s') as Hquiet.
  { intros s' Hs' p. by rewrite Hs'. }
  assert (∀ A (r : result A) s' (Φ : A → session → Prop),
            quiet s' → (∀ a, Φ a s') →
            run_wp (of_result r) s' Φ (λ _ s'', no_model_logged s s'')) as Hres.
  { intros A r s' Φ Hs' HΦ. apply wp_of_result; [by intros|].
    intros e _. by apply Hquiet. }
  assert (∀ l m s' (Φ : value → session → Prop),
            holds l s' → (∀ v, Φ v s') →
            run_wp (metric m) s' Φ (λ _ s'', no_model_logged s s'')) as Hmetric.
  { intros l m s' Φ [Hs' _] HΦ. destruct m; [by apply HΦ|by apply Hquiet]. }
  assert (∀ l key v s',
            holds l s' → key ≠ "train_rmse_mean" →
            run_wp (py (dict_setitem l key v)) s' (λ _ s'', holds l s'')
                   (λ _ s'', no_model_logged s s'')) as Hset.
  { intros l key v s' (Hs' & d & Hd & Hnone) Hkey. apply wp_py.
    - unfold dict_setitem. rewrite Hd. intros w [] [= <-].
      split; [done|]. exists (<[key := v]> d). cbn [python heap].
      split; [apply lookup_insert_eq|]. by rewrite lookup_insert_ne.
    - unfold dict_setitem. by rewrite Hd. }
  assert (quiet s) as Hs0 by reflexivity.
  apply (wp_inv (λ _, quiet)).
  { destruct X as [X|], y as [y|], test_size as [size|];
      try destruct (decide (size = 0));
      try destruct X_train, X_test, y_train, y_test;
      first [exact Hs0|exact (Hquiet s Hs0)|by apply Hres]. }
  intros [[[X_train' X_test'] y_train'] y_test'] s1 Hs1.
  apply (wp_inv (λ _, quiet)).
  { destruct register_dataset; [|done].
    apply (wp_inv (λ _, quiet)); [by apply Hres|]. intros full_df s2 Hs2.
    apply (wp_inv (λ _, quiet)); [by apply Hres|]. by intros. }
  intros compatible_df s2 Hs2.
  apply (wp_inv holds).
  { apply wp_py; [|done]. unfold dict_new. intros w l [= <- <-].
    split; [done|]. exists ∅. cbn [python heap].
    split; [apply lookup_insert_eq|done]. }
  intros perf_dict s3 Hs3.
  apply (wp_inv (λ _, holds perf_dict)); [apply Hres; [apply Hs3|done]|].
  intros lr s4 Hs4.
  apply (wp_inv (λ _, holds perf_dict)); [apply Hres; [apply Hs4|done]|].
  intros lr_y_hat_train s5 Hs5.
  apply (wp_inv (λ _, holds perf_dict)); [apply Hres; [apply Hs5|done]|].
  intros [[[rmse mae] r2_score] adjusted] s6 Hs6.
  repeat (apply (wp_inv (λ _, holds perf_dict));
          [by eapply Hmetric|intros ? ? ?];
          apply (wp_inv (λ _, holds perf_dict));
          [by apply Hset|intros ? ? ?]).
  match goal with
  | H : holds perf_dict ?s' |- run_wp _ ?s' _ _ =>
      apply (wp_inv (λ _, holds perf_dict)); [apply Hres; [apply H|done]|]
  end.
  intros lr_y_hat_test s7 Hs7.
  apply (wp_inv (λ _, holds perf_dict)); [apply Hres; [apply Hs7|done]|].
  intros [[[rmse' mae'] r2_score'] adjusted'] s8 Hs8.
  repeat (apply (wp_inv (λ _, holds perf_dict));
          [by eapply Hmetric|intros ? ? ?];
          apply (wp_inv (λ _, holds perf_dict));
          [by apply Hset|intros ? ? ?]).
  match goal with
  | H : holds perf_dict ?s' |- run_wp _ ?s' _ _ =>
      revert H; generalize s'; clear -Hquiet; intros s9 (Hq & d & Hd & Hnone)
  end.
  apply (wp_inv (λ _ _, False)); [|done].
  destruct (decide (run_name = "")); [by apply Hquiet|].
  destruct compatible_df as [ds|]; [|by apply Hquiet].
  apply wp_bind. cbn beta iota. unfold run_wp at 1, run_ret.
  destruct (mlflow_linreg_first_key lr perf_dict d (Some run_name)
              register_dataset ds s9 Hd Hnone) as (events & Hrun & Hev).
  unfold run_wp. rewrite Hrun. intros p. cbn [tracking]. rewrite Hq.
  intros [Hin|Hin]%elem_of_app; [done|].
  rewrite Forall_forall in Hev. by destruct (Hev _ Hin p).
Qed.

Lemma regression_metrics_floats {C} (sqrt : Qc → Qc)
    (format4 : np_float → string) (y_true y_pred : list Qc) (X_df : frame C)
    (rmse mae r2_score adjusted : py_num) :
  regression_metrics sqrt format4 y_true y_pred X_df
  = Ok (rmse, mae, r2_score, adjusted) →
  ∃ a b c d, rmse = PyFloat a ∧ mae = PyFloat b ∧ r2_score = PyFloat c
             ∧ adjusted = PyFloat d.
Proof.
  unfold regression_metrics, rmse_score, mae_score, r2, adjusted_r2_float.
  destruct (Sklearn.mean_squared_error _ _); [|done].
  destruct (Sklearn.mean_absolute_error _ _); [|done].
  destruct (Sklearn.r2_score _ _); [|done].
  destruct (decide _); [done|]. intros [= <- <- <- <-]. eauto 10.
Qed.

(** X22: the tracked cross-validation, end to end.  When the three scorers
    of the translation table are requested with their train scores, the
    dataset is registered and a run name is given, [lin_reg_cross_val]
    returns the normalised record and leaves one finished run: the dataset,
    the means of the absolute fold scores under [train_rmse], [test_rmse],
    [train_mae], [test_mae], [train_R2] and [test_R2], then the model. *)
Theorem lin_reg_cross_val_registers (sqrt : Qc → Qc)
    {estimator features target table dataset : Type}
    (get_scorer_names : list string)
    (cross_validate :
       estimator → features → target → splitter → list string → bool → bool →
       Py loc)
    (LinearRegression : estimator)
    (concat : features → target → result table)
    (from_pandas : table → string → string → result dataset)
    (X : features) (y : target) (random_state : Z)
    (k_fold stratified_k_fold : bool) (n_splits : Z) (scoring : list string)
    (return_train_score return_estimator : bool) (run_name : string)
    (s : session) (w : world) (perf_dict : loc) (d : gmap string value)
    (full_df : table) (compatible_df : dataset)
    (train_rmse test_rmse train_mae test_mae train_r2 test_r2 : value) :
  compute_k_fold_cross_val_scores get_scorer_names cross_validate X y
    LinearRegression random_state k_fold stratified_k_fold n_splits scoring
    return_train_score return_estimator (python s) = (w, Ok perf_dict) →
  heap w !! perf_dict = Some (ODict d) →
  Forall (processable d) scoring →
  Forall (λ score, score ∈ scoring)
         ["neg_root_mean_squared_error"; "neg_mean_absolute_error"; "r2"] →
  d !! "train_neg_root_mean_squared_error" = Some train_rmse →
  d !! "test_neg_root_mean_squared_error" = Some test_rmse →
  d !! "train_neg_mean_absolute_error" = Some train_mae →
  d !! "test_neg_mean_absolute_error" = Some test_mae →
  d !! "train_r2" = Some train_r2 →
  d !! "test_r2" = Some test_r2 →
  concat X y = Ok full_df →
  from_pandas full_df "Sleeping score" "Score" = Ok compatible_df →
  run_name ≠ "" →
  ∃ w',
    lin_reg_cross_val sqrt get_scorer_names cross_validate LinearRegression
      concat from_pandas X y random_state k_fold stratified_k_fold n_splits
      scoring return_train_score return_estimator true true run_name s
    = (Session w'
         (tracking s ++
          [Mlflow.start_run (Some run_name);
           Mlflow.log_input "training";
           Mlflow.log_metric "train_rmse" (Scalar (mean (np_abs train_rmse)));
           Mlflow.log_metric "test_rmse" (Scalar (mean (np_abs test_rmse)));
           Mlflow.log_metric "train_mae" (Scalar (mean (np_abs train_mae)));
           Mlflow.log_metric "test_mae" (Scalar (mean (np_abs test_mae)));
           Mlflow.log_metric "train_R2" (Scalar (mean (np_abs train_r2)));
           Mlflow.log_metric "test_R2" (Scalar (mean (np_abs test_r2)));
           Mlflow.log_model "Linear_regression";
           Mlflow.end_run Mlflow.FINISHED]),
       Return perf_dict)
    ∧ (transform_cross_val_scores sqrt perf_dict scoring w).1 = w'.
Proof.
  intros Hcompute Hd Hall Hin Htr1 Hte1 Htr2 Hte2 Htr3 Hte3 Hconcat Hfrom Hname.
  apply Forall_cons in Hin as [Hin1 Hin]. apply Forall_cons in Hin as [Hin2 Hin].
  apply Forall_cons in Hin as [Hin3 _].
  destruct (transform_lookup sqrt d scoring "neg_root_mean_squared_error"
              "rmse" train_rmse test_rmse Hall Hin1 eq_refl Htr1 Hte1)
    as (H1 & H2 & _).
  destruct (transform_lookup sqrt d scoring "neg_mean_absolute_error"
              "mae" train_mae test_mae Hall Hin2 eq_refl Htr2 Hte2)
    as (H3 & H4 & _).
  destruct (transform_lookup sqrt d scoring "r2"
              "r2" train_r2 test_r2 Hall Hin3 eq_refl Htr3 Hte3)
    as (H5 & H6 & _).
  change (insert_all (scoring ≫= score_entries sqrt d) d !! "train_rmse_mean" = Some (Scalar (mean (np_abs train_rmse)))) in H1.
  change (insert_all (scoring ≫= score_entries sqrt d) d !! "test_rmse_mean" = Some (Scalar (mean (np_abs test_rmse)))) in H2.
  change (insert_all (scoring ≫= score_entries sqrt d) d !! "train_mae_mean" = Some (Scalar (mean (np_abs train_mae)))) in H3.
  change (insert_all (scoring ≫= score_entries sqrt d) d !! "test_mae_mean" = Some (Scalar (mean (np_abs test_mae)))) in H4.
  change (insert_all (scoring ≫= score_entries sqrt d) d !! "train_r2_mean" = Some (Scalar (mean (np_abs train_r2)))) in H5.
  change (insert_all (scoring ≫= score_entries sqrt d) d !! "test_r2_mean" = Some (Scalar (mean (np_abs test_r2)))) in H6.
  rewrite (transform_run sqrt w perf_dict d) by done. cbn [fst].
  eexists. split; [|reflexivity].
  set (d' := insert_all (scoring ≫= score_entries sqrt d) d) in *.
  set (w1 := World (<[perf_dict := ODict d']> (heap w)) (stdout w)).
  assert (heap w1 !! perf_dict = Some (ODict d')) as Hd'
    by apply lookup_insert_eq.
  unfold lin_reg_cross_val, mlflow_linreg, with_run, transform_dataset.
  unfold run_bind, py, of_result, run_ret, throw, emit.
  rewrite Hcompute. cbn [python tracking].
  rewrite (transform_run sqrt w perf_dict d) by done. fold d' w1.
  rewrite Hconcat. cbn [python tracking]. rewrite Hfrom. cbn [python tracking].
  destruct (decide (run_name = "")) as [|_]; [done|].
  rewrite bool_decide_eq_true_2 by eauto. cbn [andb negb python tracking].
  unfold dict_getitem.
  rewrite Hd', H1. cbn [python tracking]. rewrite Hd', H2. cbn [python tracking].
  rewrite Hd', H3. cbn [python tracking]. rewrite Hd', H4. cbn [python tracking].
  rewrite Hd', H5. cbn [python tracking]. rewrite Hd', H6. cbn [python tracking].
  rewrite <- !(assoc_L (++)). reflexivity.
Qed.

Lemma lin_reg_cross_val_registers_witness :
  let w := World (<[1%positive := ODict fold_scores]> ∅) [] in
  ∃ w',
    lin_reg_cross_val sqrt12 three_scorers three_cross_validate ()
      (λ _ _, Ok ()) (λ _ _ _, Ok ()) () () 42 false false 5 three_scorers
      true false true true "ridge" empty_session
    = (Session w'
         (tracking empty_session ++
          [Mlflow.start_run (Some "ridge");
           Mlflow.log_input "training";
           Mlflow.log_metric "train_rmse"
             (Scalar (mean (np_abs (Arr [of_Z (-1); of_Z (-3)]))));
           Mlflow.log_metric "test_rmse"
             (Scalar (mean (np_abs (Arr [of_Z (-2); of_Z (-4)]))));
           Mlflow.log_metric "train_mae"
             (Scalar (mean (np_abs (Arr [of_Z (-1); of_Z (-1)]))));
           Mlflow.log_metric "test_mae"
             (Scalar (mean (np_abs (Arr [of_Z (-2); of_Z (-2)]))));
           Mlflow.log_metric "train_R2" (Scalar (mean (np_abs (Arr [1; 1 / 2]))));
           Mlflow.log_metric "test_R2"
             (Scalar (mean (np_abs (Arr [1 / 2; 1 / 2]))));
           Mlflow.log_model "Linear_regression";
           Mlflow.end_run Mlflow.FINISHED]),
       Return 1%positive)
    ∧ (transform_cross_val_scores sqrt12 1%positive three_scorers w).1 = w'.
Proof.
  apply (lin_reg_cross_val_registers sqrt12 three_scorers three_cross_validate
           () (λ _ _, Ok ()) (λ _ _ _, Ok ()) () () 42 false false 5
           three_scorers true false "ridge" empty_session
           (World (<[1%positive := ODict fold_scores]> ∅) []) 1%positive
           fold_scores () ());
    try reflexivity.
  - repeat constructor; vm_compute; eauto.
  - repeat constructor; set_solver.
  - discriminate.
Defined.

(** ** Plot helpers *)

(** X23: the first entry of [models_list] that occurs in the model name
    decides, whatever follows it: the model gets that entry's category and
    colour, or the call raises [KeyError] when the entry is not a key of the
    table, as for [xgboost] in the list the docstring gives as example. *)
Theorem get_model_info_first_match (before after : list string)
    (key model_name : string) :
  Forall (λ k, str_in k model_name = false) before →
  str_in key model_name = true →
  get_model_info (before ++ key :: after) model_name
  = match model_mapping !! key with
    | Some info => Ok info
    | None => Raise (KeyError key)
    end.
Proof.
  intros Hbefore Hkey. induction Hbefore as [|k before Hk _ IH]; simpl.
  - by rewrite Hkey.
  - by rewrite Hk.
Qed.

Lemma get_model_info_first_match_witness :
  get_model_info (["lin_reg"; "rf"] ++ "xgboost" :: []) "xgboost_tuned"
  = match model_mapping !! "xgboost" with
    | Some info => Ok info
    | None => Raise (KeyError "xgboost")
    end.
Proof.
  apply (get_model_info_first_match ["lin_reg"; "rf"] [] "xgboost"
           "xgboost_tuned").
  - repeat constructor.
  - reflexivity.
Defined.

(** X24: with a [models_list] made of keys of the table the call never
    raises, and the model gets one of four category and colour pairs, the
    category fixing the colour. *)
Theorem get_model_info_palette (models_list : list string) (model_name : string) :
  Forall (λ key, is_Some (model_mapping !! key)) models_list →
  ∃ info,
    get_model_info models_list model_name = Ok info
    ∧ info ∈ [("Linear Regression", "blue"); ("Random Forest", "green");
              ("Gradient Boosting", "orange"); ("Other", "gray")].
Proof.
  induction 1 as [|key models_list [info Hinfo] _ IH]; simpl.
  - eexists. split; [done|]. set_solver.
  - destruct (str_in key model_name); [|done].
    rewrite Hinfo. exists info. split; [done|].
    unfold model_mapping in Hinfo.
    repeat (apply lookup_insert_Some in Hinfo as [[_ <-]|[_ Hinfo]];
            [set_solver|]).
    done.
Qed.

Lemma get_model_info_palette_witness :
  ∃ info,
    get_model_info ["lin_reg"; "rf"; "gboost"] "rf_depth_3" = Ok info
    ∧ info ∈ [("Linear Regression", "blue"); ("Random Forest", "green");
              ("Gradient Boosting", "orange"); ("Other", "gray")].
Proof.
  apply (get_model_info_palette ["lin_reg"; "rf"; "gboost"] "rf_depth_3").
  repeat constructor; vm_compute; eauto.
Defined.

(** ** The tracking table *)

Section TrackingTableFacts.

Context {V : Type} `{EqDecision V}.

Lemma index_max_bound (index : list Z) (m : Z) :
  index_max index = Some m → m ∈ index ∧ (∀ i, i ∈ index → (i ≤ m)%Z).
Proof.
  destruct index as [|label index]; [done|]. intros [= <-].
  induction index as [|j index [IHin IHle]]; simpl.
  - split; [by left|]. intros i ->%list_elem_of_singleton. lia.
  - split.
    + destruct (Z.max_spec j (foldr Z.max label index)) as [[_ ->]|[_ ->]].
      * apply elem_of_cons in IHin as [->|IHin]; [by left|].
        right; by right.
      * right; by left.
    + intros i [->|[->|Hi]%elem_of_cons]%elem_of_cons.
      * pose proof (IHle label ltac:(by left)). lia.
      * lia.
      * pose proof (IHle i ltac:(by right)). lia.
Qed.

Lemma loc_get_unique (df : @tracking_table V) (label : Z) (row : gmap string V) :
  loc_get df label = [row] →
  ∃ pre post, df = pre ++ (label, row) :: post
              ∧ (label ∉ pre.*1) ∧ (label ∉ post.*1).
Proof.
  unfold loc_get, tracking_table in *. induction df as [|[i r] df IH]; [done|].
  rewrite filter_cons. cbn [fst]. destruct (decide (i = label)) as [->|Hne].
  - rewrite fmap_cons. cbn [snd]. intros [= -> Hrest].
    exists [], df. split; [done|]. split; [by apply not_elem_of_nil|].
    apply fmap_nil_inv in Hrest.
    intros ([j r'] & Hj & Hin)%list_elem_of_fmap. simpl in Hj. subst j.
    assert ((label, r') ∈ filter (λ r0 : Z * gmap string V, r0.1 = label) df)
      as Hf by (by apply list_elem_of_filter).
    rewrite Hrest in Hf. by apply elem_of_nil in Hf.
  - intros Hget. destruct (IH Hget) as (pre & post & -> & Hpre & Hpost).
    exists ((i, r) :: pre), post. split; [done|]. split; [|done].
    rewrite fmap_cons. cbn [fst]. by apply not_elem_of_cons.
Qed.

Lemma loc_set_absent (df : @tracking_table V) (label : Z) (column : string)
    (v : option V) :
  label ∉ df.*1 → loc_set df label column v = df ++ [(label, set_cell ∅ column v)].
Proof. intros Hl. unfold loc_set. by destruct (decide (label ∈ df.*1)). Qed.

Lemma map_other_labels (df : @tracking_table V) (label : Z)
    (column : string) (v : option V) :
  label ∉ df.*1 →
  map (λ r : Z * gmap string V,
         if decide (r.1 = label) then (r.1, set_cell r.2 column v) else r) df
  = df.
Proof.
  induction df as [|[i r] df IH]; [done|]. rewrite fmap_cons. cbn [fst].
  intros [Hne Hl]%not_elem_of_cons. simpl.
  destruct (decide (i = label)); [by subst|]. by rewrite IH.
Qed.

Lemma loc_set_unique (pre post : @tracking_table V) (label : Z)
    (row : gmap string V) (column : string) (v : option V) :
  label ∉ pre.*1 → label ∉ post.*1 →
  loc_set (pre ++ (label, row) :: post) label column v
  = pre ++ (label, set_cell row column v) :: post.
Proof.
  intros Hpre Hpost. unfold loc_set.
  destruct (decide _) as [_|Hout].
  - rewrite map_app, map_cons. cbn [fst snd].
    destruct (decide (label = label)); [|done].
    by rewrite !map_other_labels.
  - destruct Hout. rewrite fmap_app, fmap_cons. apply elem_of_app. right.
    by left.
Qed.

(** What a successful call makes of the table. *)
Lemma fill_tracking_df_run (df df' : @tracking_table V)
    (a b c d e f g : option V) :
  fill_tracking_df df a b c d e f g = Ok df' →
  ∃ pre row post m,
    df = pre ++ (m, row) :: post
    ∧ (m ∉ pre.*1) ∧ (m ∉ post.*1)
    ∧ index_max df.*1 = Some m
    ∧ df' = if decide (row = ∅)
            then pre ++ (m, written_row ∅ a b c d e f g) :: post
            else df ++ [((m + 1)%Z, written_row ∅ a b c d e f g)].
Proof.
  unfold fill_tracking_df.
  destruct (index_max df.*1) as [m|] eqn:Hmax; [|done].
  destruct (loc_get df m) as [|row [|row' rows]] eqn:Hget; [done| |done].
  destruct (loc_get_unique df m row Hget) as (pre & post & -> & Hpre & Hpost).
  cbv zeta. intros [= <-]. exists pre, row, post, m.
  split; [done|]. split; [done|]. split; [done|]. split; [done|].
  destruct (decide (row = ∅)) as [->|Hrow].
  - by rewrite !loc_set_unique by done.
  - destruct (index_max_bound _ _ Hmax) as [_ Hle].
    assert ((m + 1)%Z ∉ (pre ++ (m, row) :: post).*1) as Hnew.
    { intros Hin. apply Hle in Hin. lia. }
    rewrite (loc_set_absent (pre ++ (m, row) :: post)) by done.
    assert ((m + 1)%Z ∉ ([] : @tracking_table V).*1) as Hnil
      by apply not_elem_of_nil.
    by rewrite !(loc_set_unique _ []) by done.
Qed.

(** X25: recorded rows are never overwritten.  Whenever
    [fill_tracking_df] succeeds, every row of the table that had a cell
    other than NaN is still there with the same cells, and the index has
    grown by at most one label, added at the end. *)
Theorem fill_tracking_df_keeps_records (df df' : @tracking_table V)
    (sleep_classes sampling_strategy smote_k_neighbors
     random_forest_train_score random_forest_test_score
     gboost_train_score gboost_test_score : option V) :
  fill_tracking_df df sleep_classes sampling_strategy smote_k_neighbors
    random_forest_train_score random_forest_test_score
    gboost_train_score gboost_test_score = Ok df' →
  (∀ label row, (label, row) ∈ df → row ≠ ∅ → (label, row) ∈ df')
  ∧ (df'.*1 = df.*1 ∨ ∃ label, (label ∉ df.*1) ∧ df'.*1 = df.*1 ++ [label]).
Proof.
  intros Hrun.
  destruct (fill_tracking_df_run _ _ _ _ _ _ _ _ _ Hrun)
    as (pre & row & post & m & -> & Hpre & Hpost & Hmax & ->).
  destruct (decide (row = ∅)) as [->|Hrow].
  - split.
    + intros label r Hin Hr. rewrite elem_of_app, elem_of_cons in Hin.
      rewrite elem_of_app, elem_of_cons.
      destruct Hin as [Hin|[[= -> ->]|Hin]]; [by left|done|by right; right].
    + left. by rewrite !fmap_app, !fmap_cons.
  - split.
    + intros label r Hin _. apply elem_of_app. by left.
    + right. exists (m + 1)%Z. split; [|by rewrite fmap_app].
      destruct (index_max_bound _ _ Hmax) as [_ Hle].
      intros Hin. apply Hle in Hin. lia.
Qed.

Lemma lookup_set_cell (row : gmap string V) (column : string) (v : option V) :
  set_cell row column v !! column = v.
Proof.
  destruct v; simpl; [apply lookup_insert_eq|apply lookup_delete_eq].
Qed.

Lemma lookup_set_cell_ne (row : gmap string V) (column other : string)
    (v : option V) :
  column ≠ other → set_cell row column v !! other = row !! other.
Proof.
  intros Hne. destruct v; simpl;
    [by apply lookup_insert_ne|by apply lookup_delete_ne].
Qed.

Lemma written_row_lookup (row : gmap string V) (a b c d e f g : option V) :
  let row' := written_row row a b c d e f g in
  row' !! "sleep_classes" = a
  ∧ row' !! "sampling_strategy" = b
  ∧ row' !! "smote_k_neighbors" = c
  ∧ row' !! "random_forest_train_score" = d
  ∧ row' !! "random_forest_test_score" = e
  ∧ row' !! "gboost_train_score" = f
  ∧ row' !! "gboost_test_score" = g.
Proof.
  unfold written_row. cbv zeta.
  repeat split;
    repeat (rewrite lookup_set_cell_ne by done); apply lookup_set_cell.
Qed.

Lemma loc_get_at (pre post : @tracking_table V) (label : Z)
    (row : gmap string V) :
  label ∉ pre.*1 → label ∉ post.*1 →
  loc_get (pre ++ (label, row) :: post) label = [row].
Proof.
  intros Hpre Hpost. unfold loc_get, tracking_table in *.
  assert (∀ l : list (Z * gmap string V),
            label ∉ l.*1 → filter (λ r, r.1 = label) l = []) as Hnone.
  { intros l Hl. induction l as [|[i r] l IH]; [done|].
    rewrite fmap_cons in Hl. apply not_elem_of_cons in Hl as [Hne Hl].
    rewrite filter_cons. cbn [fst] in *.
    destruct (decide (i = label)); [by subst|by apply IH]. }
  rewrite filter_app, filter_cons. cbn [fst].
  destruct (decide (label = label)); [|done].
  by rewrite !Hnone by done.
Qed.

Lemma index_max_snoc (index : list Z) (m : Z) :
  index_max index = Some m → index_max (index ++ [(m + 1)%Z]) = Some (m + 1)%Z.
Proof.
  destruct index as [|label index]; [done|]. simpl. intros [= <-]. f_equal.
  assert (∀ x, foldr Z.max label (index ++ [x])
               = Z.max x (foldr Z.max label index)) as ->; [|lia].
  intros x. induction index as [|j index IH]; simpl; [lia|]. rewrite IH. lia.
Qed.

Lemma fill_tracking_df_last_row (df df' : @tracking_table V)
    (a b c d e f g : option V) :
  fill_tracking_df df a b c d e f g = Ok df' →
  ∃ label,
    index_max df'.*1 = Some label
    ∧ loc_get df' label = [written_row ∅ a b c d e f g].
Proof.
  intros Hrun.
  destruct (fill_tracking_df_run _ _ _ _ _ _ _ _ _ Hrun)
    as (pre & row & post & m & -> & Hpre & Hpost & Hmax & ->).
  destruct (decide (row = ∅)) as [->|Hrow].
  - exists m. split; [by rewrite fmap_app, fmap_cons in *|].
    by apply loc_get_at.
  - exists (m + 1)%Z. split; [rewrite fmap_app; by apply index_max_snoc|].
    apply (loc_get_at _ []); [|apply not_elem_of_nil].
    destruct (index_max_bound _ _ Hmax) as [_ Hle].
    intros Hin. apply Hle in Hin. lia.
Qed.

(** X26: the row written is the last one.  After a successful call the
    greatest label of the table names a single row, and that row holds the
    seven values of the call, NaN where NaN was given. *)
Theorem fill_tracking_df_writes_last (df df' : @tracking_table V)
    (sleep_classes sampling_strategy smote_k_neighbors
     random_forest_train_score random_forest_test_score
     gboost_train_score gboost_test_score : option V) :
  fill_tracking_df df sleep_classes sampling_strategy smote_k_neighbors
    random_forest_train_score random_forest_test_score
    gboost_train_score gboost_test_score = Ok df' →
  ∃ label row,
    index_max df'.*1 = Some label
    ∧ loc_get df' label = [row]
    ∧ row !! "sleep_classes" = sleep_classes
    ∧ row !! "sampling_strategy" = sampling_strategy
    ∧ row !! "smote_k_neighbors" = smote_k_neighbors
    ∧ row !! "random_forest_train_score" = random_forest_train_score
    ∧ row !! "random_forest_test_score" = random_forest_test_score
    ∧ row !! "gboost_train_score" = gboost_train_score
    ∧ row !! "gboost_test_score" = gboost_test_score.
Proof.
  intros Hrun.
  destruct (fill_tracking_df_last_row _ _ _ _ _ _ _ _ _ Hrun)
    as (label & Hmax & Hget).
  exists label. eexists. split; [done|]. split; [done|].
  apply written_row_lookup.
Qed.

(** X27: a second call starts a new row.  After a successful call that
    recorded at least one value other than NaN, the next call succeeds and
    appends a row under the next label, leaving the table of the first call
    as a prefix. *)
Theorem fill_tracking_df_twice (df df1 : @tracking_table V)
    (a b c d e f g a' b' c' d' e' f' g' : option V) :
  fill_tracking_df df a b c d e f g = Ok df1 →
  Exists is_Some [a; b; c; d; e; f; g] →
  ∃ label,
    index_max df1.*1 = Some label
    ∧ fill_tracking_df df1 a' b' c' d' e' f' g'
      = Ok (df1 ++ [((label + 1)%Z, written_row ∅ a' b' c' d' e' f' g')]).
Proof.
  intros Hrun Hsome.
  assert (written_row ∅ a b c d e f g ≠ ∅) as Hrow.
  { intros Hempty.
    destruct (written_row_lookup ∅ a b c d e f g)
      as (Ha & Hb & Hc & Hd & He & Hf & Hg).
    rewrite Hempty, lookup_empty in Ha, Hb, Hc, Hd, He, Hf, Hg. subst.
    repeat (apply Exists_cons in Hsome as [[? [=]]|Hsome]).
    by apply Exists_nil in Hsome. }
  destruct (fill_tracking_df_last_row _ _ _ _ _ _ _ _ _ Hrun)
    as (label & Hmax & Hget).
  exists label. split; [done|].
  unfold fill_tracking_df. rewrite Hmax, Hget. cbv zeta.
  destruct (decide (written_row ∅ a b c d e f g = ∅)) as [|_]; [done|].
  destruct (index_max_bound _ _ Hmax) as [_ Hle].
  assert ((label + 1)%Z ∉ df1.*1) as Hnew.
  { intros Hin. apply Hle in Hin. lia. }
  rewrite (loc_set_absent df1) by done.
  assert ((label + 1)%Z ∉ ([] : @tracking_table V).*1) as Hnil
    by apply not_elem_of_nil.
  by rewrite !(loc_set_unique _ []) by done.
Qed.

End TrackingTableFacts.

Lemma fill_tracking_df_keeps_records_witness :
  (∀ label row, (label, row) ∈ tracking_example → row ≠ ∅ →
                (label, row) ∈ tracking_filled)
  ∧ (tracking_filled.*1 = tracking_example.*1
     ∨ ∃ label, (label ∉ tracking_example.*1)
                ∧ tracking_filled.*1 = tracking_example.*1 ++ [label]).
Proof.
  apply (fill_tracking_df_keeps_records tracking_example tracking_filled
           (Some 4%Z) None (Some 5%Z) None None None None).
  apply (bool_decide_unpack _). vm_compute. reflexivity.
Defined.

Lemma fill_tracking_df_writes_last_witness :
  ∃ label row,
    index_max tracking_filled.*1 = Some label
    ∧ loc_get tracking_filled label = [row]
    ∧ row !! "sleep_classes" = Some 4%Z
    ∧ row !! "sampling_strategy" = None
    ∧ row !! "smote_k_neighbors" = Some 5%Z
    ∧ row !! "random_forest_train_score" = None
    ∧ row !! "random_forest_test_score" = None
    ∧ row !! "gboost_train_score" = None
    ∧ row !! "gboost_test_score" = None.
Proof.
  apply (fill_tracking_df_writes_last tracking_example tracking_filled
           (Some 4%Z) None (Some 5%Z) None None None None).
  apply (bool_decide_unpack _). vm_compute. reflexivity.
Defined.

Lemma fill_tracking_df_twice_witness :
  ∃ label,
    index_max tracking_filled.*1 = Some label
    ∧ fill_tracking_df tracking_filled (Some 6%Z) None None None None None None
      = Ok (tracking_filled
            ++ [((label + 1)%Z,
                 written_row ∅ (Some 6%Z) None None None None None None)]).
Proof.
  apply (fill_tracking_df_twice tracking_example tracking_filled
           (Some 4%Z) None (Some 5%Z) None None None None).
  - apply (bool_decide_unpack _). vm_compute. reflexivity.
  - left. eauto.
Defined.

(** ** The random forest *)

Lemma run_bind_ext {A B} (m : Run A) (k1 k2 : A → Run B) (s : session) :
  (∀ a s', k1 a s' = k2 a s') → run_bind m k1 s = run_bind m k2 s.
Proof. intros Hk. unfold run_bind. by destruct (m s) as [s' [a|e]]. Qed.

Lemma run_bind_ret {A B} (a : A) (k : A → Run B) (s : session) :
  run_bind (run_ret a) k s = k a s.
Proof. reflexivity. Qed.

(** X28: a train/test forest cannot be registered either.
    [random_forest_train_test] calls [mlflow_rforest] with a keyword that
    function does not have: with [mlflow_register] set the call never
    returns and never reaches mlflow, whatever the data, the parameters and
    the run name. *)
Theorem random_forest_train_test_never_registers (sqrt : Qc → Qc)
    (format4 : np_float → string) {estimator : Type}
    (train_test_split :
       frame (list Qc) → list Qc → Qc → Z →
       result (frame (list Qc) * frame (list Qc) * list Qc * list Qc))
    (fit :
       list (string * param) → Z → frame (list Qc) → list Qc →
       result estimator)
    (predict : estimator → frame (list Qc) → result (list Qc))
    (X : option (frame (list Qc))) (y : option (list Qc))
    (test_size : option Qc) (X_train X_test : option (frame (list Qc)))
    (y_train y_test : option (list Qc))
    (rf_params : option (gmap string param)) (random_state : Z)
    (run_name : string) (s : session) :
  ∃ s' e,
    random_forest_train_test sqrt format4 train_test_split fit predict
      X y test_size X_train X_test y_train y_test rf_params random_state
      true run_name s
    = (s', Throw e)
    ∧ tracking s' = tracking s.
Proof.
  apply wp_throws. unfold random_forest_train_test.
  set (quiet := λ s' : session, tracking s' = tracking s).
  assert (quiet s) as Hs0 by reflexivity.
  assert (∀ A (r : result A) s' (Φ : A → session → Prop),
            quiet s' → (∀ a, Φ a s') →
            run_wp (of_result r) s' Φ (λ _ s'', quiet s'')) as Hres.
  { intros A r s' Φ Hs' HΦ. by apply wp_of_result. }
  assert (∀ m s' (Φ : value → session → Prop),
            quiet s' → (∀ v, Φ v s') →
            run_wp (metric m) s' Φ (λ _ s'', quiet s'')) as Hmetric.
  { intros m s' Φ Hs' HΦ. destruct m; [by apply HΦ|done]. }
  assert (∀ A (m : Py A) s',
            quiet s' →
            run_wp (py m) s' (λ _ s'', quiet s'') (λ _ s'', quiet s''))
    as Hpy.
  { intros A m s' Hs'. by apply wp_py. }
  apply (wp_inv (λ _, quiet)).
  { destruct X as [X|], y as [y|], test_size as [size|];
      try destruct (decide (size = 0));
      try destruct X_train, X_test, y_train, y_test;
      first [exact Hs0|by apply Hres]. }
  intros [[[X_train' X_test'] y_train'] y_test'] s1 Hs1.
  apply (wp_inv (λ _, quiet)); [by apply Hpy|]. intros perf_dict s2 Hs2.
  apply (wp_inv (λ _, quiet)); [by destruct rf_params|]. intros d s3 Hs3.
  apply (wp_inv (λ _, quiet)); [by apply Hres|]. intros rf s4 Hs4.
  apply (wp_inv (λ _, quiet)); [by apply Hres|]. intros y_hat s5 Hs5.
  apply (wp_inv (λ _, quiet)); [by apply Hres|].
  intros [[[rmse mae] r2_score] adjusted] s6 Hs6.
  repeat (apply (wp_inv (λ _, quiet)); [by apply Hmetric|intros ? ? ?];
          apply (wp_inv (λ _, quiet)); [by apply Hpy|intros ? ? ?]).
  match goal with
  | H : quiet ?s' |- run_wp _ ?s' _ _ =>
      apply (wp_inv (λ _, quiet)); [by apply Hres|]
  end.
  intros y_hat' s7 Hs7.
  apply (wp_inv (λ _, quiet)); [by apply Hres|].
  intros [[[rmse' mae'] r2_score'] adjusted'] s8 Hs8.
  repeat (apply (wp_inv (λ _, quiet)); [by apply Hmetric|intros ? ? ?];
          apply (wp_inv (λ _, quiet)); [by apply Hpy|intros ? ? ?]).
  apply (wp_inv (λ _ _, False)); [|done].
  destruct (decide (run_name = "")); [done|].
  apply (wp_inv (λ _, quiet)); [|done].
  by destruct (d !! "max_depth").
Qed.

Lemma rf_arguments_ext (d1 d2 : gmap string param) :
  (∀ key, key ∈ rf_defaults.*1 → d1 !! key = d2 !! key) →
  rf_arguments d1 = rf_arguments d2.
Proof.
  intros Hsame. unfold rf_arguments. apply map_ext_in. intros [key dflt] Hin.
  cbn [fst snd]. rewrite Hsame; [done|].
  apply list_elem_of_fmap. exists (key, dflt). split; [done|].
  by apply list_elem_of_In.
Qed.

(** X29: parameters the forest does not know are ignored.  Two [rf_params]
    that agree on the sixteen keys the function reads give the same run,
    result and final state alike: a key outside them, a misspelt one for
    instance, changes nothing and is not reported. *)
Theorem random_forest_ignores_unknown_params (sqrt : Qc → Qc)
    (format4 : np_float → string) {estimator : Type}
    (train_test_split :
       frame (list Qc) → list Qc → Qc → Z →
       result (frame (list Qc) * frame (list Qc) * list Qc * list Qc))
    (fit :
       list (string * param) → Z → frame (list Qc) → list Qc →
       result estimator)
    (predict : estimator → frame (list Qc) → result (list Qc))
    (X : option (frame (list Qc))) (y : option (list Qc))
    (test_size : option Qc) (X_train X_test : option (frame (list Qc)))
    (y_train y_test : option (list Qc))
    (d1 d2 : gmap string param) (random_state : Z)
    (mlflow_register : bool) (run_name : string) (s : session) :
  (∀ key, key ∈ rf_defaults.*1 → d1 !! key = d2 !! key) →
  random_forest_train_test sqrt format4 train_test_split fit predict
    X y test_size X_train X_test y_train y_test (Some d1) random_state
    mlflow_register run_name s
  = random_forest_train_test sqrt format4 train_test_split fit predict
      X y test_size X_train X_test y_train y_test (Some d2) random_state
      mlflow_register run_name s.
Proof.
  intros Hsame.
  pose proof (rf_arguments_ext d1 d2 Hsame) as Hargs.
  assert (d1 !! "max_depth" = d2 !! "max_depth") as Hdepth.
  { apply Hsame. set_solver. }
  unfold random_forest_train_test.
  apply run_bind_ext. intros [[[X_train' X_test'] y_train'] y_test'] s1.
  apply run_bind_ext. intros perf_dict s2.
  rewrite !run_bind_ret, Hargs.
  apply run_bind_ext. intros rf s3.
  apply run_bind_ext. intros y_hat s4.
  apply run_bind_ext. intros [[[rmse mae] r2_score] adjusted] s5.
  do 8 (apply run_bind_ext; intros ? ?).
  apply run_bind_ext. intros y_hat' s6.
  apply run_bind_ext. intros [[[rmse' mae'] r2_score'] adjusted'] s7.
  do 8 (apply run_bind_ext; intros ? ?).
  by rewrite Hdepth.
Qed.

Lemma random_forest_ignores_unknown_params_witness :
  random_forest_train_test sqrt12 no_format
    (λ _ _ _ _, Raise ValueError) (λ _ _ _ _, Ok ()) (λ _ _, Ok [of_Z 1; of_Z 2])
    None None None
    (Some [("a", [of_Z 1; of_Z 2])]) (Some [("a", [of_Z 1; of_Z 2])])
    (Some [of_Z 1; of_Z 2]) (Some [of_Z 1; of_Z 2])
    (Some {["n_estimator" := PInt 500]}) 42 false "" empty_session
  = random_forest_train_test sqrt12 no_format
      (λ _ _ _ _, Raise ValueError) (λ _ _ _ _, Ok ()) (λ _ _, Ok [of_Z 1; of_Z 2])
      None None None
      (Some [("a", [of_Z 1; of_Z 2])]) (Some [("a", [of_Z 1; of_Z 2])])
      (Some [of_Z 1; of_Z 2]) (Some [of_Z 1; of_Z 2])
      (Some ∅) 42 false "" empty_session.
Proof.
  apply (random_forest_ignores_unknown_params sqrt12 no_format
           (λ _ _ _ _, Raise ValueError) (λ _ _ _ _, Ok ())
           (λ _ _, Ok [of_Z 1; of_Z 2])
           None None None
           (Some [("a", [of_Z 1; of_Z 2])]) (Some [("a", [of_Z 1; of_Z 2])])
           (Some [of_Z 1; of_Z 2]) (Some [of_Z 1; of_Z 2])
           {["n_estimator" := PInt 500]} ∅ 42 false "" empty_session).
  intros key Hkey. rewrite lookup_empty. apply lookup_singleton_None.
  intros <-. revert Hkey. vm_compute. set_solver.
Defined.
